(** * DataMapper: the extraction / alignment / merge / write-back engine

    A shallow embedding of [utils.py], [process.py] and the export step of
    [app.py], with the mapping list and the registration of sources,
    followed by the properties of the engine.

    Python values are represented as follows.
    - [str] is [string]: the UTF-8 encoding of the Python string, byte by
      byte.  Equality, the order of [sorted], search, split, prefix test and
      concatenation on the encodings agree with those on the strings, and a
      slice that drops a tested prefix drops the bytes of that prefix;
      [strip] trims the white space of [str.strip], ASCII or not, in its
      encoded form.
    - an insertion-ordered [dict] with string keys is an association list
      ([dict V]) with Python's assignment semantics ([dict_set]: an existing
      key keeps its position and gets the new value, a new key goes last).
    - an exception is the [Raise] outcome of [result]; [try/except] is a
      match on it. *)

From Stdlib Require Import String Ascii.
From stdpp Require Import gmap strings list sorting pretty.

(** ** Python primitives *)

Inductive exn : Type :=
  | ParseError     (* xml.etree.ElementTree.ParseError *)
  | SyntaxError    (* raised by ElementPath on an invalid expression *)
  | ValueError.    (* tuple unpacking of a list of the wrong length *)

(** Outcome of a call.  [Unmodelled] marks an input on which the library
    routine below ([findall]) is not described by this development; it is
    neither a result nor an exception and propagates like one. *)
Inductive result (A : Type) : Type :=
  | Ok (a : A)
  | Raise (e : exn)
  | Unmodelled.
Arguments Ok {A} a.
Arguments Raise {A} e.
Arguments Unmodelled {A}.

#[global] Instance result_ret : MRet result := fun A a => Ok a.
#[global] Instance result_bind : MBind result := fun A B k r =>
  match r with
  | Ok a => k a
  | Raise e => Raise e
  | Unmodelled => Unmodelled
  end.

Definition is_Ok {A} (r : result A) : bool :=
  match r with Ok _ => true | _ => false end.

(** *** Strings *)

(** [c in s] for a one-character [c]. *)
Fixpoint contains_char (c : ascii) (s : string) : bool :=
  match s with
  | EmptyString => false
  | String d s' => if Ascii.eqb c d then true else contains_char c s'
  end.

(** [s.startswith(p)] *)
Definition startswith (s p : string) : bool := String.prefix p s.

(** [s[n:]] *)
Fixpoint drop_str (n : nat) (s : string) : string :=
  match n, s with
  | O, _ => s
  | S n', String _ s' => drop_str n' s'
  | S _, EmptyString => EmptyString
  end.

(** [s.rsplit(sep, 1)] for a non-empty [sep]: [Some (a, b)] when the result is
    the two-element list [[a, b]] (split at the last occurrence of [sep]),
    [None] when [sep] does not occur and the result is [[s]]. *)
Fixpoint rsplit1 (sep s : string) : option (string * string) :=
  match s with
  | EmptyString => None
  | String c s' =>
      match rsplit1 sep s' with
      | Some (a, b) => Some (String c a, b)
      | None =>
          if String.prefix sep s
          then Some (EmptyString, drop_str (String.length sep) s)
          else None
      end
  end.

(** White space removed by [str.strip()]: the characters for which
    [str.isspace] holds, in their UTF-8 encoding.  In one byte: U+0009 to
    U+000D, U+001C to U+001F and U+0020. *)
Definition is_space (c : ascii) : bool :=
  let n := nat_of_ascii c in
  (Nat.eqb n 32 || (Nat.leb 9 n && Nat.leb n 13) || (Nat.leb 28 n && Nat.leb n 31))%nat.

(** In two bytes: U+0085 (C2 85) and U+00A0 (C2 A0). *)
Definition is_space2 (c d : ascii) : bool :=
  let m := nat_of_ascii c in
  let n := nat_of_ascii d in
  (Nat.eqb m 194 && (Nat.eqb n 133 || Nat.eqb n 160))%nat.

(** In three bytes: U+1680 (E1 9A 80), U+2000 to U+200A (E2 80 80 to
    E2 80 8A), U+2028 and U+2029 (E2 80 A8, E2 80 A9), U+202F (E2 80 AF),
    U+205F (E2 81 9F) and U+3000 (E3 80 80). *)
Definition is_space3 (c d e : ascii) : bool :=
  let l := nat_of_ascii c in
  let m := nat_of_ascii d in
  let n := nat_of_ascii e in
  ((Nat.eqb l 225 && Nat.eqb m 154 && Nat.eqb n 128)
   || (Nat.eqb l 226 && Nat.eqb m 128
       && ((Nat.leb 128 n && Nat.leb n 138)
           || Nat.eqb n 168 || Nat.eqb n 169 || Nat.eqb n 175))
   || (Nat.eqb l 226 && Nat.eqb m 129 && Nat.eqb n 159)
   || (Nat.eqb l 227 && Nat.eqb m 128 && Nat.eqb n 128))%nat.

(** [s.lstrip()]: the leading white-space characters are removed, each of
    one, two or three bytes. *)
Fixpoint lstrip (s : string) : string :=
  match s with
  | EmptyString => EmptyString
  | String c s1 =>
      if is_space c then lstrip s1
      else
        match s1 with
        | EmptyString => s
        | String d s2 =>
            if is_space2 c d then lstrip s2
            else
              match s2 with
              | EmptyString => s
              | String e s3 => if is_space3 c d e then lstrip s3 else s
              end
        end
  end.

(** [s.rstrip()]: the string is cut where what follows is white space
    only. *)
Fixpoint rstrip (s : string) : string :=
  match s with
  | EmptyString => EmptyString
  | String c s' =>
      match lstrip s with
      | EmptyString => EmptyString
      | _ => String c (rstrip s')
      end
  end.

Definition strip (s : string) : string := rstrip (lstrip s).

(** Truth value of a string: the empty string is false. *)
Definition truthy (s : string) : bool :=
  match s with EmptyString => false | _ => true end.

(** *** Ordered dictionaries *)

Definition dict (V : Type) : Type := list (string * V).

Fixpoint dict_get {V} (d : dict V) (k : string) : option V :=
  match d with
  | [] => None
  | (k', v) :: d' => if String.eqb k k' then Some v else dict_get d' k
  end.

Definition dict_mem {V} (d : dict V) (k : string) : bool :=
  match dict_get d k with Some _ => true | None => false end.

(** [d[k] = v] *)
Fixpoint dict_set {V} (d : dict V) (k : string) (v : V) : dict V :=
  match d with
  | [] => [(k, v)]
  | (k', v') :: d' =>
      if String.eqb k k' then (k', v) :: d' else (k', v') :: dict_set d' k v
  end.

Definition keys {V} (d : dict V) : list string := map fst d.

(** ** xml.etree.ElementTree *)

Module ET.

(** An element: its tag, its attributes in document order, its text (the
    character data before the first child, [None] when there is none) and its
    child elements. *)
#[warnings="-register-all"]
Inductive Element : Type :=
  | Elem (tag : string) (attrib : dict string) (text : option string)
         (children : list Element).

Definition tag (e : Element) : string := let 'Elem t _ _ _ := e in t.
Definition attrib (e : Element) : dict string := let 'Elem _ a _ _ := e in a.
Definition text (e : Element) : option string := let 'Elem _ _ x _ := e in x.
Definition children (e : Element) : list Element := let 'Elem _ _ _ c := e in c.

(** [elem.get(name)]: the attribute value, [None] when absent. *)
Definition get (e : Element) (name : string) : option string :=
  dict_get (attrib e) name.

(** What [ET.parse(path)] finds in a file: something that is not well-formed
    XML, or a document with its root element.  The parser itself is library
    code; it is represented by its outcome. *)
Inductive xml_file : Type :=
  | NotWellFormed
  | Document (root : Element).

(** [ET.parse(f).getroot()] *)
Definition parse (f : xml_file) : result Element :=
  match f with
  | NotWellFormed => Raise ParseError
  | Document root => Ok root
  end.

(** *** [Element.findall]

    ElementPath is modelled on the location paths this program builds from
    its own path lists: [.] (the element itself) and chains of tag names
    separated by [/], each name an ASCII XML name without a namespace.  The
    empty path matches nothing (no child has the empty tag), and an absolute
    path (one that starts with [/]) is rejected with [SyntaxError("cannot
    use absolute path on element")].  Every other expression (predicates,
    wildcards, [..], [//], qualified names) is left [Unmodelled]. *)

Definition is_letter (c : ascii) : bool :=
  let n := nat_of_ascii c in
  ((Nat.leb 65 n && Nat.leb n 90) || (Nat.leb 97 n && Nat.leb n 122))%nat.

Definition is_digit (c : ascii) : bool :=
  let n := nat_of_ascii c in (Nat.leb 48 n && Nat.leb n 57)%nat.

Definition name_start_char (c : ascii) : bool :=
  is_letter c || Ascii.eqb c "_".

Definition name_char (c : ascii) : bool :=
  name_start_char c || is_digit c || Ascii.eqb c "-" || Ascii.eqb c ".".

Fixpoint all_chars (p : ascii -> bool) (s : string) : bool :=
  match s with
  | EmptyString => true
  | String c s' => p c && all_chars p s'
  end.

(** An XML name (ASCII, no colon). *)
Definition plain_name (s : string) : bool :=
  match s with
  | EmptyString => false
  | String c s' => name_start_char c && all_chars name_char s'
  end.

(** [s.split(c)] *)
Fixpoint split_on (c : ascii) (s : string) : list string :=
  match s with
  | EmptyString => [EmptyString]
  | String d s' =>
      if Ascii.eqb c d then EmptyString :: split_on c s'
      else match split_on c s' with
           | h :: t => String d h :: t
           | [] => [String d EmptyString]
           end
  end.

Inductive step : Type :=
  | SelfStep
  | ChildStep (name : string).

Definition parse_step (seg : string) : option step :=
  if String.eqb seg "." then Some SelfStep
  else if plain_name seg then Some (ChildStep seg)
  else None.

Definition select (st : step) (matched : list Element) : list Element :=
  match st with
  | SelfStep => matched
  | ChildStep name =>
      flat_map (fun e => filter (fun c => tag c = name) (children e)) matched
  end.

Definition findall (root : Element) (path : string) : result (list Element) :=
  if String.eqb path "" then Ok []
  else if startswith path "/" then Raise SyntaxError
  else match mapM parse_step (split_on "/" path) with
       | Some steps => Ok (foldl (fun matched st => select st matched) [root] steps)
       | None => Unmodelled
       end.

End ET.

(** ** utils.py *)

(** The inner function of [extract_xml_tags]. *)
Fixpoint get_xpath (element : ET.Element) (current_path : string) : list string :=
  let 'ET.Elem tag attrib text children := element in
  let path := if truthy current_path
              then current_path +:+ "/" +:+ tag
              else tag in
  (if Nat.eqb (length children) 0
      && match text with Some t => truthy t && truthy (strip t) | None => false end
   then [path] else [])
  ++ map (fun kv => path +:+ "/@" +:+ fst kv) attrib
  ++ flat_map (fun child => get_xpath child path) children.

(** [sorted(list(set(paths)))] *)
Definition sorted_set (paths : list string) : list string :=
  merge_sort String.le (remove_dups paths).

Definition extract_xml_tags (xml_file : ET.xml_file) : list string :=
  match ET.parse xml_file with
  | Ok root =>
      let all_paths := get_xpath root "" in
      sorted_set all_paths
  | Raise _ | Unmodelled => []          (* except Exception: return [] *)
  end.

(** ** Cell values and pandas *)

(** What a table cell or a worksheet cell holds: [None], the float NaN that
    pandas uses for a missing entry, a string, or (in a template) a number. *)
Inductive value : Type :=
  | PyNone
  | NaN
  | Str (s : string)
  | Num (z : Z).

#[global] Instance value_eq_dec : EqDecision value.
Proof. solve_decision. Defined.

#[global] Instance value_countable : Countable value.
Proof.
  refine (inj_countable'
    (fun v => match v with
              | PyNone => inl (inl true)
              | NaN => inl (inl false)
              | Str s => inl (inr s)
              | Num z => inr z
              end)
    (fun x => match x with
              | inl (inl true) => PyNone
              | inl (inl false) => NaN
              | inl (inr s) => Str s
              | inr z => Num z
              end) _).
  by intros [].
Defined.

Definition is_None (v : value) : bool :=
  match v with PyNone => true | _ => false end.

Module Pandas.

(** A [DataFrame] on a [RangeIndex(0, nrows)]: the columns in order, each a
    list of [nrows] values. *)
Record DataFrame : Type := mkDataFrame {
  nrows : nat;
  columns : dict (list value)
}.

(** [pd.DataFrame()] *)
Definition empty_frame : DataFrame := mkDataFrame 0 [].

(** [pd.DataFrame(d)] for a dictionary of lists of one common length. *)
Definition of_dict (d : dict (list value)) : DataFrame :=
  mkDataFrame (match d with [] => 0 | (_, v) :: _ => length v end) d.

(** [len(df)] *)
Definition len (df : DataFrame) : nat := nrows df.

(** [df.empty]: some axis has length 0. *)
Definition empty (df : DataFrame) : bool :=
  Nat.eqb (nrows df) 0 || Nat.eqb (length (columns df)) 0.

(** [df[c]] for a column [c] of [df]. *)
Definition getitem (df : DataFrame) (c : string) : list value :=
  default [] (dict_get (columns df) c).

(** A series on [RangeIndex(0, length s)] aligned to [RangeIndex(0, n)]:
    labels that [s] lacks get NaN, labels beyond [n] are dropped. *)
Definition align_to (n : nat) (s : list value) : list value :=
  take n (s ++ replicate (n - length s) NaN).

(** [df.reindex(pd.RangeIndex(start=0, stop=n, step=1))] *)
Definition reindex (df : DataFrame) (n : nat) : DataFrame :=
  mkDataFrame n (map (fun kv => (fst kv, align_to n (snd kv))) (columns df)).

(** [df.copy()] *)
Definition copy (df : DataFrame) : DataFrame := df.

(** [df[c] = s] for a series [s].  The series is aligned to the index of
    [df]; a frame without rows first takes the index of a non-empty [s]. *)
Definition setitem (df : DataFrame) (c : string) (s : list value) : DataFrame :=
  if Nat.eqb (nrows df) 0 && negb (Nat.eqb (length s) 0)
  then mkDataFrame (length s)
         (dict_set (map (fun kv => (fst kv, align_to (length s) (snd kv)))
                        (columns df)) c s)
  else mkDataFrame (nrows df) (dict_set (columns df) c (align_to (nrows df) s)).

(** Every column has as many values as the frame has rows. *)
Definition well_formed (df : DataFrame) : Prop :=
  Forall (fun kv => length (snd kv) = nrows df) (columns df).

End Pandas.

(** ** process.py: the Value Extractor *)

Definition of_option (o : option string) : value :=
  match o with Some s => Str s | None => PyNone end.

(** The search expression relative to the root, computed the same way in the
    attribute branch and in the text branch of [extract_data_from_one_xml]. *)
Definition path_for_findall (root : ET.Element) (p : string) : string :=
  if String.eqb p (ET.tag root) then "."
  else if startswith p (ET.tag root +:+ "/")
       then drop_str (String.length (ET.tag root) + 1) p
       else p.

(** The body of the loop over [sheet_mappings.items()] up to
    [raw_sheet_data[excel_col] = values]. *)
Definition column_values (root : ET.Element) (xml_tag_path : string)
  : result (list value) :=
  let is_attribute_extraction := contains_char "@" xml_tag_path in
  if is_attribute_extraction then
    match rsplit1 "/@" xml_tag_path with
    | None => Raise ValueError    (* unpacking a one-element list *)
    | Some (base_xml_path, attr_name) =>
        find_elements ← ET.findall root (path_for_findall root base_xml_path);
        Ok (map (fun elem => of_option (ET.get elem attr_name)) find_elements)
    end
  else
    find_elements ← ET.findall root (path_for_findall root xml_tag_path);
    Ok (map (fun elem => Str (default "" (ET.text elem))) find_elements).

(** The loop over the columns of one sheet, threading [raw_sheet_data] and
    [max_len]. *)
Fixpoint raw_sheet_data (root : ET.Element) (sheet_mappings : dict string)
    (raw : dict (list value)) (max_len : nat)
  : result (dict (list value) * nat) :=
  match sheet_mappings with
  | [] => Ok (raw, max_len)
  | (excel_col, xml_tag_path) :: rest =>
      values ← column_values root xml_tag_path;
      raw_sheet_data root rest (dict_set raw excel_col values)
        (if Nat.ltb max_len (length values) then length values else max_len)
  end.

(** [(val_list + [None] * (max_len - len(val_list)))[:max_len]] *)
Definition pad (max_len : nat) (val_list : list value) : list value :=
  take max_len (val_list ++ replicate (max_len - length val_list) PyNone).

(** The dictionary [aligned_sheet_data], built from the items of [raw] in
    order (the keys of [raw] are distinct, so each assignment adds a key). *)
Definition aligned_sheet_data (raw : dict (list value)) (max_len : nat)
  : dict (list value) :=
  map (fun kv => (fst kv, pad max_len (snd kv))) raw.

(** The loop over [mappings_for_this_xml.items()]. *)
Fixpoint data_to_write_to_excel (root : ET.Element)
    (mappings : dict (dict string)) (acc : dict Pandas.DataFrame)
  : result (dict Pandas.DataFrame) :=
  match mappings with
  | [] => Ok acc
  | (sheet_name, sheet_mappings) :: rest =>
      '(raw, max_len) ← raw_sheet_data root sheet_mappings [] 0;
      let aligned := aligned_sheet_data raw max_len in
      let df := match aligned with
                | [] => Pandas.empty_frame
                | _ => Pandas.of_dict aligned
                end in
      data_to_write_to_excel root rest (dict_set acc sheet_name df)
  end.

Definition extract_data_from_one_xml (xml_file_path : ET.xml_file)
    (mappings_for_this_xml : dict (dict string))
  : result (dict Pandas.DataFrame) :=
  root ← ET.parse xml_file_path;
  data_to_write_to_excel root mappings_for_this_xml [].

(** ** openpyxl *)

Module Openpyxl.

(** A worksheet: the values of its cells by (row, column), both counted from
    1.  A cell that is missing or holds [None] reads as [PyNone]. *)
Abbreviation Worksheet := (gmap (nat * nat) value).

(** A workbook: its sheets in order, by title. *)
Abbreviation Workbook := (dict Worksheet).

Definition cell_value (ws : Worksheet) (row col : nat) : value :=
  default PyNone (ws !! (row, col)).

(** [ws.max_column]: the largest column of a cell, 1 for an empty sheet. *)
Definition max_column (ws : Worksheet) : nat :=
  foldr Nat.max 1 (map (fun kv => snd (fst kv)) (map_to_list ws)).

(** [[cell.value for cell in ws[1]]] *)
Definition first_row_values (ws : Worksheet) : list value :=
  map (cell_value ws 1) (seq 1 (max_column ws)).

(** [ws.cell(row=row, column=col, value=v)]: the value is assigned unless it
    is [None]. *)
Definition cell (ws : Worksheet) (row col : nat) (v : value) : Worksheet :=
  if is_None v then ws else <[(row, col) := v]> ws.

End Openpyxl.

(** ** process.py: the Template Writer *)

(** [{header: col_idx for col_idx, header in enumerate(values, start=1)
      if header is not None}] *)
Fixpoint header_index_map_from (col_idx : nat) (header_row_values : list value)
    (m : gmap value nat) : gmap value nat :=
  match header_row_values with
  | [] => m
  | header :: rest =>
      header_index_map_from (S col_idx) rest
        (if is_None header then m else <[header := col_idx]> m)
  end.

Definition header_index_map (header_row_values : list value) : gmap value nat :=
  header_index_map_from 1 header_row_values ∅.

(** [for row_idx_df, value in enumerate(series): ws.cell(row_idx_df + 2, col_idx, value)],
    with [row] the next row to write. *)
Fixpoint write_column (ws : Openpyxl.Worksheet) (row col_idx : nat)
    (series : list value) : Openpyxl.Worksheet :=
  match series with
  | [] => ws
  | v :: rest => write_column (Openpyxl.cell ws row col_idx v) (S row) col_idx rest
  end.

(** What the writer does to one template sheet that has a frame. *)
Definition write_sheet (worksheet : Openpyxl.Worksheet)
    (df_for_sheet : Pandas.DataFrame) : Openpyxl.Worksheet :=
  if Pandas.empty df_for_sheet then worksheet
  else
    let header_row_values := Openpyxl.first_row_values worksheet in
    let index_map := header_index_map header_row_values in
    foldl (fun ws excel_col_header =>
             match index_map !! Str excel_col_header with
             | Some col_idx =>
                 write_column ws 2 col_idx (Pandas.getitem df_for_sheet excel_col_header)
             | None => ws
             end)
          worksheet (keys (Pandas.columns df_for_sheet)).

(** The loop over [workbook.sheetnames]; the result is the workbook that is
    saved at [output_path]. *)
Definition write_dataframes_to_excel (excel_template_file : Openpyxl.Workbook)
    (data_frames_by_sheet : dict Pandas.DataFrame) : Openpyxl.Workbook :=
  foldl (fun workbook sheet_name_in_template =>
           match dict_get data_frames_by_sheet sheet_name_in_template,
                 dict_get workbook sheet_name_in_template with
           | Some df_for_sheet, Some worksheet =>
               dict_set workbook sheet_name_in_template
                        (write_sheet worksheet df_for_sheet)
           | _, _ => workbook
           end)
        excel_template_file (keys excel_template_file).

(** ** app.py: the export *)

(** Step 1, for one source: [max_rows_per_sheet[sheet] =
    max(max_rows_per_sheet.get(sheet, 0), len(df))]. *)
Definition update_max_rows (max_rows : dict nat) (temp_data : dict Pandas.DataFrame)
  : dict nat :=
  foldl (fun acc kv =>
           dict_set acc (fst kv)
             (Nat.max (default 0 (dict_get acc (fst kv))) (Pandas.len (snd kv))))
        max_rows temp_data.

(** Step 2, for one sheet of one source. *)
Definition reindex_to (max_rows_per_sheet : dict nat) (sheet_name : string)
    (df_original : Pandas.DataFrame) : Pandas.DataFrame :=
  match dict_get max_rows_per_sheet sheet_name with
  | Some target_rows =>
      if Nat.ltb (Pandas.len df_original) target_rows
      then Pandas.reindex df_original target_rows
      else df_original
  | None => df_original
  end.

Definition reindexed_data_for_this_xml (max_rows_per_sheet : dict nat)
    (data_for_this_xml : dict Pandas.DataFrame) : dict Pandas.DataFrame :=
  foldl (fun acc kv =>
           dict_set acc (fst kv) (reindex_to max_rows_per_sheet (fst kv) (snd kv)))
        [] data_for_this_xml.

(** Step 3, the inner loop over [df_from_current_source.columns]. *)
Definition add_new_columns (df_existing df_from_current_source : Pandas.DataFrame)
  : Pandas.DataFrame :=
  foldl (fun df col_to_add =>
           if dict_mem (Pandas.columns df) col_to_add then df
           else Pandas.setitem df col_to_add
                  (Pandas.getitem df_from_current_source col_to_add))
        df_existing (keys (Pandas.columns df_from_current_source)).

(** Step 3, for one source. *)
Definition merge_source (final : dict Pandas.DataFrame)
    (data_from_one_source : dict Pandas.DataFrame) : dict Pandas.DataFrame :=
  foldl (fun acc kv =>
           match dict_get acc (fst kv) with
           | None => dict_set acc (fst kv) (Pandas.copy (snd kv))
           | Some df_existing =>
               dict_set acc (fst kv) (add_new_columns df_existing (snd kv))
           end)
        final data_from_one_source.

(** Step 3: the merge of the tables of all sources, in order. *)
Definition final_data_to_write_by_sheet
    (all_extracted_data_by_sheet_and_source : list (dict Pandas.DataFrame))
  : dict Pandas.DataFrame :=
  foldl merge_source [] all_extracted_data_by_sheet_and_source.

(** Steps 1 and 2 over the sources that have mappings, in the order of
    [xml_sources_data], each source given by its file and its mappings. *)
Fixpoint max_rows_per_sheet (sources : list (ET.xml_file * dict (dict string)))
    (acc : dict nat) : result (dict nat) :=
  match sources with
  | [] => Ok acc
  | (f, m) :: rest =>
      temp_data_for_this_xml ← extract_data_from_one_xml f m;
      max_rows_per_sheet rest (update_max_rows acc temp_data_for_this_xml)
  end.

Fixpoint all_extracted_data (max_rows : dict nat)
    (sources : list (ET.xml_file * dict (dict string)))
  : result (list (dict Pandas.DataFrame)) :=
  match sources with
  | [] => Ok []
  | (f, m) :: rest =>
      data_for_this_xml ← extract_data_from_one_xml f m;
      others ← all_extracted_data max_rows rest;
      Ok (reindexed_data_for_this_xml max_rows data_for_this_xml :: others)
  end.

(** Steps 1 to 3: the merged table of every sheet. *)
Definition merged_tables (sources : list (ET.xml_file * dict (dict string)))
  : result (dict Pandas.DataFrame) :=
  max_rows ← max_rows_per_sheet sources [];
  all_data ← all_extracted_data max_rows sources;
  Ok (final_data_to_write_by_sheet all_data).

(** The body of the [try] of the export: the workbook saved at the output
    path.  The template is given as [load_workbook] returns it. *)
Definition generate_excel (template : Openpyxl.Workbook)
    (sources : list (ET.xml_file * dict (dict string)))
  : result Openpyxl.Workbook :=
  final_data ← merged_tables sources;
  Ok (write_dataframes_to_excel template final_data).

(** ** app.py: the mapping list and the sources of an export *)

(** One entry of [st.session_state['mappings']]. *)
Record mapping : Type := mkMapping {
  excel : string;            (* "sheet/column" *)
  xml_path : string;
  xml_source_id : string
}.

(** [[f"{sheet}/{col}" for sheet, cols in excel_data.items() for col in cols]] *)
Definition flat_excel_columns (excel_data : dict (list string)) : list string :=
  flat_map (fun kv => map (fun col => fst kv +:+ "/" +:+ col) (snd kv)) excel_data.

(** The button "Add Mapping": the first entry for the selected Excel column
    is updated in place, and a new entry is appended when there is none. *)
Fixpoint add_mapping (mappings : list mapping)
    (selected_excel selected_xml_tag active_source : string) : list mapping :=
  match mappings with
  | [] => [mkMapping selected_excel selected_xml_tag active_source]
  | m :: rest =>
      if String.eqb (excel m) selected_excel
      then mkMapping (excel m) selected_xml_tag active_source :: rest
      else m :: add_mapping rest selected_excel selected_xml_tag active_source
  end.

(** The button "Remove Last Mapping": [mappings.pop()] on a list that is not
    empty. *)
Definition remove_last_mapping (mappings : list mapping) : list mapping :=
  removelast mappings.

(** [s.split(c, 1)] when [c] occurs in [s]: the parts before and after the
    first [c]; [None] when [c] does not occur. *)
Fixpoint split1 (c : ascii) (s : string) : option (string * string) :=
  match s with
  | EmptyString => None
  | String d s' =>
      if Ascii.eqb c d then Some (EmptyString, s')
      else match split1 c s' with
           | Some (a, b) => Some (String d a, b)
           | None => None
           end
  end.

(** One round of the loop that builds [mappings_by_source_id]. *)
Definition group_mapping (by_source : dict (dict (dict string))) (m_item : mapping)
  : dict (dict (dict string)) :=
  if contains_char "/" (excel m_item) then
    match split1 "/" (excel m_item) with
    | Some (sheet, col) =>
        let source_id_for_mapping := xml_source_id m_item in
        let by_source :=
          if dict_mem by_source source_id_for_mapping then by_source
          else dict_set by_source source_id_for_mapping [] in
        let for_source := default [] (dict_get by_source source_id_for_mapping) in
        let for_source :=
          if dict_mem for_source sheet then for_source
          else dict_set for_source sheet [] in
        let for_sheet := default [] (dict_get for_source sheet) in
        dict_set by_source source_id_for_mapping
          (dict_set for_source sheet (dict_set for_sheet col (xml_path m_item)))
    | None => by_source
    end
  else by_source.

Definition mappings_by_source_id (current_mappings : list mapping)
  : dict (dict (dict string)) :=
  foldl group_mapping [] current_mappings.

(** The sources that an export visits, in the order of [xml_sources_data]
    (each given by its id and its file): those whose id has mappings, each
    with its mappings. *)
Fixpoint sources_with_mappings (xml_sources_data : list (string * ET.xml_file))
    (by_source : dict (dict (dict string)))
  : list (ET.xml_file * dict (dict string)) :=
  match xml_sources_data with
  | [] => []
  | (current_source_id, temp_path) :: rest =>
      match dict_get by_source current_source_id with
      | Some m => (temp_path, m) :: sources_with_mappings rest by_source
      | None => sources_with_mappings rest by_source
      end
  end.

(** The button "Generate Excel": [None] is the warning shown when there is
    no mapping; otherwise the outcome of the [try] block. *)
Definition export (template : Openpyxl.Workbook)
    (xml_sources_data : list (string * ET.xml_file))
    (current_mappings : list mapping) : option (result Openpyxl.Workbook) :=
  match current_mappings with
  | [] => None
  | _ =>
      Some (generate_excel template
              (sources_with_mappings xml_sources_data
                 (mappings_by_source_id current_mappings)))
  end.

(** ** app.py: the registration of uploaded XML files *)

Module Session.

(** An uploaded file: its name, the id that the uploader gives it, and its
    content, represented by what the parser finds in it. *)
Record uploaded_file : Type := mkUploaded {
  name : string;
  file_id : string;
  getvalue : ET.xml_file
}.

(** One entry of [st.session_state.xml_sources_data]; [source_file_id] is the
    entry ['file_id']. *)
Record xml_source : Type := mkSource {
  id : string;
  display_name : string;
  temp_path : ET.xml_file;
  tags : list string;
  source_file_id : string
}.

(** The part of [st.session_state] that the registration reads and writes. *)
Record state : Type := mkState {
  xml_sources_data : list xml_source;
  processed_xml_file_ids : gset string;
  next_xml_internal_id_counter : nat;
  active_xml_source_id_for_mapping : option string
}.

(** The session state of a new session. *)
Definition initial : state := mkState [] ∅ 1 None.

(** One round of the loop over [uploaded_xml_files]. *)
Definition register (st : state) (xml_file_obj : uploaded_file) : state :=
  if decide (file_id xml_file_obj ∈ processed_xml_file_ids st) then st
  else
    let temp_xml_path := getvalue xml_file_obj in
    let xml_tags := extract_xml_tags temp_xml_path in
    let counter := next_xml_internal_id_counter st in
    let xml_internal_id := "xml_" +:+ pretty counter in
    let sources :=
      xml_sources_data st
      ++ [mkSource xml_internal_id
            ("XML " +:+ pretty counter +:+ " (" +:+ name xml_file_obj +:+ ")")
            temp_xml_path xml_tags (file_id xml_file_obj)] in
    let active := active_xml_source_id_for_mapping st in
    mkState sources
      ({[file_id xml_file_obj]} ∪ processed_xml_file_ids st)
      (S counter)
      (if negb (match active with Some a => truthy a | None => false end)
          && negb (Nat.eqb (length sources) 0)
       then id <$> head sources
       else active).

(** The sources as the export reads them: the id and the file of each. *)
Definition sources_of (st : state) : list (string * ET.xml_file) :=
  map (fun s => (id s, temp_path s)) (xml_sources_data st).

End Session.

(** ** Notions used to state the properties *)

(** Strictly increasing: sorted and free of duplicates at once. *)
Definition str_lt (a b : string) : Prop := String.le a b /\ a <> b.

(** The elements of a document in document order, each with its path: the
    root tag for the root, the parent's path, [/] and the tag below it. *)
Fixpoint walk (element : ET.Element) (current_path : string)
  : list (ET.Element * string) :=
  let path := if truthy current_path
              then current_path +:+ "/" +:+ ET.tag element
              else ET.tag element in
  (element, path)
    :: flat_map (fun child => walk child path) (ET.children element).

(** The element is a leaf with text: no child elements, and text that is not
    empty once trimmed. *)
Definition leaf_with_text (e : ET.Element) : Prop :=
  ET.children e = [] /\ exists t, ET.text e = Some t /\ strip t <> "".

(** Some element of the tree carries the attribute. *)
Fixpoint carries (attr : string) (e : ET.Element) : bool :=
  dict_mem (ET.attrib e) attr || existsb (carries attr) (ET.children e).

(** A document without namespaces: every tag and every attribute name is a
    plain ASCII XML name. *)
Fixpoint plain_doc (e : ET.Element) : bool :=
  ET.plain_name (ET.tag e)
  && forallb ET.plain_name (keys (ET.attrib e))
  && forallb plain_doc (ET.children e).

(** [sep.join(l)] *)
Fixpoint join (sep : string) (l : list string) : string :=
  match l with
  | [] => ""
  | [x] => x
  | x :: rest => x +:+ sep +:+ join sep rest
  end.

(** The paths the extractor emits at one element whose path is [p]: [p]
    itself for a leaf with text, then one path per attribute. *)
Definition emitted_at (ep : ET.Element * string) : list string :=
  let '(e, p) := ep in
  (if Nat.eqb (length (ET.children e)) 0
      && match ET.text e with
         | Some t => truthy t && truthy (strip t)
         | None => false
         end
   then [p] else [])
  ++ map (fun kv => p +:+ "/@" +:+ fst kv) (ET.attrib e).

(** The part of an element's path below the path of an ancestor: nothing
    for the ancestor itself, otherwise [/] and the tags on the way down. *)
Definition child_suffix (ts : list string) : string :=
  match ts with
  | [] => ""
  | _ => "/" +:+ join "/" ts
  end.

(** The elements reached from [matched] along a chain of tag names. *)
Definition descend (matched : list ET.Element) (ts : list string)
  : list ET.Element :=
  foldl (fun m st => ET.select st m) matched (ET.ChildStep <$> ts).

(** One step of the loop of [add_new_columns], for the column [col_to_add]
    of the frame [df_new]. *)
Definition add_column_step (df_new : Pandas.DataFrame)
    (df : Pandas.DataFrame) (col_to_add : string) : Pandas.DataFrame :=
  if dict_mem (Pandas.columns df) col_to_add then df
  else Pandas.setitem df col_to_add (Pandas.getitem df_new col_to_add).

(** What the merge of one source does to the table of one sheet. *)
Definition merged_sheet (existing : option Pandas.DataFrame)
    (df_new : Pandas.DataFrame) : Pandas.DataFrame :=
  match existing with
  | None => Pandas.copy df_new
  | Some df_existing => add_new_columns df_existing df_new
  end.

(** The tables of one document: distinct sheet names (a dictionary), and for
    each sheet a frame with distinct column names whose columns all have as
    many values as the frame has rows. *)
Definition valid_tables (d : dict Pandas.DataFrame) : Prop :=
  NoDup (keys d)
  /\ Forall (fun kv => Pandas.well_formed (snd kv)
                       /\ NoDup (keys (Pandas.columns (snd kv)))) d.

#[global] Instance well_formed_dec (df : Pandas.DataFrame) :
  Decision (Pandas.well_formed df).
Proof. unfold Pandas.well_formed. apply _. Defined.

#[global] Instance valid_tables_dec (d : dict Pandas.DataFrame) :
  Decision (valid_tables d).
Proof. unfold valid_tables. apply _. Defined.

(** The position (from 0) of the last occurrence of [k] in [l]. *)
Fixpoint last_index (k : value) (l : list value) : option nat :=
  match l with
  | [] => None
  | x :: l' =>
      match last_index k l' with
      | Some j => Some (S j)
      | None => if decide (x = k) then Some 0 else None
      end
  end.

(** One step of the loop of [write_sheet] over the columns of the frame,
    with the index map of the template sheet. *)
Definition write_matched (index_map : gmap value nat) (df : Pandas.DataFrame)
    (ws : Openpyxl.Worksheet) (excel_col_header : string) : Openpyxl.Worksheet :=
  match index_map !! Str excel_col_header with
  | Some col_idx => write_column ws 2 col_idx (Pandas.getitem df excel_col_header)
  | None => ws
  end.

(** One step of the loop of [write_dataframes_to_excel] over the sheet
    names of the template. *)
Definition write_step (data : dict Pandas.DataFrame)
    (workbook : Openpyxl.Workbook) (name : string) : Openpyxl.Workbook :=
  match dict_get data name, dict_get workbook name with
  | Some df_for_sheet, Some worksheet =>
      dict_set workbook name (write_sheet worksheet df_for_sheet)
  | _, _ => workbook
  end.

(** A sheet of the output against the sheet of the template at the same
    position: the same title, the same first row, and the same sheet
    altogether when the merged tables have nothing for that title. *)
Definition sheet_kept (data : dict Pandas.DataFrame)
    (a b : string * Openpyxl.Worksheet) : Prop :=
  fst b = fst a
  /\ (forall c : nat, snd b !! (1, c) = snd a !! (1, c))
  /\ (dict_get data (fst a) = None -> snd b = snd a).

(** The frame [df] shows column [c] with the values [v] of the source that
    wrote it first, aligned to the rows of the frame. *)
Definition keeps_column (c : string) (v : list value) (df : Pandas.DataFrame)
  : Prop :=
  c ∈ keys (Pandas.columns df)
  /\ Pandas.well_formed df
  /\ Pandas.getitem df c = Pandas.align_to (Pandas.nrows df) v
  /\ (Pandas.nrows df = 0 -> v = []).

(** The search expression that the Value Extractor hands to [findall] for a
    mapped path ([None] when the attribute branch fails before the search). *)
Definition search_expression (root : ET.Element) (xml_tag_path : string)
  : option string :=
  if contains_char "@" xml_tag_path then
    match rsplit1 "/@" xml_tag_path with
    | Some (base_xml_path, _) => Some (path_for_findall root base_xml_path)
    | None => None
    end
  else Some (path_for_findall root xml_tag_path).

(** [by_source[source][sheet][col]], when all three keys are present. *)
Definition mapped_path (by_source : dict (dict (dict string)))
    (source sheet col : string) : option string :=
  for_source ← dict_get by_source source;
  for_sheet ← dict_get for_source sheet;
  dict_get for_sheet col.

(** The raw column [cv] holds, under the name of the mapping entry [cp], the
    values found for its path. *)
Definition column_of (root : ET.Element) (cp : string * string)
    (cv : string * list value) : Prop :=
  fst cv = fst cp /\ column_values root (snd cp) = Ok (snd cv).

(** The frame that the Value Extractor makes of the raw columns of a sheet. *)
Definition sheet_frame (raw : dict (list value)) (max_len : nat)
  : Pandas.DataFrame :=
  match aligned_sheet_data raw max_len with
  | [] => Pandas.empty_frame
  | aligned => Pandas.of_dict aligned
  end.

(** The table [sd] is what the Value Extractor returns for the mapping [sm]
    of one sheet. *)
Definition table_of (root : ET.Element) (sm : string * dict string)
    (sd : string * Pandas.DataFrame) : Prop :=
  fst sd = fst sm
  /\ exists raw max_len,
       raw_sheet_data root (snd sm) [] 0 = Ok (raw, max_len)
       /\ snd sd = sheet_frame raw max_len.

(** Mappings as Python dictionaries hold them: distinct sheet names, and
    distinct column names within each sheet. *)
Definition valid_mappings (m : dict (dict string)) : Prop :=
  NoDup (keys m) /\ Forall (fun kv => NoDup (keys (snd kv))) m.

#[global] Instance valid_mappings_dec (m : dict (dict string)) :
  Decision (valid_mappings m).
Proof. unfold valid_mappings. apply _. Defined.

(** [d] holds the tables that step 2 of the export keeps for the source
    [fm]: the extracted tables, re-indexed to the row counts of step 1. *)
Definition reindexed_of (max_rows : dict nat)
    (fm : ET.xml_file * dict (dict string)) (d : dict Pandas.DataFrame) : Prop :=
  exists tables,
    extract_data_from_one_xml (fst fm) (snd fm) = Ok tables
    /\ d = reindexed_data_for_this_xml max_rows tables.

(** Some source has a table of [n] rows for the sheet. *)
Definition extracts_rows (sources : list (ET.xml_file * dict (dict string)))
    (sheet : string) (n : nat) : Prop :=
  exists fm tables df,
    fm ∈ sources
    /\ extract_data_from_one_xml (fst fm) (snd fm) = Ok tables
    /\ dict_get tables sheet = Some df
    /\ Pandas.nrows df = n.

(** The elements of the document that stand at the path [p], in document
    order. *)
Definition elements_at (root : ET.Element) (p : string) : list ET.Element :=
  map fst (filter (fun ep : ET.Element * string => snd ep = p) (walk root "")).

(** What one round of the grouping loop does to the mappings held for
    [source]. *)
Definition group_for (source : string) (o : option (dict (dict string)))
    (m_item : mapping) : option (dict (dict string)) :=
  if contains_char "/" (excel m_item)
     && String.eqb (xml_source_id m_item) source
  then
    match split1 "/" (excel m_item) with
    | Some (sheet, col) =>
        let for_source := default [] o in
        let for_source :=
          if dict_mem for_source sheet then for_source
          else dict_set for_source sheet [] in
        let for_sheet := default [] (dict_get for_source sheet) in
        Some (dict_set for_source sheet (dict_set for_sheet col (xml_path m_item)))
    | None => o
    end
  else o.

(** A mapping that an export can use: its key has a [/] and its source is
    one of the registered sources. *)
Definition used_mapping (xml_sources_data : list (string * ET.xml_file))
    (m_item : mapping) : Prop :=
  contains_char "/" (excel m_item) = true
  /\ xml_source_id m_item ∈ keys xml_sources_data.

#[global] Instance used_mapping_dec (xs : list (string * ET.xml_file))
    (m : mapping) : Decision (used_mapping xs m).
Proof. unfold used_mapping. apply _. Defined.

(** The grouped mappings are dictionaries of valid mappings. *)
Definition valid_grouping (by_source : dict (dict (dict string))) : Prop :=
  NoDup (keys by_source)
  /\ Forall (fun kv => valid_mappings (snd kv)) by_source.

(** What holds of the session state after any number of registrations. *)
Definition registered (st : Session.state) : Prop :=
  let sources := Session.xml_sources_data st in
  Session.id <$> sources
  = (fun k : nat => "xml_" +:+ pretty k) <$> seq 1 (length sources)
  /\ Session.next_xml_internal_id_counter st = S (length sources)
  /\ NoDup (Session.source_file_id <$> sources)
  /\ Session.processed_xml_file_ids st
     = list_to_set (Session.source_file_id <$> sources)
  /\ Forall (fun s => Session.tags s = extract_xml_tags (Session.temp_path s))
            sources
  /\ Session.active_xml_source_id_for_mapping st = Session.id <$> head sources.

(** ** Documents and mappings used in the examples *)

(** [<people><person><name>Alice</name><age>30</age></person>
     <person><name>Bob</name></person></people>] *)
Definition people_doc : ET.Element :=
  ET.Elem "people" [] None
    [ET.Elem "person" [] None
       [ET.Elem "name" [] (Some "Alice") []; ET.Elem "age" [] (Some "30") []];
     ET.Elem "person" [] None [ET.Elem "name" [] (Some "Bob") []]].

Definition people_mapping : dict (dict string) :=
  [("Data", [("Name", "people/person/name"); ("Age", "people/person/age")])].

(** The same, with a first column whose path is absolute. *)
Definition absolute_mapping : dict (dict string) :=
  [("Data", [("Bad", "/person"); ("Name", "people/person/name")])].

(** [<doc xmlns="http://user@example.org/ns"><x>1</x></doc>], as the parser
    delivers it: the namespace is part of every tag. *)
Definition namespaced_doc : ET.Element :=
  ET.Elem "{http://user@example.org/ns}doc" [] None
    [ET.Elem "{http://user@example.org/ns}x" [] (Some "1") []].

(** [<r><a/><a>t</a></r>]: no element has an attribute. *)
Definition bare_doc : ET.Element :=
  ET.Elem "r" [] None [ET.Elem "a" [] None []; ET.Elem "a" [] (Some "t") []].

(** Two documents that both fill the sheet [Data]: the first supplies
    [Name], the second [City] and a [Name] of its own. *)
Definition tables_A : dict Pandas.DataFrame :=
  [("Data", Pandas.mkDataFrame 3 [("Name", [Str "Alice"; Str "Bob"; NaN])])].

Definition frame_B : Pandas.DataFrame :=
  Pandas.mkDataFrame 3
    [("City", [Str "X"; Str "Y"; Str "Z"]); ("Name", [Str "P"; Str "Q"; Str "R"])].

Definition tables_B : dict Pandas.DataFrame := [("Data", frame_B)].

(** A template whose sheet [Data] shows the header [Name] twice (columns 1
    and 3) and has an old entry in row 5, and a merged table for it. *)
Definition template : Openpyxl.Workbook :=
  [("Data", {[ (1, 1) := Str "Name"; (1, 2) := Str "Age"; (1, 3) := Str "Name";
               (5, 3) := Str "old"; (2, 2) := Str "kept" ]});
   ("Notes", {[ (1, 1) := Str "Text" ]})].

Definition template_data : Openpyxl.Worksheet :=
  {[ (1, 1) := Str "Name"; (1, 2) := Str "Age"; (1, 3) := Str "Name";
     (5, 3) := Str "old"; (2, 2) := Str "kept" ]}.

Definition merged_frame : Pandas.DataFrame :=
  Pandas.mkDataFrame 2 [("Name", [Str "Alice"; Str "Bob"])].

Definition merged : dict Pandas.DataFrame := [("Data", merged_frame)].

(** [<cities><city>X</city><city>Y</city><city>Z</city></cities>] *)
Definition cities_doc : ET.Element :=
  ET.Elem "cities" [] None
    [ET.Elem "city" [] (Some "X") []; ET.Elem "city" [] (Some "Y") [];
     ET.Elem "city" [] (Some "Z") []].

(** A template with the one sheet [Data] and the headers [Name], [Age]. *)
Definition name_age_template : Openpyxl.Workbook :=
  [("Data", {[ (1, 1) := Str "Name"; (1, 2) := Str "Age" ]})].

(** Two sources for the sheet [Data]: [Name] from the first document,
    [City] from the second. *)
Definition name_source : ET.xml_file * dict (dict string) :=
  (ET.Document people_doc, [("Data", [("Name", "people/person/name")])]).

Definition city_source : ET.xml_file * dict (dict string) :=
  (ET.Document cities_doc, [("Data", [("City", "cities/city")])]).

Definition name_city_tables : dict Pandas.DataFrame :=
  [("Data", Pandas.mkDataFrame 3
              [("Name", [Str "Alice"; Str "Bob"; NaN]);
               ("City", [Str "X"; Str "Y"; Str "Z"])])].

(** The merged tables of [people_doc] with [people_mapping] followed by
    [city_source]: [Age] is padded with [None] to the two rows of its own
    table and with NaN to the three rows of the merged table. *)
Definition name_age_city_tables : dict Pandas.DataFrame :=
  [("Data", Pandas.mkDataFrame 3
              [("Name", [Str "Alice"; Str "Bob"; NaN]);
               ("Age", [Str "30"; PyNone; NaN]);
               ("City", [Str "X"; Str "Y"; Str "Z"])])].

(** U+00A0, the no-break space, in UTF-8. *)
Definition nbsp : string := String "194" (String "160" EmptyString).

(** [<r><a>&#160;</a><b>x</b></r>]: the text of [a] is white space only. *)
Definition blank_leaf_doc : ET.Element :=
  ET.Elem "r" [] None
    [ET.Elem "a" [] (Some nbsp) []; ET.Elem "b" [] (Some "x") []].

(** [<people><person id="7"><name>Alice</name></person></people>] *)
Definition attr_doc : ET.Element :=
  ET.Elem "people" [] None
    [ET.Elem "person" [("id", "7")] None
       [ET.Elem "name" [] (Some "Alice") []]].

(** A template sheet with the headers [Name], [Age], [City], an old entry
    under [Age] in row 3 and one below the data in row 5. *)
Definition age_template_sheet : Openpyxl.Worksheet :=
  {[ (1, 1) := Str "Name"; (1, 2) := Str "Age"; (1, 3) := Str "City";
     (3, 2) := Str "kept"; (5, 2) := Str "below" ]}.

(** * Properties *)

(** ** Sorting a set of paths *)


Lemma sorted_set_elem (l : list string) (p : string) :
  p ∈ sorted_set l <-> p ∈ l.
Proof.
  unfold sorted_set.
  rewrite (merge_sort_Permutation String.le (remove_dups l)).
  apply elem_of_remove_dups.
Qed.

Lemma sorted_set_NoDup (l : list string) : NoDup (sorted_set l).
Proof.
  unfold sorted_set.
  rewrite (merge_sort_Permutation String.le (remove_dups l)).
  apply NoDup_remove_dups.
Qed.

Lemma sorted_set_sorted (l : list string) : StronglySorted String.le (sorted_set l).
Proof. apply StronglySorted_merge_sort; apply _. Qed.

Lemma StronglySorted_strict (l : list string) :
  StronglySorted String.le l -> NoDup l -> StronglySorted str_lt l.
Proof.
  induction 1 as [|x l Hs IH Hx]; intros Hnd; [constructor|].
  apply NoDup_cons in Hnd as [Hnin Hnd].
  constructor; [by apply IH|].
  rewrite Forall_forall in Hx |- *. intros y Hy. split; [by apply Hx|].
  intros ->. by apply Hnin.
Qed.

(** ** The Path Extractor *)

Section PathExtractor.

Lemma Element_ind' (P : ET.Element -> Prop) :
  (forall t a x cs, Forall P cs -> P (ET.Elem t a x cs)) ->
  forall e, P e.
Proof.
  intros H. fix IH 1. intros [t a x cs]. apply H.
  induction cs as [|c cs IHcs]; constructor; [apply IH | exact IHcs].
Qed.

Lemma flat_map_ext_Forall {A B} (f g : A -> list B) (l : list A) :
  Forall (fun x => f x = g x) l -> flat_map f l = flat_map g l.
Proof. induction 1 as [|x l Hx _ IH]; simpl; [done|]. by rewrite Hx, IH. Qed.

Lemma flat_map_flat_map {A B C} (f : A -> list B) (g : B -> list C) (l : list A) :
  flat_map g (flat_map f l) = flat_map (fun x => flat_map g (f x)) l.
Proof.
  induction l as [|x l IH]; simpl; [done|]. by rewrite flat_map_app, IH.
Qed.

(** The raw list is the concatenation, in document order, of what is emitted
    at each element. *)
Lemma get_xpath_walk (e : ET.Element) (cur : string) :
  get_xpath e cur = flat_map emitted_at (walk e cur).
Proof.
  revert cur. induction e as [t a x cs IH] using Element_ind'. intros cur.
  simpl. rewrite <- app_assoc. do 2 f_equal.
  rewrite flat_map_flat_map. apply flat_map_ext_Forall.
  eapply Forall_impl; [exact IH|]. intros c Hc. apply Hc.
Qed.

Lemma leaf_with_text_spec (e : ET.Element) :
  Nat.eqb (length (ET.children e)) 0
    && match ET.text e with
       | Some t => truthy t && truthy (strip t)
       | None => false
       end = true
  <-> leaf_with_text e.
Proof.
  unfold leaf_with_text. destruct e as [t a x cs]; simpl. split.
  - intros [Hc Ht]%andb_true_iff. split.
    + destruct cs; [done|discriminate].
    + destruct x as [s|]; [|discriminate].
      apply andb_true_iff in Ht as [_ Ht]. exists s. split; [done|].
      intros Hs. by rewrite Hs in Ht.
  - intros [-> (s & -> & Hs)]. simpl.
    destruct s as [|c s]; [done|]. simpl truthy at 1. simpl andb.
    destruct (strip (String c s)); [done|done].
Qed.

Lemma elem_of_emitted_at (e : ET.Element) (p q : string) :
  q ∈ emitted_at (e, p) <->
  (q = p /\ leaf_with_text e) \/
  (exists a, a ∈ keys (ET.attrib e) /\ q = p +:+ "/@" +:+ a).
Proof.
  unfold emitted_at. rewrite elem_of_app. f_equiv.
  - rewrite <- leaf_with_text_spec.
    destruct (_ && _).
    + rewrite list_elem_of_singleton. by split; [intros ->|intros [-> _]].
    + split; [by intros ?%elem_of_nil | by intros [_ ?]].
  - unfold keys. rewrite !list_elem_of_In, in_map_iff. split.
    + intros ([a v] & <- & Hin). exists a. split; [|done].
      apply list_elem_of_In, in_map_iff. by exists (a, v).
    + intros (a & Ha & ->). apply list_elem_of_In, in_map_iff in Ha as ([a' v] & <- & Hin).
      by exists (a', v).
Qed.

Lemma elem_of_extract_xml_tags (root : ET.Element) (q : string) :
  q ∈ extract_xml_tags (ET.Document root) <->
  exists e p, (e, p) ∈ walk root ""
    /\ ((q = p /\ leaf_with_text e)
        \/ (exists a, a ∈ keys (ET.attrib e) /\ q = p +:+ "/@" +:+ a)).
Proof.
  change (extract_xml_tags (ET.Document root)) with (sorted_set (get_xpath root "")).
  rewrite sorted_set_elem, get_xpath_walk.
  rewrite list_elem_of_In, in_flat_map. split.
  - intros ([e p] & Hin & Hq). exists e, p. split; [by apply list_elem_of_In|].
    by apply elem_of_emitted_at, list_elem_of_In.
  - intros (e & p & Hin & Hq). exists (e, p). split; [by apply list_elem_of_In|].
    by apply list_elem_of_In, elem_of_emitted_at.
Qed.

End PathExtractor.

(** C7.  For a well-formed document the returned list is strictly increasing
    in the lexicographic order of strings (sorted, no duplicates), and a path
    is in it exactly when it is emitted at some element of the document: the
    element's own path when the element has no child elements and its text
    is non-empty after trimming, or the path of one of its attributes.  An
    element with children never contributes its own path, whatever its text;
    its attributes are emitted all the same. *)
Theorem C7_path_extractor_leaves_sorted (root : ET.Element) :
  let out := extract_xml_tags (ET.Document root) in
  StronglySorted str_lt out
  /\ (forall q : string,
        q ∈ out <->
        exists e p, (e, p) ∈ walk root ""
          /\ ((q = p /\ leaf_with_text e)
              \/ (exists a, a ∈ keys (ET.attrib e) /\ q = p +:+ "/@" +:+ a)))
  /\ get_xpath root "" = flat_map emitted_at (walk root "").
Proof.
  cbv zeta.
  change (extract_xml_tags (ET.Document root)) with (sorted_set (get_xpath root "")).
  split; [|split].
  - apply StronglySorted_strict; [apply sorted_set_sorted | apply sorted_set_NoDup].
  - intros q. apply elem_of_extract_xml_tags.
  - apply get_xpath_walk.
Qed.

(** ** Trimming *)

Section Trimming.

Lemma lstrip_cases (s : string) :
  lstrip s = s
  \/ exists s', String.length s' < String.length s /\ lstrip s = lstrip s'.
Proof.
  destruct s as [|c s1]; [by left|]. cbn [lstrip].
  destruct (is_space c); [right; exists s1; simpl; split; [lia|done]|].
  destruct s1 as [|d s2]; [by left|].
  destruct (is_space2 c d); [right; exists s2; simpl; split; [lia|done]|].
  destruct s2 as [|e s3]; [by left|].
  destruct (is_space3 c d e); [right; exists s3; simpl; split; [lia|done]|].
  by left.
Qed.

Lemma lstrip_idemp (s : string) : lstrip (lstrip s) = lstrip s.
Proof.
  remember (String.length s) as n eqn:Hn. revert s Hn.
  induction n as [n IH] using lt_wf_ind. intros s ->.
  destruct (lstrip_cases s) as [Hs|(s' & Hlt & Hs)].
  - by rewrite !Hs.
  - rewrite Hs. by apply (IH (String.length s')).
Qed.

(** What is left after trimming is empty exactly when the string is white
    space only. *)
Lemma strip_blank (s : string) : strip s = "" <-> lstrip s = "".
Proof.
  unfold strip. split; [|by intros ->].
  pose proof (lstrip_idemp s) as Hidem.
  destruct (lstrip s) as [|c t]; [done|].
  cbn [rstrip]. rewrite Hidem. done.
Qed.

End Trimming.

(** A leaf whose text is a no-break space is not listed: [str.strip] trims
    white space beyond ASCII. *)
Example blank_leaf_paths :
  strip nbsp = "" /\ extract_xml_tags (ET.Document blank_leaf_doc) = ["r/b"].
Proof. split; reflexivity. Qed.

(** ** Strings and paths *)

Section Strings.

Lemma append_cons (x : ascii) (a b : string) :
  String x a +:+ b = String x (a +:+ b).
Proof. reflexivity. Qed.

Lemma append_nil_l (b : string) : "" +:+ b = b.
Proof. reflexivity. Qed.

Lemma append_assoc (a b c : string) : (a +:+ b) +:+ c = a +:+ (b +:+ c).
Proof.
  induction a as [|x a IH]; [done|]. rewrite !append_cons. by f_equal.
Qed.

Lemma append_nil_r (a : string) : a +:+ "" = a.
Proof. induction a as [|x a IH]; [done|]. rewrite append_cons. by f_equal. Qed.

Lemma length_append (a b : string) :
  String.length (a +:+ b) = String.length a + String.length b.
Proof.
  induction a as [|x a IH]; [done|]. rewrite append_cons. simpl. by f_equal.
Qed.

Lemma prefix_cons (x y : ascii) (a b : string) :
  String.prefix (String x a) (String y b)
  = if ascii_dec x y then String.prefix a b else false.
Proof. reflexivity. Qed.

Lemma contains_char_append (c : ascii) (a b : string) :
  contains_char c (a +:+ b) = contains_char c a || contains_char c b.
Proof.
  induction a as [|x a IH]; [done|]. rewrite append_cons. simpl.
  by destruct (Ascii.eqb c x).
Qed.

(** Name characters are neither [/] nor [@]. *)
Lemma name_char_not_special (c : ascii) :
  ET.name_char c = true -> Ascii.eqb "/" c = false /\ Ascii.eqb "@" c = false.
Proof. by destruct c as [[] [] [] [] [] [] [] []]. Qed.

Lemma name_start_is_name_char (c : ascii) :
  ET.name_start_char c = true -> ET.name_char c = true.
Proof. unfold ET.name_char. by intros ->. Qed.

Lemma plain_name_all_chars (s : string) :
  ET.plain_name s = true -> ET.all_chars ET.name_char s = true /\ s <> "".
Proof.
  destruct s as [|c s]; [done|]. simpl. intros [Hc Hs]%andb_true_iff.
  by rewrite (name_start_is_name_char _ Hc), Hs.
Qed.

Lemma all_name_chars_no_special (s : string) :
  ET.all_chars ET.name_char s = true ->
  contains_char "/" s = false /\ contains_char "@" s = false.
Proof.
  induction s as [|c s IH]; [done|]. cbn [contains_char ET.all_chars].
  intros [Hc Hs]%andb_true_iff.
  destruct (name_char_not_special c Hc) as [-> ->]. by apply IH.
Qed.

Lemma plain_name_no_slash (s : string) :
  ET.plain_name s = true -> contains_char "/" s = false.
Proof. intros [H _]%plain_name_all_chars. by apply all_name_chars_no_special. Qed.

Lemma plain_name_no_at (s : string) :
  ET.plain_name s = true -> contains_char "@" s = false.
Proof. intros [H _]%plain_name_all_chars. by apply all_name_chars_no_special. Qed.

Lemma plain_name_not_dot (s : string) :
  ET.plain_name s = true -> String.eqb s "." = false.
Proof. intros H. apply String.eqb_neq. intros ->. by vm_compute in H. Qed.

(** [split] undoes [join] on segments without the separator. *)
Lemma split_on_no_sep (c : ascii) (s : string) :
  contains_char c s = false -> ET.split_on c s = [s].
Proof.
  induction s as [|d s IH]; [done|]. cbn [contains_char ET.split_on].
  destruct (Ascii.eqb c d); [done|]. intros H. by rewrite (IH H).
Qed.

Lemma split_on_append (c : ascii) (a b : string) :
  contains_char c a = false ->
  ET.split_on c (a +:+ String c b) = a :: ET.split_on c b.
Proof.
  induction a as [|d a IH].
  - intros _. rewrite append_nil_l. cbn [ET.split_on]. by rewrite Ascii.eqb_refl.
  - rewrite append_cons. cbn [contains_char ET.split_on].
    destruct (Ascii.eqb c d); [done|].
    intros H. by rewrite (IH H).
Qed.

Lemma split_on_join (ts : list string) :
  ts <> [] -> Forall (fun t => contains_char "/" t = false) ts ->
  ET.split_on "/" (join "/" ts) = ts.
Proof.
  intros Hne H. induction H as [|t ts Ht Hts IH]; [done|].
  destruct ts as [|t' ts]; [by apply split_on_no_sep|].
  change (join "/" (t :: t' :: ts)) with (t +:+ String "/" (join "/" (t' :: ts))).
  rewrite split_on_append by done. f_equal. by apply IH.
Qed.

(** [rsplit] at the last [/@]. *)
Lemma rsplit1_no_slash (s : string) :
  contains_char "/" s = false -> rsplit1 "/@" s = None.
Proof.
  induction s as [|c s IH]; [done|]. cbn [contains_char rsplit1 String.prefix].
  destruct (Ascii.eqb "/" c) eqn:Hc; [done|]. intros H. rewrite (IH H).
  destruct (ascii_dec "/" c) as [<-|]; [|done].
  by rewrite Ascii.eqb_refl in Hc.
Qed.

Lemma rsplit1_cons (sep : string) (c : ascii) (s : string) :
  rsplit1 sep (String c s)
  = match rsplit1 sep s with
    | Some (a, b) => Some (String c a, b)
    | None =>
        if String.prefix sep (String c s)
        then Some ("", drop_str (String.length sep) (String c s))
        else None
    end.
Proof. reflexivity. Qed.

Lemma rsplit1_append (p a : string) :
  contains_char "/" a = false ->
  rsplit1 "/@" (p +:+ "/@" +:+ a) = Some (p, a).
Proof.
  intros Ha. induction p as [|c p IH].
  - rewrite append_nil_l. change ("/@" +:+ a) with (String "/" (String "@" a)).
    rewrite rsplit1_cons.
    assert (rsplit1 "/@" (String "@" a) = None) as ->.
    { apply rsplit1_no_slash. cbn [contains_char]. exact Ha. }
    simpl. by destruct a.
  - rewrite append_cons, rsplit1_cons. by rewrite IH.
Qed.

End Strings.

(** ** Ordered dictionaries *)

Section Dict.
Context {V : Type}.
Implicit Types (d : dict V) (k : string) (v : V).

Lemma dict_get_set_eq d k v : dict_get (dict_set d k v) k = Some v.
Proof.
  induction d as [|[k' v'] d IH]; simpl; [by rewrite String.eqb_refl|].
  destruct (String.eqb k k') eqn:E; simpl; by rewrite E.
Qed.

Lemma dict_get_set_ne d k k' v :
  k <> k' -> dict_get (dict_set d k v) k' = dict_get d k'.
Proof.
  intros Hne. induction d as [|[k0 v0] d IH]; simpl.
  - by apply String.eqb_neq in Hne; rewrite String.eqb_sym, Hne.
  - destruct (String.eqb k k0) eqn:E; simpl; [|by rewrite IH].
    apply String.eqb_eq in E as <-.
    by apply String.eqb_neq in Hne; rewrite String.eqb_sym, Hne.
Qed.

Lemma dict_get_None d k : dict_get d k = None <-> k ∉ keys d.
Proof.
  induction d as [|[k' v'] d IH]; simpl.
  - split; [intros _; apply not_elem_of_nil|done].
  - rewrite not_elem_of_cons. destruct (String.eqb_spec k k') as [->|Hne].
    + split; [done|]. by intros [? _].
    + rewrite IH. tauto.
Qed.

Lemma dict_get_Some_elem d k v : dict_get d k = Some v -> (k, v) ∈ d.
Proof.
  induction d as [|[k' v'] d IH]; simpl; [done|].
  destruct (String.eqb_spec k k') as [->|Hne].
  - intros [= ->]. apply list_elem_of_here.
  - intros H. by apply list_elem_of_further, IH.
Qed.

Lemma dict_get_is_Some d k : is_Some (dict_get d k) <-> k ∈ keys d.
Proof.
  rewrite <- not_eq_None_Some, dict_get_None.
  split; [|tauto]. intros H. by destruct (decide (k ∈ keys d)).
Qed.

Lemma dict_mem_true d k : dict_mem d k = true <-> k ∈ keys d.
Proof.
  unfold dict_mem. rewrite <- dict_get_is_Some.
  destruct (dict_get d k); split; try done; try (by eexists); by intros [? ?].
Qed.

Lemma dict_mem_false d k : dict_mem d k = false <-> k ∉ keys d.
Proof. rewrite <- dict_mem_true. by destruct (dict_mem d k). Qed.

Lemma dict_set_new d k v : k ∉ keys d -> dict_set d k v = d ++ [(k, v)].
Proof.
  induction d as [|[k' v'] d IH]; simpl; [done|].
  rewrite not_elem_of_cons. intros [Hne Hin].
  apply String.eqb_neq in Hne. rewrite Hne. by rewrite IH.
Qed.

Lemma keys_dict_set_old d k v : k ∈ keys d -> keys (dict_set d k v) = keys d.
Proof.
  induction d as [|[k' v'] d IH]; simpl; [by intros ?%elem_of_nil|].
  destruct (String.eqb_spec k k') as [->|Hne]; [done|].
  rewrite elem_of_cons. intros [?|Hin]; [done|]. simpl. by rewrite IH.
Qed.

Lemma dict_get_NoDup d k v : NoDup (keys d) -> (k, v) ∈ d -> dict_get d k = Some v.
Proof.
  induction d as [|[k' v'] d IH]; simpl; [by intros _ ?%elem_of_nil|].
  intros [Hk Hnd]%NoDup_cons [[= -> ->]|Hin]%elem_of_cons.
  - by rewrite String.eqb_refl.
  - destruct (String.eqb_spec k k') as [->|_]; [|by apply IH].
    destruct Hk. apply list_elem_of_In, in_map_iff. exists (k', v).
    split; [done|]. by apply list_elem_of_In.
Qed.

Lemma keys_app d1 d2 : keys (d1 ++ d2) = keys d1 ++ keys d2.
Proof. apply map_app. Qed.

End Dict.

Lemma keys_map_values {V W} (f : string * V -> W) (d : dict V) :
  keys (map (fun kv => (fst kv, f kv)) d) = keys d.
Proof. unfold keys. rewrite map_map. by apply map_ext. Qed.

Lemma dict_get_map_values {V W} (f : V -> W) (d : dict V) (k : string) :
  dict_get (map (fun kv => (fst kv, f (snd kv))) d) k = f <$> dict_get d k.
Proof.
  induction d as [|[k' v'] d IH]; simpl; [done|].
  by destruct (String.eqb k k').
Qed.

(** ** The traversal primitive on the extractor's paths *)

Section Findall.

Lemma mapM_parse_plain (ts : list string) :
  Forall (fun t => ET.plain_name t = true) ts ->
  mapM ET.parse_step ts = Some (ET.ChildStep <$> ts).
Proof.
  intros H. apply mapM_Some. induction H as [|t ts Ht _ IH]; constructor; [|done].
  unfold ET.parse_step. by rewrite (plain_name_not_dot t Ht), Ht.
Qed.

Lemma join_cons (t : string) (ts : list string) :
  join "/" (t :: ts) = t +:+ child_suffix ts.
Proof. destruct ts; [by rewrite append_nil_r|done]. Qed.

(** The matches of a chain are taken from the tree below the root: an
    attribute that no element of the tree carries is on none of them. *)
Lemma select_carries (attr : string) (st : ET.step) (matched : list ET.Element) :
  Forall (fun e => carries attr e = false) matched ->
  Forall (fun e => carries attr e = false) (ET.select st matched).
Proof.
  destruct st as [|name]; [done|]. simpl.
  induction 1 as [|e l He _ IH]; simpl; [constructor|].
  apply Forall_app. split; [|exact IH].
  destruct e as [t a x cs]. simpl in He.
  apply orb_false_iff in He as [_ He].
  apply Forall_forall. intros c [_ Hc]%list_elem_of_filter.
  simpl in Hc. apply list_elem_of_In in Hc.
  destruct (carries attr c) eqn:Hcar; [|done].
  assert (existsb (carries attr) cs = true) as Hex; [|congruence].
  apply existsb_exists. by exists c.
Qed.

Lemma findall_carries (attr : string) (root : ET.Element) (p : string)
    (l : list ET.Element) :
  carries attr root = false -> ET.findall root p = Ok l ->
  Forall (fun e => ET.get e attr = None) l.
Proof.
  intros Hr. unfold ET.findall.
  destruct (String.eqb p ""); [intros [= <-]; constructor|].
  destruct (startswith p "/"); [done|].
  destruct (mapM ET.parse_step (ET.split_on "/" p)) as [steps|]; [|done].
  intros [= <-].
  assert (Forall (fun e => carries attr e = false) [root]) as H by by constructor.
  revert H. generalize [root]. induction steps as [|st steps IH]; intros m Hm; simpl.
  - eapply Forall_impl; [exact Hm|]. intros [t a x cs]. simpl.
    intros [Ha _]%orb_false_iff. unfold ET.get, dict_mem in *. simpl.
    by destruct (dict_get a attr).
  - apply IH. by apply select_carries.
Qed.

End Findall.

(** ** The Value Extractor *)

Section ValueExtractor.

Lemma split_on_nonempty (c : ascii) (s : string) : ET.split_on c s <> [].
Proof.
  destruct s as [|d s]; [done|]. cbn [ET.split_on].
  destruct (Ascii.eqb c d); [done|]. by destruct (ET.split_on c s).
Qed.

Lemma split_on_append_any (c : ascii) (a b : string) :
  ET.split_on c (a +:+ String c b) = ET.split_on c a ++ ET.split_on c b.
Proof.
  induction a as [|d a IH].
  - rewrite append_nil_l. cbn [ET.split_on]. by rewrite Ascii.eqb_refl.
  - rewrite append_cons. cbn [ET.split_on]. rewrite IH.
    destruct (Ascii.eqb c d); [done|].
    pose proof (split_on_nonempty c a). by destruct (ET.split_on c a).
Qed.

Lemma prefix_drop (a s : string) :
  String.prefix a s = true -> s = a +:+ drop_str (String.length a) s.
Proof.
  revert s. induction a as [|x a IH]; intros s; [done|].
  destruct s as [|y s]; [done|]. rewrite prefix_cons.
  destruct (ascii_dec x y) as [<-|]; [|done].
  intros H. rewrite append_cons. simpl. f_equal. by apply IH.
Qed.

(** Segments that are all plain names make a valid search expression. *)
Lemma findall_segments (root : ET.Element) (p : string) :
  Forall (fun t => ET.plain_name t = true) (ET.split_on "/" p) ->
  ET.findall root p = Ok (descend [root] (ET.split_on "/" p)).
Proof.
  intros H. unfold ET.findall.
  destruct p as [|c p]; [by inversion H|].
  change (String.eqb (String c p) "") with false. cbv iota.
  assert (startswith (String c p) "/" = false) as ->.
  { unfold startswith. rewrite prefix_cons.
    destruct (ascii_dec "/" c) as [<-|]; [|done].
    cbn [ET.split_on] in H. rewrite Ascii.eqb_refl in H. by inversion H. }
  by rewrite mapM_parse_plain.
Qed.

(** The expression that [path_for_findall] makes of a chain of plain names
    is accepted, whatever the tag of the root. *)
Lemma resolved_plain (root : ET.Element) (base : string) :
  Forall (fun t => ET.plain_name t = true) (ET.split_on "/" base) ->
  exists matched, ET.findall root (path_for_findall root base) = Ok matched.
Proof.
  intros H. unfold path_for_findall.
  destruct (String.eqb base (ET.tag root)); [by eexists|].
  destruct (startswith base (ET.tag root +:+ "/")) eqn:Hpre.
  - apply prefix_drop in Hpre. rewrite length_append in Hpre. simpl in Hpre.
    rewrite append_assoc in Hpre.
    change ("/" +:+ ?x) with (String "/" x) in Hpre.
    set (rest := drop_str _ base) in *.
    rewrite Hpre, split_on_append_any in H. apply Forall_app in H as [_ H].
    eexists. by apply findall_segments.
  - eexists. by apply findall_segments.
Qed.

Lemma column_values_text (root : ET.Element) (p : string) :
  contains_char "@" p = false ->
  column_values root p
  = (ET.findall root (path_for_findall root p)
       ≫= fun found => Ok (map (fun elem => Str (default "" (ET.text elem))) found)).
Proof. intros H. unfold column_values. by rewrite H. Qed.

Lemma column_values_attr (root : ET.Element) (base attr : string) :
  contains_char "/" attr = false ->
  column_values root (base +:+ "/@" +:+ attr)
  = (ET.findall root (path_for_findall root base)
       ≫= fun found => Ok (map (fun elem => of_option (ET.get elem attr)) found)).
Proof.
  intros H. unfold column_values.
  rewrite contains_char_append.
  change (contains_char "@" ("/@" +:+ attr)) with true.
  rewrite orb_true_r. cbv iota. by rewrite rsplit1_append.
Qed.

Lemma pad_exact (vs : list value) : pad (length vs) vs = vs.
Proof.
  unfold pad. rewrite Nat.sub_diag. simpl. rewrite app_nil_r.
  by apply firstn_all.
Qed.

(** One sheet with one column. *)
Lemma extract_single_column (root : ET.Element) (sheet column p : string)
    (values : list value) :
  column_values root p = Ok values ->
  extract_data_from_one_xml (ET.Document root) [(sheet, [(column, p)])]
  = Ok [(sheet, Pandas.mkDataFrame (length values) [(column, values)])].
Proof.
  intros H. unfold extract_data_from_one_xml. simpl. rewrite H. simpl.
  replace (if Nat.ltb 0 (length values) then length values else 0)
    with (length values) by (by destruct values).
  unfold aligned_sheet_data. simpl. rewrite pad_exact. done.
Qed.

(** A failing column makes the loop over the columns fail, and a failing
    sheet makes the loop over the sheets fail. *)
Lemma raw_sheet_data_not_Ok (root : ET.Element) (cols : dict string)
    (col path : string) :
  (col, path) ∈ cols -> is_Ok (column_values root path) = false ->
  forall raw max_len, is_Ok (raw_sheet_data root cols raw max_len) = false.
Proof.
  intros Hin Hfail. induction cols as [|[c' p'] cols IH]; intros raw ml.
  { by apply elem_of_nil in Hin. }
  simpl. apply elem_of_cons in Hin as [[= <- <-]|Hin].
  - by destruct (column_values root path).
  - destruct (column_values root p'); [by apply IH|done|done].
Qed.

Lemma data_to_write_not_Ok (root : ET.Element) (mappings : dict (dict string))
    (sheet : string) (cols : dict string) :
  (sheet, cols) ∈ mappings ->
  (forall raw max_len, is_Ok (raw_sheet_data root cols raw max_len) = false) ->
  forall acc, is_Ok (data_to_write_to_excel root mappings acc) = false.
Proof.
  intros Hin Hfail. induction mappings as [|[s' cs'] ms IH]; intros acc.
  { by apply elem_of_nil in Hin. }
  simpl. apply elem_of_cons in Hin as [[= <- <-]|Hin].
  - specialize (Hfail [] 0). by destruct (raw_sheet_data root cols [] 0).
  - destruct (raw_sheet_data root cs' [] 0) as [[raw ml]| |]; [by apply IH|done|done].
Qed.

Lemma raw_sheet_data_modelled (root : ET.Element) (cols : dict string) :
  (forall c p, (c, p) ∈ cols -> column_values root p <> Unmodelled) ->
  forall raw max_len, raw_sheet_data root cols raw max_len <> Unmodelled.
Proof.
  induction cols as [|[c p] cols IH]; intros H raw ml; simpl; [done|].
  pose proof (H c p (list_elem_of_here _ _)) as Hc.
  destruct (column_values root p); [|done|done]. simpl.
  apply IH. intros c' p' Hin. apply (H c' p'). by apply list_elem_of_further.
Qed.

Lemma data_to_write_modelled (root : ET.Element) (mappings : dict (dict string)) :
  (forall s cs c p, (s, cs) ∈ mappings -> (c, p) ∈ cs ->
                    column_values root p <> Unmodelled) ->
  forall acc, data_to_write_to_excel root mappings acc <> Unmodelled.
Proof.
  induction mappings as [|[s cs] ms IH]; intros H acc; simpl; [done|].
  pose proof (raw_sheet_data_modelled root cs
                (fun c p => H s cs c p (list_elem_of_here _ _)) [] 0) as Hs.
  destruct (raw_sheet_data root cs [] 0) as [[raw ml]| |]; [|done|done]. simpl.
  apply IH. intros s' cs' c p Hin. apply (H s' cs' c p). by apply list_elem_of_further.
Qed.

(** A column fails with the error of the search when the search fails. *)
Lemma column_values_search_error (root : ET.Element) (path expr : string) (e : exn) :
  search_expression root path = Some expr ->
  ET.findall root expr = Raise e ->
  column_values root path = Raise e.
Proof.
  unfold search_expression, column_values.
  destruct (contains_char "@" path).
  - destruct (rsplit1 "/@" path) as [[base attr]|]; [|done].
    intros [= <-] Hf. by rewrite Hf.
  - intros [= <-] Hf. by rewrite Hf.
Qed.

End ValueExtractor.

(** C1, as stated, fails for the Value Extractor: on a file that is not
    well-formed it returns no sheet-to-table map at all, empty or not. *)
Lemma C1_value_extractor_raises_on_malformed :
  ~ (extract_xml_tags ET.NotWellFormed = []
     /\ extract_data_from_one_xml ET.NotWellFormed people_mapping = Ok []).
Proof. intros [_ H]. discriminate H. Qed.

(** The export stops at a source that is not well-formed: no workbook is
    written. *)
Lemma max_rows_per_sheet_parse_error (mappings : dict (dict string))
    (before after : list (ET.xml_file * dict (dict string))) :
  forall acc,
  is_Ok (max_rows_per_sheet (before ++ (ET.NotWellFormed, mappings) :: after) acc)
  = false.
Proof.
  induction before as [|[f m] before IH]; intros acc; [done|].
  simpl. destruct (extract_data_from_one_xml f m); [apply IH|done|done].
Qed.

(** C1, amended.  On an input that is not well-formed XML the Path Extractor
    returns the empty path list; the Value Extractor returns no result: the
    parse error is raised to its caller, whatever the mappings, and an export
    that has such a source among its sources produces no workbook. *)
Theorem C1_not_well_formed (mappings : dict (dict string))
    (template : Openpyxl.Workbook)
    (before after : list (ET.xml_file * dict (dict string))) :
  extract_xml_tags ET.NotWellFormed = []
  /\ extract_data_from_one_xml ET.NotWellFormed mappings = Raise ParseError
  /\ is_Ok (generate_excel template
              (before ++ (ET.NotWellFormed, mappings) :: after)) = false.
Proof.
  split; [reflexivity|]. split; [reflexivity|].
  unfold generate_excel, merged_tables.
  pose proof (max_rows_per_sheet_parse_error mappings before after []) as H.
  by destruct (max_rows_per_sheet _ []).
Qed.

(** C2, as stated, fails: with a column whose search expression the
    traversal rejects, the call returns no table, so neither the empty column
    nor the other column of the sheet appears in a result. *)
Lemma C2_invalid_expression_aborts_call :
  search_expression people_doc "/person" = Some "/person"
  /\ ET.findall people_doc "/person" = Raise SyntaxError
  /\ ~ (exists tables,
          extract_data_from_one_xml (ET.Document people_doc) absolute_mapping
          = Ok tables).
Proof.
  split; [reflexivity|]. split; [reflexivity|]. intros [tables H]. discriminate H.
Qed.

(** C2, amended.  When the mapping of some sheet has a (column, path) pair
    whose search expression the traversal rejects, the Value Extractor
    returns no table for any sheet; when moreover every path of the mapping
    lies within the modelled expressions, the call raises. *)
Theorem C2_invalid_expression_aborts (root : ET.Element)
    (mappings : dict (dict string)) (sheet : string) (cols : dict string)
    (col path expr : string) :
  (sheet, cols) ∈ mappings -> (col, path) ∈ cols ->
  search_expression root path = Some expr ->
  ET.findall root expr = Raise SyntaxError ->
  is_Ok (extract_data_from_one_xml (ET.Document root) mappings) = false
  /\ ((forall s cs c p, (s, cs) ∈ mappings -> (c, p) ∈ cs ->
                        column_values root p <> Unmodelled) ->
      exists e, extract_data_from_one_xml (ET.Document root) mappings = Raise e).
Proof.
  intros Hs Hc Hexpr Hbad.
  pose proof (column_values_search_error root path expr _ Hexpr Hbad) as Hcol.
  assert (is_Ok (extract_data_from_one_xml (ET.Document root) mappings) = false)
    as Hno.
  { unfold extract_data_from_one_xml. simpl.
    eapply data_to_write_not_Ok; [exact Hs|].
    eapply raw_sheet_data_not_Ok; [exact Hc|]. by rewrite Hcol. }
  split; [exact Hno|]. intros Hmod.
  pose proof (data_to_write_modelled root mappings Hmod []) as Hm.
  unfold extract_data_from_one_xml in *. simpl in *.
  destruct (data_to_write_to_excel root mappings []) as [t|e|]; [done| |done].
  by exists e.
Qed.

Lemma C2_invalid_expression_aborts_witness :
  is_Ok (extract_data_from_one_xml (ET.Document people_doc) absolute_mapping)
  = false.
Proof.
  refine (proj1 (C2_invalid_expression_aborts people_doc absolute_mapping
                   "Data" _ "Bad" "/person" "/person" _ _ _ _)).
  - apply list_elem_of_here.
  - apply list_elem_of_here.
  - reflexivity.
  - reflexivity.
Defined.

(** C3.  The claim fails on a document whose namespace has an [@]: the
    Path Extractor returns the path of the leaf [x]; the path contains [@],
    so the Value Extractor takes it for an attribute path; it has no [/@],
    so the split into element path and attribute name yields one piece and
    the extraction raises [ValueError].  The test for an attribute path
    ([@] anywhere) and the split (at [/@]) disagree. *)
Theorem C3_namespaced_path_raises :
  "{http://user@example.org/ns}doc/{http://user@example.org/ns}x"
    ∈ extract_xml_tags (ET.Document namespaced_doc)
  /\ contains_char "@"
       "{http://user@example.org/ns}doc/{http://user@example.org/ns}x" = true
  /\ rsplit1 "/@"
       "{http://user@example.org/ns}doc/{http://user@example.org/ns}x" = None
  /\ extract_data_from_one_xml (ET.Document namespaced_doc)
       [("Data",
         [("Name", "{http://user@example.org/ns}doc/{http://user@example.org/ns}x")])]
     = Raise ValueError.
Proof.
  split; [vm_compute; apply list_elem_of_here|]. by split_and!.
Qed.

(** ** Paths of the Path Extractor fed back to the Value Extractor *)

Section RoundTrip.

Lemma plain_doc_unfold (t : string) (a : dict string) (x : option string)
    (cs : list ET.Element) :
  plain_doc (ET.Elem t a x cs) = true <->
  ET.plain_name t = true
  /\ Forall (fun k => ET.plain_name k = true) (keys a)
  /\ Forall (fun c => plain_doc c = true) cs.
Proof.
  simpl. rewrite !andb_true_iff, !forallb_forall, !Forall_forall.
  setoid_rewrite list_elem_of_In. tauto.
Qed.

Lemma plain_name_truthy (t : string) : ET.plain_name t = true -> truthy t = true.
Proof. by destruct t. Qed.

Lemma truthy_append (a b : string) : truthy a = true -> truthy (a +:+ b) = true.
Proof. by destruct a. Qed.

(** In a document without namespaces, every element is reached at its root
    path followed by a chain of plain names. *)
Lemma walk_shape (e : ET.Element) :
  forall cur e' p,
  plain_doc e = true -> (e', p) ∈ walk e cur ->
  plain_doc e' = true
  /\ exists ts, Forall (fun t => ET.plain_name t = true) ts
       /\ p = (if truthy cur then cur +:+ "/" +:+ ET.tag e else ET.tag e)
              +:+ child_suffix ts.
Proof.
  induction e as [t a x cs IH] using Element_ind'. intros cur e' p Hpl Hin.
  pose proof Hpl as Hpl'. apply plain_doc_unfold in Hpl' as (Ht & _ & Hcs).
  cbn [walk ET.tag ET.children] in Hin.
  set (base := if truthy cur then cur +:+ "/" +:+ t else t) in *.
  apply elem_of_cons in Hin as [[= -> ->]|Hin].
  - split; [done|]. exists []. split; [constructor|]. cbn [ET.tag].
    by rewrite append_nil_r.
  - apply list_elem_of_In, in_flat_map in Hin as (c & Hc & Hin).
    apply list_elem_of_In in Hc, Hin.
    rewrite Forall_forall in IH, Hcs.
    destruct (IH c Hc base e' p (Hcs c Hc) Hin) as (He' & ts & Hts & ->).
    split; [done|]. exists (ET.tag c :: ts). split.
    + constructor; [|done]. specialize (Hcs c Hc). destruct c.
      by apply plain_doc_unfold in Hcs as (? & _).
    + cbn [ET.tag].
      assert (truthy base = true) as ->.
      { unfold base. destruct (truthy cur) eqn:Hcur;
          [by apply truthy_append | by apply plain_name_truthy]. }
      unfold child_suffix at 2. rewrite join_cons.
      by rewrite !append_assoc.
Qed.

Lemma join_no_at (ts : list string) :
  Forall (fun t => ET.plain_name t = true) ts ->
  contains_char "@" (join "/" ts) = false.
Proof.
  induction 1 as [|t ts Ht _ IH]; [done|].
  rewrite join_cons, contains_char_append, (plain_name_no_at t Ht).
  destruct ts as [|t' ts]; [done|].
  unfold child_suffix. by rewrite contains_char_append, IH.
Qed.

Lemma map_get_absent (attr : string) (l : list ET.Element) :
  Forall (fun e => ET.get e attr = None) l ->
  map (fun elem => of_option (ET.get elem attr)) l = replicate (length l) PyNone.
Proof. induction 1 as [|e l He _ IH]; simpl; [done|]. by rewrite He, IH. Qed.

End RoundTrip.

(** X20.  For a document without namespaces (all tags and attribute names
    are plain ASCII XML names) and every path that the Path Extractor
    returns for it, the Value Extractor with the single-column mapping
    raises no error: it returns the table of that one column. *)
Theorem plain_paths_feed_back (root : ET.Element)
    (sheet column p : string) :
  plain_doc root = true ->
  p ∈ extract_xml_tags (ET.Document root) ->
  exists values,
    extract_data_from_one_xml (ET.Document root) [(sheet, [(column, p)])]
    = Ok [(sheet, Pandas.mkDataFrame (length values) [(column, values)])].
Proof.
  intros Hpl Hp.
  apply elem_of_extract_xml_tags in Hp as (e & q & Hin & Hq).
  destruct (walk_shape root "" e q Hpl Hin) as (He & ts & Hts & Hq').
  cbn [truthy] in Hq'. rewrite <- join_cons in Hq'.
  assert (Forall (fun t => ET.plain_name t = true) (ET.tag root :: ts)) as Hall.
  { constructor; [|done]. destruct root. by apply plain_doc_unfold in Hpl as (? & _). }
  assert (Forall (fun t => ET.plain_name t = true) (ET.split_on "/" q)) as Hseg.
  { rewrite Hq', split_on_join; [done|done|].
    eapply Forall_impl; [exact Hall|]. intros t. apply plain_name_no_slash. }
  destruct (resolved_plain root q Hseg) as [matched Hm].
  destruct Hq as [[-> _]|(a & Ha & ->)].
  - eexists. apply extract_single_column.
    rewrite column_values_text, Hm; [done|].
    rewrite Hq'. by apply join_no_at.
  - eexists. apply extract_single_column.
    rewrite column_values_attr, Hm; [done|].
    apply plain_name_no_slash. destruct e as [t at' x cs].
    apply plain_doc_unfold in He as (_ & Hat & _).
    rewrite Forall_forall in Hat. by apply Hat.
Qed.

Lemma plain_paths_feed_back_witness :
  exists values,
    extract_data_from_one_xml (ET.Document people_doc)
      [("Data", [("Name", "people/person/name")])]
    = Ok [("Data", Pandas.mkDataFrame (length values) [("Name", values)])].
Proof.
  apply (plain_paths_feed_back people_doc "Data" "Name" "people/person/name").
  - reflexivity.
  - vm_compute. apply list_elem_of_further, list_elem_of_here.
Defined.

(** C8, as stated, fails: the attribute is on no element of the document,
    yet the column is not empty; it holds one [None] for each element that
    the tag path matches. *)
Lemma C8_missing_attribute_gives_None_values :
  carries "id" bare_doc = false
  /\ extract_data_from_one_xml (ET.Document bare_doc) [("Data", [("Id", "r/a/@id")])]
     = Ok [("Data", Pandas.mkDataFrame 2 [("Id", [PyNone; PyNone])])]
  /\ ~ (exists df,
          extract_data_from_one_xml (ET.Document bare_doc)
            [("Data", [("Id", "r/a/@id")])] = Ok [("Data", df)]
          /\ Pandas.getitem df "Id" = []).
Proof.
  split; [reflexivity|]. split; [reflexivity|].
  intros (df & [= <-] & Hempty). discriminate Hempty.
Qed.

(** C8, amended.  For an attribute path [tag/@attr], with [tag] a chain of
    plain names, where no element of the document carries the attribute, the
    Value Extractor raises no error and returns, for that column, one [None]
    for each element that [tag] matches (the empty list only when nothing
    matches). *)
Theorem C8_missing_attribute (root : ET.Element) (tags : list string)
    (attr sheet column : string) :
  tags <> [] ->
  Forall (fun t => ET.plain_name t = true) tags ->
  contains_char "/" attr = false ->
  carries attr root = false ->
  exists matched,
    ET.findall root (path_for_findall root (join "/" tags)) = Ok matched
    /\ extract_data_from_one_xml (ET.Document root)
         [(sheet, [(column, join "/" tags +:+ "/@" +:+ attr)])]
       = Ok [(sheet, Pandas.mkDataFrame (length matched)
                       [(column, replicate (length matched) PyNone)])].
Proof.
  intros Hne Htags Hattr Hcar.
  assert (Forall (fun t => ET.plain_name t = true) (ET.split_on "/" (join "/" tags)))
    as Hseg.
  { rewrite split_on_join; [done|done|].
    eapply Forall_impl; [exact Htags|]. intros t. apply plain_name_no_slash. }
  destruct (resolved_plain root _ Hseg) as [matched Hm].
  exists matched. split; [done|].
  pose proof (findall_carries attr root _ matched Hcar Hm) as Hnone.
  pose proof (extract_single_column root sheet column
                (join "/" tags +:+ "/@" +:+ attr)
                (map (fun elem => of_option (ET.get elem attr)) matched)) as E.
  rewrite length_map, (map_get_absent attr matched Hnone) in E.
  apply E. rewrite column_values_attr, Hm by done. simpl.
  by rewrite (map_get_absent attr matched Hnone).
Qed.

Lemma C8_missing_attribute_witness :
  exists matched,
    ET.findall bare_doc (path_for_findall bare_doc (join "/" ["r"; "a"])) = Ok matched
    /\ extract_data_from_one_xml (ET.Document bare_doc)
         [("Data", [("Id", join "/" ["r"; "a"] +:+ "/@" +:+ "id")])]
       = Ok [("Data", Pandas.mkDataFrame (length matched)
                        [("Id", replicate (length matched) PyNone)])].
Proof.
  apply (C8_missing_attribute bare_doc ["r"; "a"] "id" "Data" "Id").
  - discriminate.
  - repeat constructor.
  - reflexivity.
  - reflexivity.
Defined.

(** ** Row alignment *)

Section Alignment.

Lemma take_padded (n : nat) (s : list value) (filler : value) :
  length s <= n ->
  take n (s ++ replicate (n - length s) filler)
  = s ++ replicate (n - length s) filler.
Proof.
  intros H. apply take_ge. rewrite length_app, length_replicate. lia.
Qed.

Lemma length_take_padded (n : nat) (s : list value) (filler : value) :
  length (take n (s ++ replicate (n - length s) filler)) = n.
Proof. rewrite length_take, length_app, length_replicate. lia. Qed.

Lemma length_align_to (n : nat) (s : list value) :
  length (Pandas.align_to n s) = n.
Proof. apply length_take_padded. Qed.

Lemma align_to_exact (n : nat) (s : list value) :
  length s = n -> Pandas.align_to n s = s.
Proof.
  intros <-. unfold Pandas.align_to. rewrite Nat.sub_diag. simpl.
  rewrite app_nil_r. by apply take_ge.
Qed.

Lemma align_to_idemp (n : nat) (s : list value) :
  Pandas.align_to n (Pandas.align_to n s) = Pandas.align_to n s.
Proof. apply align_to_exact, length_align_to. Qed.

(** The maximum that the column loop returns bounds every column. *)
Lemma dict_set_Forall {V} (P : V -> Prop) (d : dict V) (k : string) (v : V) :
  Forall (fun kv => P (snd kv)) d -> P v ->
  Forall (fun kv => P (snd kv)) (dict_set d k v).
Proof.
  intros Hd Hv. induction Hd as [|[k' v'] d Hk Hd IH]; simpl.
  - by repeat constructor.
  - destruct (String.eqb k k'); constructor; done.
Qed.

Lemma raw_sheet_data_max_len (root : ET.Element) (cols : dict string) :
  forall raw max_len raw' max_len',
  Forall (fun kv => length (snd kv) <= max_len) raw ->
  raw_sheet_data root cols raw max_len = Ok (raw', max_len') ->
  Forall (fun kv => length (snd kv) <= max_len') raw'.
Proof.
  induction cols as [|[c p] cols IH]; intros raw ml raw' ml' Hraw; simpl.
  - by intros [= <- <-].
  - destruct (column_values root p) as [values| |]; [|done|done]. simpl.
    apply IH. apply (dict_set_Forall (fun v => length v <= _)).
    + eapply Forall_impl; [exact Hraw|]. intros [k v]. simpl.
      destruct (Nat.ltb_spec ml (length values)); lia.
    + destruct (Nat.ltb_spec ml (length values)); lia.
Qed.

Lemma aligned_sheet_data_padded (table : dict (list value)) (target : nat) :
  Forall (fun kv => length (snd kv) <= target) table ->
  aligned_sheet_data table target
  = map (fun kv => (fst kv, snd kv ++ replicate (target - length (snd kv)) PyNone))
        table
  /\ Forall (fun kv => length (snd kv) = target) (aligned_sheet_data table target).
Proof.
  intros Hle. split.
  - unfold aligned_sheet_data. apply map_ext_Forall.
    eapply Forall_impl; [exact Hle|]. intros [k v] Hv. simpl in *.
    unfold pad. by rewrite take_padded.
  - unfold aligned_sheet_data. apply Forall_forall. intros [k v] Hin.
    apply list_elem_of_In, in_map_iff in Hin as ([k' v'] & [= <- <-] & _).
    simpl. apply length_take_padded.
Qed.

(** Inside the Value Extractor the aligner is used within its precondition:
    the raw columns of a sheet are padded, never cut. *)
Lemma extracted_columns_padded (root : ET.Element) (cols : dict string)
    (raw : dict (list value)) (max_len : nat) :
  raw_sheet_data root cols [] 0 = Ok (raw, max_len) ->
  aligned_sheet_data raw max_len
  = map (fun kv => (fst kv, snd kv ++ replicate (max_len - length (snd kv)) PyNone))
        raw.
Proof.
  intros H. apply aligned_sheet_data_padded.
  by apply (raw_sheet_data_max_len root cols [] 0 raw max_len).
Qed.

(** Step 2 of the export brings a table to the row count of its sheet. *)
Lemma reindex_to_rows (max_rows : dict nat) (sheet : string)
    (df : Pandas.DataFrame) (target : nat) :
  dict_get max_rows sheet = Some target -> Pandas.nrows df <= target ->
  Pandas.nrows (reindex_to max_rows sheet df) = target.
Proof.
  intros Hget Hle. unfold reindex_to, Pandas.len. rewrite Hget.
  destruct (Nat.ltb_spec (Pandas.nrows df) target); [done|lia].
Qed.

End Alignment.

(** C5.  For every table and every target row count that is at least the
    length of the longest column, both aligners (the padding inside the Value
    Extractor and the re-indexing of the export) return the same columns in
    the same order, each of length exactly the target, made of the original
    values in their order followed by absent values ([None] for the first,
    NaN for the second). *)
Theorem C5_row_alignment (table : dict (list value)) (target : nat) :
  Forall (fun kv => length (snd kv) <= target) table ->
  (aligned_sheet_data table target
   = map (fun kv => (fst kv, snd kv ++ replicate (target - length (snd kv)) PyNone))
         table
   /\ Forall (fun kv => length (snd kv) = target) (aligned_sheet_data table target))
  /\ (forall (n : nat) (max_rows : dict nat) (sheet : string),
        Pandas.well_formed (Pandas.mkDataFrame n table) ->
        dict_get max_rows sheet = Some target ->
        let out := reindex_to max_rows sheet (Pandas.mkDataFrame n table) in
        Pandas.columns out
        = map (fun kv => (fst kv, snd kv ++ replicate (target - length (snd kv)) NaN))
              table
        /\ Forall (fun kv => length (snd kv) = target) (Pandas.columns out)).
Proof.
  intros Hle. split; [by apply aligned_sheet_data_padded|].
  intros n max_rows sheet Hwf Hget. unfold reindex_to. rewrite Hget.
  unfold Pandas.well_formed in Hwf. simpl in Hwf.
  assert (forall kv, kv ∈ table -> length (snd kv) = n /\ length (snd kv) <= target)
    as Hcol.
  { intros kv Hin. rewrite Forall_forall in Hwf, Hle. auto. }
  unfold Pandas.len. cbn [Pandas.nrows].
  destruct (Nat.ltb_spec n target) as [Hlt|Hge]; cbv zeta;
    cbn [Pandas.columns Pandas.reindex].
  - (* fewer rows than the target: re-indexed *)
    split.
    + apply map_ext_Forall, Forall_forall. intros kv Hin.
      destruct (Hcol kv Hin) as [_ Hl]. unfold Pandas.align_to.
      by rewrite take_padded.
    + apply Forall_forall. intros [k v] Hin.
      apply list_elem_of_In, in_map_iff in Hin as ([k' v'] & [= <- <-] & _).
      apply length_align_to.
  - (* already at the target: left as it is *)
    split.
    + rewrite <- (map_id table) at 1. apply map_ext_Forall, Forall_forall.
      intros [k v] Hin. destruct (Hcol _ Hin) as [Hn Hl]. simpl in *.
      replace (target - length v) with 0 by lia. simpl. by rewrite app_nil_r.
    + apply Forall_forall. intros kv Hin. destruct (Hcol _ Hin). lia.
Qed.

Lemma C5_row_alignment_witness :
  aligned_sheet_data [("Name", [Str "Alice"; Str "Bob"]); ("Age", [Str "30"])] 3
  = [("Name", [Str "Alice"; Str "Bob"; PyNone]); ("Age", [Str "30"; PyNone; PyNone])].
Proof.
  refine (proj1 (proj1 (C5_row_alignment
    [("Name", [Str "Alice"; Str "Bob"]); ("Age", [Str "30"])] 3 _))).
  repeat constructor.
Defined.

(** ** The Cross-Source Merger *)

Section Merger.

Lemma wf_getitem_length (df : Pandas.DataFrame) (k : string) :
  Pandas.well_formed df -> k ∈ keys (Pandas.columns df) ->
  length (Pandas.getitem df k) = Pandas.nrows df.
Proof.
  intros Hwf Hk. apply dict_get_is_Some in Hk as [v Hv].
  unfold Pandas.getitem. rewrite Hv. simpl.
  apply dict_get_Some_elem in Hv. unfold Pandas.well_formed in Hwf.
  rewrite Forall_forall in Hwf. by apply (Hwf (k, v)).
Qed.

Lemma align_to_compose (m n : nat) (v : list value) :
  (n <> 0 -> m = n) -> (n = 0 -> v = []) ->
  Pandas.align_to m (Pandas.align_to n v) = Pandas.align_to m v.
Proof.
  intros Hm Hv. destruct (decide (n = 0)) as [->|Hn].
  - by rewrite (Hv eq_refl).
  - rewrite (Hm Hn). apply align_to_idemp.
Qed.

(** Assignment of a new column. *)
Lemma setitem_new (df : Pandas.DataFrame) (c : string) (s : list value) :
  Pandas.well_formed df -> c ∉ keys (Pandas.columns df) ->
  let df' := Pandas.setitem df c s in
  Pandas.well_formed df'
  /\ keys (Pandas.columns df') = keys (Pandas.columns df) ++ [c]
  /\ (forall k, k ∈ keys (Pandas.columns df) ->
        Pandas.getitem df' k = Pandas.align_to (Pandas.nrows df') (Pandas.getitem df k))
  /\ Pandas.getitem df' c = Pandas.align_to (Pandas.nrows df') s
  /\ (Pandas.nrows df <> 0 -> Pandas.nrows df' = Pandas.nrows df)
  /\ (Pandas.nrows df' = 0 -> Pandas.nrows df = 0 /\ s = []).
Proof.
  intros Hwf Hc. cbv zeta. unfold Pandas.setitem.
  destruct (Nat.eqb (Pandas.nrows df) 0 && negb (Nat.eqb (length s) 0)) eqn:Hcond.
  - (* no rows: the index of the series is taken over *)
    apply andb_true_iff in Hcond as [H0%Nat.eqb_eq Hs%negb_true_iff%Nat.eqb_neq].
    set (cols := map _ (Pandas.columns df)).
    assert (keys cols = keys (Pandas.columns df)) as Hkeys
      by apply (keys_map_values (fun kv => Pandas.align_to (length s) (snd kv))).
    rewrite dict_set_new by by rewrite Hkeys.
    cbn [Pandas.nrows Pandas.columns]. split_and!.
    * unfold Pandas.well_formed. cbn [Pandas.nrows Pandas.columns].
      apply Forall_app. split; [|by repeat constructor].
      apply Forall_forall. intros [k v] Hin.
      apply list_elem_of_In, in_map_iff in Hin as ([k' v'] & [= <- <-] & _).
      apply length_align_to.
    * by rewrite keys_app, Hkeys.
    * intros k Hk. unfold Pandas.getitem. cbn [Pandas.columns].
      assert (k <> c) as Hne by (intros ->; done).
      rewrite <- (dict_set_new cols c s) by by rewrite Hkeys.
      rewrite dict_get_set_ne by done. unfold cols.
      rewrite (dict_get_map_values (Pandas.align_to (length s))).
      apply dict_get_is_Some in Hk as [v ->]. done.
    * unfold Pandas.getitem. cbn [Pandas.columns].
      rewrite <- (dict_set_new cols c s) by by rewrite Hkeys.
      rewrite dict_get_set_eq. simpl. symmetry. by apply align_to_exact.
    * done.
    * intros Hz. by rewrite Hz in Hs.
  - (* otherwise the series is aligned to the index of the frame *)
    rewrite dict_set_new by done.
    cbn [Pandas.nrows Pandas.columns]. split_and!.
    + unfold Pandas.well_formed. cbn [Pandas.nrows Pandas.columns].
      apply Forall_app. split; [done|]. repeat constructor. apply length_align_to.
    + by rewrite keys_app.
    + intros k Hk. symmetry.
      rewrite align_to_exact by by apply wf_getitem_length.
      unfold Pandas.getitem. cbn [Pandas.columns].
      rewrite <- (dict_set_new _ c (Pandas.align_to (Pandas.nrows df) s)) by done.
      rewrite dict_get_set_ne; [done|]. intros ->. done.
    + unfold Pandas.getitem. cbn [Pandas.columns].
      rewrite <- (dict_set_new _ c (Pandas.align_to (Pandas.nrows df) s)) by done.
      by rewrite dict_get_set_eq.
    + done.
    + intros Hz. rewrite Hz in Hcond. simpl in Hcond.
      apply negb_false_iff, Nat.eqb_eq in Hcond. split; [done|by apply nil_length_inv].
Qed.

Lemma filter_ext_elem {A} (P Q : A -> Prop)
    `{!forall x, Decision (P x), !forall x, Decision (Q x)} (l : list A) :
  (forall x, x ∈ l -> (P x <-> Q x)) -> filter P l = filter Q l.
Proof.
  induction l as [|a l IH]; intros Hext; [done|].
  rewrite !filter_cons.
  rewrite IH by (intros x Hx; apply Hext; by apply list_elem_of_further).
  apply decide_ext, Hext, list_elem_of_here.
Qed.

(** The loop over the columns of the new frame. *)
Lemma add_columns_loop (df_new : Pandas.DataFrame) (cs : list string) :
  NoDup cs ->
  forall df, Pandas.well_formed df ->
  let out := foldl (add_column_step df_new) df cs in
  Pandas.well_formed out
  /\ keys (Pandas.columns out)
     = keys (Pandas.columns df)
       ++ filter (fun c => c ∉ keys (Pandas.columns df)) cs
  /\ (forall k, k ∈ keys (Pandas.columns df) ->
        Pandas.getitem out k = Pandas.align_to (Pandas.nrows out) (Pandas.getitem df k))
  /\ (forall c, c ∈ cs -> c ∉ keys (Pandas.columns df) ->
        Pandas.getitem out c
        = Pandas.align_to (Pandas.nrows out) (Pandas.getitem df_new c))
  /\ (Pandas.nrows df <> 0 -> Pandas.nrows out = Pandas.nrows df)
  /\ (forall c, c ∈ cs -> c ∉ keys (Pandas.columns df) ->
        Pandas.nrows out = 0 -> Pandas.getitem df_new c = []).
Proof.
  induction cs as [|c cs IH]; intros Hnd df Hwf; cbv zeta.
  - simpl. split_and!; try done.
    + by rewrite app_nil_r.
    + intros k Hk. symmetry. by apply align_to_exact, wf_getitem_length.
    + by intros c ?%elem_of_nil.
    + by intros c ?%elem_of_nil.
  - apply NoDup_cons in Hnd as [Hc Hnd].
    change (foldl (add_column_step df_new) df (c :: cs))
      with (foldl (add_column_step df_new) (add_column_step df_new df c) cs).
    destruct (dict_mem (Pandas.columns df) c) eqn:Hmem.
    + (* the column exists: it is left alone *)
      assert (add_column_step df_new df c = df) as ->
        by (unfold add_column_step; by rewrite Hmem).
      apply dict_mem_true in Hmem.
      destruct (IH Hnd df Hwf) as (H1 & H2 & H3 & H4 & H5 & H6).
      split_and!; try done.
      * rewrite H2. f_equal. by rewrite filter_cons_False by (intros ?; done).
      * intros c' [->|Hc']%elem_of_cons Hnot; [done|]. by apply H4.
      * intros c' [->|Hc']%elem_of_cons Hnot; [done|]. by apply H6.
    + (* a new column *)
      assert (add_column_step df_new df c
              = Pandas.setitem df c (Pandas.getitem df_new c)) as ->
        by (unfold add_column_step; by rewrite Hmem).
      apply dict_mem_false in Hmem.
      set (s := Pandas.getitem df_new c).
      destruct (setitem_new df c s Hwf Hmem) as (S1 & S2 & S3 & S4 & S5 & S6).
      set (df' := Pandas.setitem df c s) in *.
      destruct (IH Hnd df' S1) as (H1 & H2 & H3 & H4 & H5 & H6).
      set (out := foldl (add_column_step df_new) df' cs) in *.
      assert (forall v, length v = Pandas.nrows df ->
                Pandas.align_to (Pandas.nrows out) (Pandas.align_to (Pandas.nrows df') v)
                = Pandas.align_to (Pandas.nrows out) v) as Hold.
      { intros v Hv. apply align_to_compose; [exact H5|].
        intros Hz. destruct (S6 Hz) as [Hz' _]. apply nil_length_inv. lia. }
      split_and!.
      * done.
      * rewrite H2, S2, <- app_assoc. f_equal.
        rewrite filter_cons_True by done. simpl. f_equal.
        apply filter_ext_elem. intros x Hx. rewrite not_elem_of_app.
        split; [tauto|]. intros Hn. split; [done|].
        rewrite list_elem_of_singleton. intros ->. done.
      * intros k Hk. rewrite H3 by (rewrite S2; apply elem_of_app; by left).
        rewrite (S3 k Hk). apply Hold. by apply wf_getitem_length.
      * intros c' [->|Hc']%elem_of_cons Hnot.
        -- rewrite H3 by (rewrite S2; apply elem_of_app; right; apply list_elem_of_here).
           rewrite S4. apply align_to_compose; [exact H5|].
           intros Hz. by destruct (S6 Hz).
        -- apply H4; [done|]. rewrite S2, not_elem_of_app, list_elem_of_singleton.
           split; [done|]. intros ->. done.
      * intros Hn. rewrite H5; [by apply S5|]. rewrite (S5 Hn). done.
      * intros c' [->|Hc']%elem_of_cons Hnot Hz.
        -- apply S6. destruct (decide (Pandas.nrows df' = 0)) as [|Hn]; [done|].
           rewrite (H5 Hn) in Hz. done.
        -- apply H6; [done| |done]. rewrite S2, not_elem_of_app, list_elem_of_singleton.
           split; [done|]. intros ->. done.
Qed.

(** When the new frame has as many rows as the existing one, the loop is a
    plain union of columns: those of the existing frame, then the columns of
    the new frame under names that were missing, with their own values. *)
Lemma add_columns_same_rows (df_new : Pandas.DataFrame) (n : nat)
    (cols : list (string * list value)) :
  (forall c v, (c, v) ∈ cols -> Pandas.getitem df_new c = v /\ length v = n) ->
  NoDup (keys cols) ->
  forall df, Pandas.well_formed df -> Pandas.nrows df = n ->
  foldl (add_column_step df_new) df (keys cols)
  = Pandas.mkDataFrame n
      (Pandas.columns df
       ++ filter (fun kv => fst kv ∉ keys (Pandas.columns df)) cols).
Proof.
  induction cols as [|[c v] cols IH]; intros Hcols Hnd df Hwf Hn.
  - simpl. rewrite app_nil_r. destruct df. simpl in *. by subst.
  - change (keys ((c, v) :: cols)) with (c :: keys cols) in *.
    apply NoDup_cons in Hnd as [Hc Hnd].
    change (foldl (add_column_step df_new) df (c :: keys cols))
      with (foldl (add_column_step df_new) (add_column_step df_new df c) (keys cols)).
    assert (forall c' v', (c', v') ∈ cols ->
              Pandas.getitem df_new c' = v' /\ length v' = n) as Hcols'.
    { intros c' v' Hin. apply Hcols. by apply list_elem_of_further. }
    destruct (Hcols c v (list_elem_of_here _ _)) as [Hget Hlen].
    destruct (dict_mem (Pandas.columns df) c) eqn:Hmem.
    + assert (add_column_step df_new df c = df) as ->
        by (unfold add_column_step; by rewrite Hmem).
      apply dict_mem_true in Hmem.
      rewrite filter_cons_False by (simpl; tauto). by apply IH.
    + assert (add_column_step df_new df c = Pandas.setitem df c v) as ->
        by (unfold add_column_step; by rewrite Hmem, Hget).
      apply dict_mem_false in Hmem.
      assert (Pandas.setitem df c v
              = Pandas.mkDataFrame n (Pandas.columns df ++ [(c, v)])) as ->.
      { unfold Pandas.setitem. rewrite Hn, <- Hlen.
        destruct (Nat.eqb (length v) 0); simpl;
          by rewrite dict_set_new, align_to_exact. }
      rewrite filter_cons_True by done.
      rewrite IH; try done.
      * cbn [Pandas.columns]. rewrite <- app_assoc. simpl. do 3 f_equal.
        apply filter_ext_elem. intros [c' v'] Hin. simpl.
        rewrite keys_app, not_elem_of_app. simpl. rewrite list_elem_of_singleton.
        split; [tauto|]. intros Hn'. split; [done|]. intros ->. apply Hc.
        apply list_elem_of_In, in_map_iff. exists (c, v').
        split; [done|]. by apply list_elem_of_In.
      * unfold Pandas.well_formed. cbn [Pandas.nrows Pandas.columns].
        apply Forall_app. split; [by rewrite <- Hn|by repeat constructor].
Qed.

(** The merge of one source, sheet by sheet. *)
Lemma merge_source_get (d : dict Pandas.DataFrame) :
  NoDup (keys d) ->
  forall acc sheet,
  dict_get (merge_source acc d) sheet
  = match dict_get d sheet with
    | None => dict_get acc sheet
    | Some df_new => Some (merged_sheet (dict_get acc sheet) df_new)
    end.
Proof.
  unfold merge_source.
  induction d as [|[k df] d IH]; intros Hnd acc sheet; [done|].
  apply NoDup_cons in Hnd as [Hk Hnd]. simpl in Hk. cbn [foldl fst snd dict_get].
  rewrite (IH Hnd). destruct (String.eqb_spec sheet k) as [->|Hne].
  - apply dict_get_None in Hk. rewrite Hk.
    destruct (dict_get acc k); by rewrite dict_get_set_eq.
  - destruct (dict_get acc k);
      by rewrite dict_get_set_ne by (intros ->; done).
Qed.

Lemma final_data_snoc (docs : list (dict Pandas.DataFrame))
    (d : dict Pandas.DataFrame) :
  final_data_to_write_by_sheet (docs ++ [d])
  = merge_source (final_data_to_write_by_sheet docs) d.
Proof. unfold final_data_to_write_by_sheet. by rewrite foldl_app. Qed.

End Merger.

Lemma merged_sheet_wf (existing : option Pandas.DataFrame) (df_new : Pandas.DataFrame) :
  (forall df, existing = Some df -> Pandas.well_formed df) ->
  Pandas.well_formed df_new -> NoDup (keys (Pandas.columns df_new)) ->
  Pandas.well_formed (merged_sheet existing df_new).
Proof.
  intros He Hn Hnd. destruct existing as [df|]; [|done]. simpl.
  by apply (add_columns_loop df_new _ Hnd df), He.
Qed.

(** The merged tables are well-formed frames. *)
Lemma final_data_wf (docs : list (dict Pandas.DataFrame)) :
  Forall valid_tables docs ->
  forall sheet df,
  dict_get (final_data_to_write_by_sheet docs) sheet = Some df ->
  Pandas.well_formed df.
Proof.
  induction docs as [|d docs IH] using rev_ind; intros Hall sheet df; [done|].
  apply Forall_app in Hall as [Hdocs [[Hnd Hd] _]%Forall_cons].
  rewrite final_data_snoc, (merge_source_get d Hnd).
  destruct (dict_get d sheet) as [df_new|] eqn:Hget; [|by apply IH].
  intros [= <-]. apply dict_get_Some_elem in Hget.
  rewrite Forall_forall in Hd. destruct (Hd _ Hget) as [Hwf Hcols].
  apply merged_sheet_wf; [|done|done]. intros df' Hdf'. by eapply IH.
Qed.

(** C4.  The merged tables are built source by source, in order.  When the
    next source [d] has a table [df_new] for a sheet: if no earlier source
    had that sheet, the table is adopted as it is; otherwise the columns of
    the merged table are those it had, in their order, followed by the
    columns of [df_new] whose names it did not have.  A column that was
    present keeps the values of the earlier source (they are its values
    aligned to the rows of the merged table, and its very values when that
    table had rows): the column of the same name in [df_new] is not used.  A
    new column holds the values of [df_new], aligned to the rows of the
    merged table.  When [df_new] has as many rows as the merged table (the
    export re-indexes the tables of a sheet to one row count), the result is
    the plain union: the old columns untouched, then the new columns with
    their own values.  Sheets that [d] does not have are left as they
    were. *)
Theorem C4_merger_first_writer_wins (docs : list (dict Pandas.DataFrame))
    (d : dict Pandas.DataFrame) (sheet : string) (df_new : Pandas.DataFrame) :
  Forall valid_tables docs -> valid_tables d ->
  dict_get d sheet = Some df_new ->
  let acc := final_data_to_write_by_sheet docs in
  let out := final_data_to_write_by_sheet (docs ++ [d]) in
  out = merge_source acc d
  /\ (forall other, dict_get d other = None -> dict_get out other = dict_get acc other)
  /\ match dict_get acc sheet with
     | None => dict_get out sheet = Some df_new
     | Some df_existing =>
         exists df_out,
           dict_get out sheet = Some df_out
           /\ keys (Pandas.columns df_out)
              = keys (Pandas.columns df_existing)
                ++ filter (fun c => c ∉ keys (Pandas.columns df_existing))
                          (keys (Pandas.columns df_new))
           /\ (forall c, c ∈ keys (Pandas.columns df_existing) ->
                 Pandas.getitem df_out c
                 = Pandas.align_to (Pandas.nrows df_out) (Pandas.getitem df_existing c))
           /\ (Pandas.nrows df_existing <> 0 ->
               forall c, c ∈ keys (Pandas.columns df_existing) ->
                 Pandas.getitem df_out c = Pandas.getitem df_existing c)
           /\ (forall c, c ∈ keys (Pandas.columns df_new) ->
                 c ∉ keys (Pandas.columns df_existing) ->
                 Pandas.getitem df_out c
                 = Pandas.align_to (Pandas.nrows df_out) (Pandas.getitem df_new c))
           /\ (Pandas.nrows df_new = Pandas.nrows df_existing ->
               Pandas.nrows df_out = Pandas.nrows df_existing
               /\ Pandas.columns df_out
                  = Pandas.columns df_existing
                    ++ filter (fun kv => fst kv ∉ keys (Pandas.columns df_existing))
                              (Pandas.columns df_new))
     end.
Proof.
  intros Hdocs [Hnd Hd] Hget. cbv zeta. rewrite final_data_snoc.
  split; [done|]. split.
  { intros other Hother. by rewrite (merge_source_get d Hnd), Hother. }
  rewrite (merge_source_get d Hnd), Hget.
  destruct (dict_get (final_data_to_write_by_sheet docs) sheet)
    as [df_existing|] eqn:Hacc; [|done].
  pose proof (final_data_wf docs Hdocs sheet df_existing Hacc) as Hwf.
  apply dict_get_Some_elem in Hget. rewrite Forall_forall in Hd.
  destruct (Hd _ Hget) as [Hwfn Hcols]. simpl in Hwfn, Hcols.
  destruct (add_columns_loop df_new _ Hcols df_existing Hwf)
    as (H1 & H2 & H3 & H4 & H5 & _).
  exists (foldl (add_column_step df_new) df_existing (keys (Pandas.columns df_new))).
  split; [done|]. split_and!; try done.
  - intros Hn c Hc. rewrite (H3 c Hc), (H5 Hn).
    by apply align_to_exact, wf_getitem_length.
  - intros Hrows.
    rewrite (add_columns_same_rows df_new (Pandas.nrows df_existing)
               (Pandas.columns df_new)); [done| |done|done|done].
    intros c v Hin. split.
    + unfold Pandas.getitem. by rewrite (dict_get_NoDup _ c v Hcols Hin).
    + rewrite <- Hrows. unfold Pandas.well_formed in Hwfn.
      rewrite Forall_forall in Hwfn. by apply (Hwfn (c, v)).
Qed.

Lemma C4_merger_first_writer_wins_witness :
  exists df_out,
    dict_get (final_data_to_write_by_sheet ([tables_A] ++ [tables_B])) "Data"
    = Some df_out
    /\ keys (Pandas.columns df_out) = ["Name"; "City"]
    /\ Pandas.getitem df_out "Name" = [Str "Alice"; Str "Bob"; NaN].
Proof.
  destruct (C4_merger_first_writer_wins [tables_A] tables_B "Data" frame_B)
    as (_ & _ & df_out & Hout & Hkeys & _ & Hsame & _ & _).
  - apply (bool_decide_unpack _). vm_compute. exact I.
  - apply (bool_decide_unpack _). vm_compute. exact I.
  - reflexivity.
  - exists df_out. split; [exact Hout|]. split; [exact Hkeys|].
    apply Hsame; [discriminate|]. apply list_elem_of_here.
Defined.

(** ** The first source wins, over the whole list of sources *)

Section FirstSource.

Lemma keeps_column_add (c : string) (v : list value)
    (df df_new : Pandas.DataFrame) :
  NoDup (keys (Pandas.columns df_new)) ->
  keeps_column c v df -> keeps_column c v (add_new_columns df df_new).
Proof.
  intros Hnd (Hc & Hwf & Hv & Hz).
  destruct (add_columns_loop df_new _ Hnd df Hwf) as (H1 & H2 & H3 & _ & H5 & _).
  change (foldl (add_column_step df_new) df (keys (Pandas.columns df_new)))
    with (add_new_columns df df_new) in *.
  split_and!.
  - rewrite H2. apply elem_of_app. by left.
  - done.
  - rewrite (H3 c Hc), Hv. by apply align_to_compose.
  - intros Hout. apply Hz. destruct (decide (Pandas.nrows df = 0)) as [|Hn]; [done|].
    by rewrite (H5 Hn) in Hout.
Qed.

Lemma keeps_column_later (c : string) (v : list value) (sheet : string)
    (after : list (dict Pandas.DataFrame)) :
  Forall valid_tables after ->
  forall acc df,
  dict_get acc sheet = Some df -> keeps_column c v df ->
  exists df', dict_get (foldl merge_source acc after) sheet = Some df'
              /\ keeps_column c v df'.
Proof.
  induction 1 as [|d after [Hnd Hd] _ IH]; intros acc df Hacc Hkeep; [by exists df|].
  simpl. destruct (dict_get d sheet) as [df_new|] eqn:Hget.
  - apply (IH _ (add_new_columns df df_new)).
    + by rewrite (merge_source_get d Hnd), Hget, Hacc.
    + apply keeps_column_add; [|done]. apply dict_get_Some_elem in Hget.
      rewrite Forall_forall in Hd. by destruct (Hd _ Hget).
  - apply (IH _ df); [|done]. by rewrite (merge_source_get d Hnd), Hget.
Qed.

(** Every column of a merged table comes from some source. *)
Lemma final_data_columns (docs : list (dict Pandas.DataFrame)) :
  Forall valid_tables docs ->
  forall sheet df c,
  dict_get (final_data_to_write_by_sheet docs) sheet = Some df ->
  c ∈ keys (Pandas.columns df) ->
  exists d df', d ∈ docs /\ dict_get d sheet = Some df'
                /\ c ∈ keys (Pandas.columns df').
Proof.
  induction docs as [|d docs IH] using rev_ind; intros Hall sheet df c; [done|].
  apply Forall_app in Hall as [Hdocs [[Hnd Hd] _]%Forall_cons].
  rewrite final_data_snoc, (merge_source_get d Hnd).
  assert (forall df0, dict_get (final_data_to_write_by_sheet docs) sheet = Some df0 ->
            c ∈ keys (Pandas.columns df0) ->
            exists d0 df', d0 ∈ docs ++ [d] /\ dict_get d0 sheet = Some df'
                           /\ c ∈ keys (Pandas.columns df')) as Hold.
  { intros df0 H0 Hc0. destruct (IH Hdocs sheet df0 c H0 Hc0) as (d0 & df' & ? & ? & ?).
    exists d0, df'. split; [apply elem_of_app; by left|done]. }
  destruct (dict_get d sheet) as [df_new|] eqn:Hget; [|by apply Hold].
  intros [= <-] Hc.
  assert (c ∈ keys (Pandas.columns df_new) ->
          exists d0 df', d0 ∈ docs ++ [d] /\ dict_get d0 sheet = Some df'
                         /\ c ∈ keys (Pandas.columns df')) as Hnew.
  { intros Hcn. exists d, df_new. split; [|done].
    apply elem_of_app. right. apply list_elem_of_here. }
  destruct (dict_get (final_data_to_write_by_sheet docs) sheet) as [df_e|] eqn:Hacc;
    [|by apply Hnew].
  pose proof (final_data_wf docs Hdocs sheet df_e Hacc) as Hwf.
  pose proof Hget as Hin. apply dict_get_Some_elem in Hin.
  rewrite Forall_forall in Hd. destruct (Hd _ Hin) as [_ Hcols]. simpl in Hcols.
  destruct (add_columns_loop df_new _ Hcols df_e Hwf) as (_ & H2 & _).
  change (merged_sheet (Some df_e) df_new)
    with (foldl (add_column_step df_new) df_e (keys (Pandas.columns df_new))) in Hc.
  rewrite H2 in Hc. apply elem_of_app in Hc as [Hc|Hc]; [by apply (Hold df_e)|].
  apply list_elem_of_filter in Hc as [_ Hc]. by apply Hnew.
Qed.

(** The first source, in processing order, that has a column for a sheet
    determines the values of that column in the merged table, whatever the
    later sources have under the same sheet and column. *)
Lemma first_source_wins (before after : list (dict Pandas.DataFrame))
    (d : dict Pandas.DataFrame) (sheet c : string) (df_first : Pandas.DataFrame) :
  Forall valid_tables (before ++ d :: after) ->
  (forall d' df', d' ∈ before -> dict_get d' sheet = Some df' ->
                  c ∉ keys (Pandas.columns df')) ->
  dict_get d sheet = Some df_first ->
  c ∈ keys (Pandas.columns df_first) ->
  exists df_out,
    dict_get (final_data_to_write_by_sheet (before ++ d :: after)) sheet
    = Some df_out
    /\ Pandas.getitem df_out c
       = Pandas.align_to (Pandas.nrows df_out) (Pandas.getitem df_first c).
Proof.
  intros Hall Hfirst Hget Hc.
  apply Forall_app in Hall as [Hbefore [[Hnd Hd] Hafter]%Forall_cons].
  pose proof Hget as Hin. apply dict_get_Some_elem in Hin.
  rewrite Forall_forall in Hd. destruct (Hd _ Hin) as [Hwf Hcols]. simpl in *.
  set (v := Pandas.getitem df_first c).
  assert (exists df1,
            dict_get (merge_source (final_data_to_write_by_sheet before) d) sheet
            = Some df1 /\ keeps_column c v df1) as (df1 & Hdf1 & Hkeep).
  { rewrite (merge_source_get d Hnd), Hget.
    destruct (dict_get (final_data_to_write_by_sheet before) sheet)
      as [df_e|] eqn:Hacc.
    - assert (c ∉ keys (Pandas.columns df_e)) as Hnot.
      { intros Hce.
        destruct (final_data_columns before Hbefore sheet df_e c Hacc Hce)
          as (d0 & df' & Hd0 & Hs0 & Hc0).
        by apply (Hfirst d0 df'). }
      pose proof (final_data_wf before Hbefore sheet df_e Hacc) as Hwfe.
      destruct (add_columns_loop df_first _ Hcols df_e Hwfe)
        as (H1 & H2 & _ & H4 & _ & H6).
      eexists. split; [done|]. split_and!.
      + change (merged_sheet (Some df_e) df_first)
          with (foldl (add_column_step df_first) df_e
                      (keys (Pandas.columns df_first))).
        rewrite H2. apply elem_of_app. right. by apply list_elem_of_filter.
      + exact H1.
      + by apply H4.
      + by apply H6.
    - exists df_first. split; [done|]. split_and!; try done.
      + symmetry. by apply align_to_exact, wf_getitem_length.
      + intros Hz. apply nil_length_inv. unfold v.
        by rewrite (wf_getitem_length df_first c Hwf Hc). }
  unfold final_data_to_write_by_sheet. rewrite foldl_app. simpl.
  destruct (keeps_column_later c v sheet after Hafter _ df1 Hdf1 Hkeep)
    as (df' & Hdf' & _ & _ & Hv & _).
  by exists df'.
Qed.

End FirstSource.

(** ** The Template Writer *)

Section Writer.

Implicit Types (ws : gmap (nat * nat) value).

Lemma last_index_Some (k : value) (l : list value) (j : nat) :
  last_index k l = Some j ->
  l !! j = Some k /\ forall j', j < j' -> l !! j' <> Some k.
Proof.
  revert j. induction l as [|x l IH]; intros j; simpl; [done|].
  destruct (last_index k l) as [j0|] eqn:Hl.
  - intros [= <-]. destruct (IH j0 eq_refl) as [H1 H2]. split; [done|].
    intros [|j'] Hj'; [lia|]. simpl. apply H2. lia.
  - destruct (decide (x = k)) as [->|]; [|done]. intros [= <-]. split; [done|].
    intros [|j'] Hj'; [lia|]. simpl. intros Hin.
    assert (exists j0, last_index k l = Some j0) as [j0 Hj0]; [|congruence].
    clear -Hin. revert j' Hin. induction l as [|y l IHl]; intros j' Hin; [done|].
    simpl. destruct j' as [|j']; simpl in Hin.
    + injection Hin as ->. destruct (last_index k l); [by eexists|].
      rewrite decide_True by done. by eexists.
    + destruct (IHl j' Hin) as [j0 ->]. by eexists.
Qed.

Lemma last_index_is_last (k : value) (l : list value) (j : nat) :
  l !! j = Some k -> (forall j', j < j' -> l !! j' <> Some k) ->
  last_index k l = Some j.
Proof.
  revert j. induction l as [|x l IH]; intros j Hj Hlast; [done|]. simpl.
  destruct j as [|j]; simpl in Hj.
  - injection Hj as ->.
    destruct (last_index k l) as [j0|] eqn:Hl.
    + apply last_index_Some in Hl as [Hl _].
      by destruct (Hlast (S j0) ltac:(lia)).
    + by rewrite decide_True.
  - rewrite (IH j Hj); [done|]. intros j' Hj'. apply (Hlast (S j')). lia.
Qed.

Lemma header_index_map_from_lookup (hdr : list value) :
  forall (i : nat) (m : gmap value nat) (k : value),
  k <> PyNone ->
  header_index_map_from i hdr m !! k
  = match last_index k hdr with
    | Some j => Some (i + j)
    | None => m !! k
    end.
Proof.
  induction hdr as [|x hdr IH]; intros i m k Hk; simpl; [done|].
  rewrite (IH _ _ _ Hk). destruct (last_index k hdr) as [j|].
  - f_equal. lia.
  - destruct (decide (x = k)) as [->|Hne].
    + destruct k; [done| | |]; simpl; rewrite lookup_insert_eq; f_equal; lia.
    + destruct (is_None x); [done|]. by rewrite lookup_insert_ne.
Qed.

(** The index map sends a header to the last column that shows it. *)
Lemma header_index_map_lookup (hdr : list value) (k : value) (c : nat) :
  k <> PyNone ->
  header_index_map hdr !! k = Some c <->
  exists j, c = S j /\ hdr !! j = Some k /\ forall j', j < j' -> hdr !! j' <> Some k.
Proof.
  intros Hk. unfold header_index_map.
  rewrite (header_index_map_from_lookup hdr 1 ∅ k Hk). split.
  - destruct (last_index k hdr) as [j|] eqn:Hl; [|by rewrite lookup_empty].
    intros [= <-]. exists j. split; [done|]. by apply last_index_Some.
  - intros (j & -> & Hj & Hlast). by rewrite (last_index_is_last k hdr j Hj Hlast).
Qed.

Lemma foldr_max_bound (x : nat) (l : list nat) :
  x ∈ l -> x <= foldr Nat.max 1 l.
Proof.
  induction l as [|y l IH]; [by intros ?%elem_of_nil|].
  intros [->|Hin]%elem_of_cons; simpl; [lia|]. specialize (IH Hin). lia.
Qed.

Lemma max_column_bound ws (r c : nat) (v : value) :
  ws !! (r, c) = Some v -> c <= Openpyxl.max_column ws.
Proof.
  intros H. unfold Openpyxl.max_column. apply foldr_max_bound.
  apply list_elem_of_In, in_map_iff. exists ((r, c), v). split; [done|].
  apply list_elem_of_In. by apply elem_of_map_to_list.
Qed.

Lemma lookup_map {A B} (f : A -> B) (l : list A) (j : nat) :
  map f l !! j = f <$> l !! j.
Proof. revert j. induction l as [|x l IH]; intros [|j]; simpl; auto. Qed.

Lemma first_row_values_lookup ws (j : nat) (v : value) :
  Openpyxl.first_row_values ws !! j = Some v <->
  j < Openpyxl.max_column ws /\ v = Openpyxl.cell_value ws 1 (S j).
Proof.
  unfold Openpyxl.first_row_values. rewrite lookup_map. split.
  - destruct (seq 1 (Openpyxl.max_column ws) !! j) as [c|] eqn:Hc; [|done].
    apply lookup_seq in Hc as [-> Hlt]. by intros [= <-].
  - intros [Hlt ->].
    by rewrite (proj2 (lookup_seq 1 (Openpyxl.max_column ws) j (S j))).
Qed.

Lemma cell_value_Str ws (r c : nat) (h : string) :
  Openpyxl.cell_value ws r c = Str h <-> ws !! (r, c) = Some (Str h).
Proof.
  unfold Openpyxl.cell_value. destruct (ws !! (r, c)) as [v|]; simpl; [|done].
  split; [by intros ->|by intros [= ->]].
Qed.

Lemma index_map_matched ws (h : string) (c : nat) :
  header_index_map (Openpyxl.first_row_values ws) !! Str h = Some c ->
  1 <= c /\ Openpyxl.cell_value ws 1 c = Str h
  /\ forall c', c < c' -> Openpyxl.cell_value ws 1 c' <> Str h.
Proof.
  intros (j & -> & Hj & Hlast)%header_index_map_lookup; [|done].
  apply first_row_values_lookup in Hj as [Hlt Hv]. split; [lia|]. split; [done|].
  intros c' Hc' Hcell. destruct c' as [|j']; [lia|].
  apply (Hlast j'); [lia|]. apply first_row_values_lookup. split; [|done].
  apply cell_value_Str, max_column_bound in Hcell. lia.
Qed.

Lemma index_map_last ws (h : string) (c : nat) :
  1 <= c -> Openpyxl.cell_value ws 1 c = Str h ->
  (forall c', c < c' -> Openpyxl.cell_value ws 1 c' <> Str h) ->
  header_index_map (Openpyxl.first_row_values ws) !! Str h = Some c.
Proof.
  intros Hc Hcell Hlast. apply header_index_map_lookup; [done|].
  destruct c as [|j]; [lia|]. exists j. split; [done|]. split.
  - apply first_row_values_lookup. split; [|done].
    apply cell_value_Str, max_column_bound in Hcell. lia.
  - intros j' Hj' [_ Hv]%first_row_values_lookup. apply (Hlast (S j')); [lia|done].
Qed.

(** Writing one column. *)
Lemma write_column_other ws (row col : nat) (series : list value) (r c : nat) :
  c <> col \/ r < row \/ row + length series <= r ->
  write_column ws row col series !! (r, c) = ws !! (r, c).
Proof.
  revert ws row. induction series as [|v series IH]; intros ws row H; [done|].
  simpl in *. rewrite IH by lia. unfold Openpyxl.cell.
  destruct (is_None v); [done|]. apply lookup_insert_ne. intros [= -> ->]. lia.
Qed.

Lemma write_column_at ws (row col : nat) (series : list value) (i : nat) (v : value) :
  series !! i = Some v ->
  write_column ws row col series !! (row + i, col)
  = if is_None v then ws !! (row + i, col) else Some v.
Proof.
  revert ws row i. induction series as [|x series IH]; intros ws row i H; [done|].
  destruct i as [|i]; simpl in *.
  - injection H as ->. rewrite write_column_other by lia.
    rewrite Nat.add_0_r. unfold Openpyxl.cell.
    destruct (is_None v); [done|]. apply lookup_insert_eq.
  - replace (row + S i) with (S row + i) by lia. rewrite (IH _ _ _ H).
    destruct (is_None v); [|done]. unfold Openpyxl.cell.
    destruct (is_None x); [done|]. apply lookup_insert_ne. intros [= ?]. lia.
Qed.

(** The loop over the columns of the frame: a cell changes only in a column
    that a header of the frame is matched to, and within its written rows. *)
Lemma write_matched_frame (index_map : gmap value nat) (df : Pandas.DataFrame)
    (hs : list string) (r c : nat) :
  (forall h, h ∈ hs -> index_map !! Str h = Some c ->
             ~ (2 <= r <= length (Pandas.getitem df h) + 1)) ->
  forall ws, foldl (write_matched index_map df) ws hs !! (r, c) = ws !! (r, c).
Proof.
  induction hs as [|h hs IH]; intros Hout ws; [done|]. simpl.
  rewrite IH by (intros h' Hh'; apply Hout; by apply list_elem_of_further).
  unfold write_matched. destruct (index_map !! Str h) as [col|] eqn:Hcol; [|done].
  apply write_column_other. destruct (decide (c = col)) as [->|]; [|by left].
  right. specialize (Hout h (list_elem_of_here _ _) Hcol). lia.
Qed.

Lemma write_matched_written (index_map : gmap value nat) (df : Pandas.DataFrame)
    (hs : list string) (h : string) (c i : nat) (v : value) :
  h ∈ hs -> index_map !! Str h = Some c ->
  (forall h', h' ∈ hs -> index_map !! Str h' = Some c -> h' = h) ->
  Pandas.getitem df h !! i = Some v -> v <> PyNone ->
  forall ws, foldl (write_matched index_map df) ws hs !! (i + 2, c) = Some v.
Proof.
  intros Hin Hc Hinj Hv Hnone.
  assert (forall ws, write_matched index_map df ws h !! (i + 2, c) = Some v) as Hstep.
  { intros ws. unfold write_matched. rewrite Hc, (Nat.add_comm i 2).
    rewrite (write_column_at _ _ _ _ _ _ Hv). by destruct v. }
  induction hs as [|x hs IH]; intros ws; [by apply elem_of_nil in Hin|].
  simpl. destruct (decide (h ∈ hs)) as [Hhs|Hhs].
  - apply IH; [done|]. intros h' Hh'. apply Hinj. by apply list_elem_of_further.
  - apply elem_of_cons in Hin as [<-|]; [|done].
    rewrite write_matched_frame; [apply Hstep|].
    intros h' Hh' Hc' _. apply Hhs.
    rewrite <- (Hinj h'); [done|by apply list_elem_of_further|done].
Qed.

Lemma write_sheet_unfold ws (df : Pandas.DataFrame) :
  write_sheet ws df
  = if Pandas.empty df then ws
    else foldl (write_matched (header_index_map (Openpyxl.first_row_values ws)) df)
               ws (keys (Pandas.columns df)).
Proof. reflexivity. Qed.

(** What the writer changes on a sheet. *)
Lemma write_sheet_frame ws (df : Pandas.DataFrame) (r c : nat) :
  (forall h, h ∈ keys (Pandas.columns df) -> Openpyxl.cell_value ws 1 c = Str h ->
             ~ (2 <= r <= length (Pandas.getitem df h) + 1)) ->
  write_sheet ws df !! (r, c) = ws !! (r, c).
Proof.
  intros Hout. rewrite write_sheet_unfold. destruct (Pandas.empty df); [done|].
  apply write_matched_frame. intros h Hh Hc. apply Hout; [done|].
  by apply index_map_matched in Hc as (_ & ? & _).
Qed.

Lemma write_sheet_first_row ws (df : Pandas.DataFrame) (c : nat) :
  write_sheet ws df !! (1, c) = ws !! (1, c).
Proof. apply write_sheet_frame. intros h _ _. lia. Qed.

End Writer.

Section Workbook.

Lemma write_unfold (tpl : Openpyxl.Workbook) (data : dict Pandas.DataFrame) :
  write_dataframes_to_excel tpl data = foldl (write_step data) tpl (keys tpl).
Proof. reflexivity. Qed.

Lemma keys_write_step (data : dict Pandas.DataFrame) (wb : Openpyxl.Workbook)
    (x : string) :
  keys (write_step data wb x) = keys wb.
Proof.
  unfold write_step. destruct (dict_get data x); [|done].
  destruct (dict_get wb x) eqn:Hx; [|done].
  apply keys_dict_set_old, dict_get_is_Some. by eexists.
Qed.

Lemma keys_write_fold (data : dict Pandas.DataFrame) (names : list string) :
  forall wb : Openpyxl.Workbook,
  keys (foldl (write_step data) wb names) = keys wb.
Proof.
  induction names as [|x names IH]; intros wb; [done|].
  simpl. by rewrite IH, keys_write_step.
Qed.

Lemma sheet_kept_step (data : dict Pandas.DataFrame)
    (tpl wb : Openpyxl.Workbook) (x : string) :
  Forall2 (sheet_kept data) tpl wb ->
  Forall2 (sheet_kept data) tpl (write_step data wb x).
Proof.
  intros H. unfold write_step.
  destruct (dict_get data x) as [df|] eqn:Hdf; [|done].
  destruct (dict_get wb x) as [ws|] eqn:Hws; [|done].
  revert Hws. induction H as [|[n a] [n' b] tpl wb (Hn & Hrow & Hsame) H IH];
    [done|].
  simpl in *. subst n'. destruct (String.eqb_spec x n) as [->|Hne].
  - intros [= ->]. constructor; [|done]. split; [done|]. split.
    + intros c. simpl. by rewrite write_sheet_first_row.
    + simpl. by rewrite Hdf.
  - intros Hws. constructor; [done|]. by apply IH.
Qed.

Lemma sheet_kept_fold (data : dict Pandas.DataFrame) (tpl : Openpyxl.Workbook)
    (names : list string) :
  forall wb : Openpyxl.Workbook,
  Forall2 (sheet_kept data) tpl wb ->
  Forall2 (sheet_kept data) tpl (foldl (write_step data) wb names).
Proof.
  induction names as [|x names IH]; intros wb H; [done|].
  simpl. by apply IH, sheet_kept_step.
Qed.

Lemma foldl_ext_elem {A B} (f g : A -> B -> A) (l : list B) :
  (forall a x, x ∈ l -> f a x = g a x) -> forall a, foldl f a l = foldl g a l.
Proof.
  induction l as [|x l IH]; intros H a; [done|]. simpl.
  rewrite (H a x (list_elem_of_here _ _)).
  apply IH. intros a' x' Hx'. apply H. by apply list_elem_of_further.
Qed.

(** With distinct sheet titles, each sheet is written once. *)
Lemma write_fold_get (data : dict Pandas.DataFrame) (names : list string) :
  NoDup names ->
  forall (wb : Openpyxl.Workbook) (name : string),
  dict_get (foldl (write_step data) wb names) name
  = if decide (name ∈ names)
    then (fun ws => match dict_get data name with
                    | Some df => write_sheet ws df
                    | None => ws
                    end) <$> dict_get wb name
    else dict_get wb name.
Proof.
  induction names as [|x names IH]; intros Hnd wb name; [done|].
  apply NoDup_cons in Hnd as [Hx Hnd]. simpl. rewrite (IH Hnd).
  assert (forall n, n <> x -> dict_get (write_step data wb x) n = dict_get wb n) as Hother.
  { intros n Hn. unfold write_step. destruct (dict_get data x); [|done].
    destruct (dict_get wb x); [|done]. by apply dict_get_set_ne. }
  destruct (decide (name ∈ names)) as [Hin|Hin].
  - rewrite decide_True by by apply list_elem_of_further.
    rewrite Hother; [done|]. by intros ->.
  - destruct (decide (name = x)) as [->|Hne].
    + rewrite decide_True by apply list_elem_of_here.
      unfold write_step. destruct (dict_get data x) as [df|].
      * destruct (dict_get wb x) as [ws|] eqn:Hws; [|by rewrite Hws].
        by rewrite dict_get_set_eq.
      * by destruct (dict_get wb x).
    + rewrite decide_False by (rewrite elem_of_cons; tauto). by apply Hother.
Qed.

Lemma write_get (tpl : Openpyxl.Workbook) (data : dict Pandas.DataFrame)
    (name : string) (ws : gmap (nat * nat) value) :
  NoDup (keys tpl) -> dict_get tpl name = Some ws ->
  dict_get (write_dataframes_to_excel tpl data) name
  = Some (match dict_get data name with
          | Some df => write_sheet ws df
          | None => ws
          end).
Proof.
  intros Hnd Hws. rewrite write_unfold, (write_fold_get data _ Hnd), Hws.
  rewrite decide_True; [done|]. apply dict_get_is_Some. by eexists.
Qed.

End Workbook.

(** C6.  The output workbook has the sheets of the template, in the same
    order and under the same titles, and no others.  Sheet by sheet, the
    first row of the output is the first row of the template, cell for
    cell, and a sheet for which the merged tables have nothing is the
    template's sheet unchanged.  A merged table under a title that the
    template does not have makes no difference to the output. *)
Theorem C6_writer_keeps_sheets_and_headers (tpl : Openpyxl.Workbook)
    (data : dict Pandas.DataFrame) :
  let out := write_dataframes_to_excel tpl data in
  keys out = keys tpl
  /\ Forall2 (sheet_kept data) tpl out
  /\ (forall name df, name ∉ keys tpl ->
        write_dataframes_to_excel tpl (dict_set data name df) = out).
Proof.
  cbv zeta. rewrite !write_unfold. split_and!.
  - apply keys_write_fold.
  - apply sheet_kept_fold. apply Forall2_same_length_lookup_2; [done|].
    intros i a b Ha Hb. assert (a = b) as -> by congruence. by split.
  - intros name df Hname. rewrite write_unfold. apply foldl_ext_elem.
    intros wb x Hx. unfold write_step.
    rewrite dict_get_set_ne; [done|]. by intros ->.
Qed.

(** C9.  When the header [h] of a merged column stands in several columns
    of the template sheet's first row, the values of the merged column go to
    the last of these columns, one per row from row 2 on (a [None] value
    leaves its cell as it was), and every other column that shows [h] keeps
    all its cells. *)
Theorem C9_duplicate_header_last_column (tpl : Openpyxl.Workbook)
    (data : dict Pandas.DataFrame) (name : string)
    (ws : gmap (nat * nat) value) (df : Pandas.DataFrame)
    (h : string) (c_last : nat) :
  NoDup (keys tpl) ->
  dict_get tpl name = Some ws -> dict_get data name = Some df ->
  Pandas.empty df = false -> h ∈ keys (Pandas.columns df) ->
  1 <= c_last -> Openpyxl.cell_value ws 1 c_last = Str h ->
  (forall c', c_last < c' -> Openpyxl.cell_value ws 1 c' <> Str h) ->
  exists ws',
    dict_get (write_dataframes_to_excel tpl data) name = Some ws'
    /\ (forall i v, Pandas.getitem df h !! i = Some v -> v <> PyNone ->
          ws' !! (i + 2, c_last) = Some v)
    /\ (forall r c, c <> c_last -> Openpyxl.cell_value ws 1 c = Str h ->
          ws' !! (r, c) = ws !! (r, c)).
Proof.
  intros Hnd Hws Hdf Hempty Hh Hc Hcell Hlast.
  exists (write_sheet ws df). split; [by rewrite (write_get tpl data name ws), Hdf|].
  pose proof (index_map_last ws h c_last Hc Hcell Hlast) as Hmap.
  split.
  - intros i v Hv Hnone. rewrite write_sheet_unfold, Hempty.
    apply (write_matched_written _ df _ h); try done.
    intros h' _ (_ & Hcell' & _)%index_map_matched. congruence.
  - intros r c Hne Hcell'. rewrite write_sheet_unfold, Hempty.
    apply write_matched_frame. intros h' _ Hmap'.
    pose proof Hmap' as (_ & Hcell'' & _)%index_map_matched.
    assert (h' = h) as -> by congruence. congruence.
Qed.

Lemma C9_duplicate_header_last_column_witness :
  exists ws',
    dict_get (write_dataframes_to_excel template merged) "Data" = Some ws'
    /\ (forall i v, Pandas.getitem merged_frame "Name" !! i = Some v -> v <> PyNone ->
          ws' !! (i + 2, 3) = Some v)
    /\ (forall r c, c <> 3 -> Openpyxl.cell_value template_data 1 c = Str "Name" ->
          ws' !! (r, c) = template_data !! (r, c)).
Proof.
  apply (C9_duplicate_header_last_column template merged "Data" template_data
           merged_frame "Name" 3).
  - apply (bool_decide_unpack _). vm_compute. exact I.
  - reflexivity.
  - reflexivity.
  - reflexivity.
  - apply list_elem_of_here.
  - lia.
  - reflexivity.
  - intros c' Hc' Hcell%cell_value_Str%max_column_bound.
    vm_compute in Hcell. lia.
Defined.

(** C10.  On a template sheet that has a merged table, a cell keeps its
    content unless its column shows, in the first row, the name [h] of a
    merged column and its row lies between 2 and the number of values of
    that column plus 1.  In particular the columns whose header names no
    merged column are kept, the cells of a matched column below the written
    rows are kept, and the first row is kept. *)
Theorem C10_writer_touches_only_written_range (tpl : Openpyxl.Workbook)
    (data : dict Pandas.DataFrame) (name : string)
    (ws : gmap (nat * nat) value) (df : Pandas.DataFrame) :
  NoDup (keys tpl) ->
  dict_get tpl name = Some ws -> dict_get data name = Some df ->
  exists ws',
    dict_get (write_dataframes_to_excel tpl data) name = Some ws'
    /\ (forall r c,
          (forall h, h ∈ keys (Pandas.columns df) ->
                     Openpyxl.cell_value ws 1 c = Str h ->
                     ~ (2 <= r <= length (Pandas.getitem df h) + 1)) ->
          ws' !! (r, c) = ws !! (r, c))
    /\ (forall r c,
          (forall h, h ∈ keys (Pandas.columns df) ->
                     Openpyxl.cell_value ws 1 c <> Str h) ->
          ws' !! (r, c) = ws !! (r, c))
    /\ (forall r c h,
          h ∈ keys (Pandas.columns df) -> Openpyxl.cell_value ws 1 c = Str h ->
          length (Pandas.getitem df h) + 1 < r ->
          ws' !! (r, c) = ws !! (r, c))
    /\ (forall c, ws' !! (1, c) = ws !! (1, c)).
Proof.
  intros Hnd Hws Hdf. exists (write_sheet ws df).
  split; [by rewrite (write_get tpl data name ws), Hdf|]. split_and!.
  - intros r c. apply write_sheet_frame.
  - intros r c Hun. apply write_sheet_frame. intros h Hh Hc. by destruct (Hun h Hh).
  - intros r c h Hh Hc Hr. apply write_sheet_frame. intros h' Hh' Hc'.
    assert (h' = h) as -> by congruence. lia.
  - apply write_sheet_first_row.
Qed.

Lemma C10_writer_touches_only_written_range_witness :
  exists ws',
    dict_get (write_dataframes_to_excel template merged) "Data" = Some ws'
    /\ ws' !! (5, 3) = Some (Str "old")
    /\ ws' !! (2, 2) = Some (Str "kept").
Proof.
  destruct (C10_writer_touches_only_written_range template merged "Data"
              template_data merged_frame) as (ws' & Hout & _ & Hun & Hbelow & _).
  - apply (bool_decide_unpack _). vm_compute. exact I.
  - reflexivity.
  - reflexivity.
  - exists ws'. split; [exact Hout|]. split.
    + rewrite (Hbelow 5 3 "Name"); [reflexivity|apply list_elem_of_here|reflexivity|].
      simpl. lia.
    + rewrite (Hun 2 2); [reflexivity|].
      intros h ->%list_elem_of_singleton. discriminate.
Defined.

(** * Further properties *)

(** ** The mapping list *)

Section Mappings.

Lemma add_mapping_keys (ms : list mapping) (e t s : string) :
  excel <$> add_mapping ms e t s
  = if decide (e ∈ excel <$> ms) then excel <$> ms else (excel <$> ms) ++ [e].
Proof.
  induction ms as [|m ms IH]; [done|]. cbn [add_mapping].
  destruct (String.eqb_spec (excel m) e) as [He|He].
  - rewrite decide_True by (rewrite fmap_cons, He; apply list_elem_of_here). done.
  - rewrite !fmap_cons, IH. destruct (decide (e ∈ excel <$> ms)) as [Hin|Hin].
    + by rewrite decide_True by by apply list_elem_of_further.
    + rewrite decide_False; [done|]. rewrite elem_of_cons. intros [?|?]; by auto.
Qed.

Lemma add_mapping_elem (ms : list mapping) (e t s : string) :
  mkMapping e t s ∈ add_mapping ms e t s.
Proof.
  induction ms as [|m ms IH]; [apply list_elem_of_here|]. cbn [add_mapping].
  destruct (String.eqb_spec (excel m) e) as [He|He].
  - rewrite He. apply list_elem_of_here.
  - by apply list_elem_of_further.
Qed.

Lemma add_mapping_others (ms : list mapping) (e t s : string) (m : mapping) :
  excel m <> e -> m ∈ add_mapping ms e t s <-> m ∈ ms.
Proof.
  intros Hm. induction ms as [|m0 ms IH]; cbn [add_mapping].
  - rewrite list_elem_of_singleton, elem_of_nil. split; [|done].
    intros ->. by destruct Hm.
  - destruct (String.eqb_spec (excel m0) e) as [He|He].
    + rewrite !elem_of_cons. split; intros [->|?]; auto; simpl in *; congruence.
    + rewrite !elem_of_cons, IH. done.
Qed.

Lemma NoDup_fmap_eq {A B} (f : A -> B) (l : list A) (x y : A) :
  NoDup (f <$> l) -> x ∈ l -> y ∈ l -> f x = f y -> x = y.
Proof.
  induction l as [|a l IH]; [by intros _ ?%elem_of_nil|].
  rewrite fmap_cons, NoDup_cons. intros [Ha Hnd].
  intros [->|Hx]%elem_of_cons [->|Hy]%elem_of_cons Hf; [done| | |by apply IH].
  - destruct Ha. rewrite Hf. by apply list_elem_of_fmap_2.
  - destruct Ha. rewrite <- Hf. by apply list_elem_of_fmap_2.
Qed.

End Mappings.

(** X1.  "Add Mapping" is an upsert on the Excel column: the columns that
    have a mapping stay in their order, the selected one joining at the end
    when it had none; the list then holds the selected column with the
    selected path and source; the mappings of the other columns are those
    there were.  When no column was mapped twice, none is afterwards, and the
    selected column has this one mapping only. *)
Theorem add_mapping_upsert (ms : list mapping) (e t s : string) :
  let ms' := add_mapping ms e t s in
  excel <$> ms'
  = (if decide (e ∈ excel <$> ms) then excel <$> ms else (excel <$> ms) ++ [e])
  /\ mkMapping e t s ∈ ms'
  /\ (forall m, excel m <> e -> (m ∈ ms' <-> m ∈ ms))
  /\ (NoDup (excel <$> ms) ->
      NoDup (excel <$> ms')
      /\ forall m, m ∈ ms' -> excel m = e -> m = mkMapping e t s).
Proof.
  cbv zeta. split; [apply add_mapping_keys|]. split; [apply add_mapping_elem|].
  split; [apply add_mapping_others|]. intros Hnd.
  assert (NoDup (excel <$> add_mapping ms e t s)) as Hnd'.
  { rewrite add_mapping_keys. case_decide; [done|].
    apply NoDup_app. split; [done|]. split; [|apply NoDup_singleton].
    intros x Hx ->%list_elem_of_singleton. done. }
  split; [done|]. intros m Hm He.
  apply (NoDup_fmap_eq excel (add_mapping ms e t s)); try done.
  apply add_mapping_elem.
Qed.

(** X2.  Removing the last mapping undoes an addition exactly when the
    added column had no mapping before; otherwise the entry was updated in
    place and the removal takes away an older mapping. *)
Theorem add_then_remove_last (ms : list mapping) (e t s : string) :
  remove_last_mapping (add_mapping ms e t s) = ms <-> e ∉ excel <$> ms.
Proof.
  unfold remove_last_mapping. split.
  - intros Heq Hin.
    assert (length (excel <$> add_mapping ms e t s) = length ms) as Hlen.
    { rewrite add_mapping_keys, decide_True by done. apply length_fmap. }
    rewrite length_fmap in Hlen.
    assert (length (removelast (add_mapping ms e t s)) = length ms) as Hrl
      by by rewrite Heq.
    destruct (add_mapping ms e t s) as [|m0 l0] eqn:Hadd.
    + destruct ms; [by apply elem_of_nil in Hin|done].
    + assert (m0 :: l0 <> []) as Hne by done.
      destruct (exists_last Hne) as (l' & a & Hl'). rewrite Hl' in Hrl, Hlen.
      rewrite removelast_last in Hrl. rewrite length_app in Hlen. simpl in Hlen. lia.
  - intros He.
    assert (add_mapping ms e t s = ms ++ [mkMapping e t s]) as ->.
    { induction ms as [|m ms IH]; [done|]. cbn [add_mapping].
      rewrite fmap_cons, not_elem_of_cons in He. destruct He as [Hne Hin].
      destruct (String.eqb_spec (excel m) e) as [Heq|_]; [congruence|].
      by rewrite IH. }
    apply removelast_last.
Qed.

(** ** Keys of the form sheet/column *)

Section SheetColumnKeys.

Lemma split1_append (c : ascii) (a b : string) :
  contains_char c a = false -> split1 c (a +:+ String c b) = Some (a, b).
Proof.
  induction a as [|d a IH].
  - intros _. rewrite append_nil_l. cbn [split1]. by rewrite Ascii.eqb_refl.
  - rewrite append_cons. cbn [contains_char split1].
    destruct (Ascii.eqb c d); [done|]. intros H. by rewrite (IH H).
Qed.

Lemma split1_Some (c : ascii) (s a b : string) :
  split1 c s = Some (a, b) -> s = a +:+ String c b /\ contains_char c a = false.
Proof.
  revert a. induction s as [|d s IH]; intros a; [done|]. cbn [split1].
  destruct (Ascii.eqb_spec c d) as [->|Hne].
  - by intros [= <- <-].
  - destruct (split1 c s) as [[a' b']|]; [|done]. intros [= <- <-].
    destruct (IH a' eq_refl) as [-> Hno]. split; [done|].
    cbn [contains_char]. by rewrite (proj2 (Ascii.eqb_neq c d) Hne).
Qed.

Lemma split1_None (c : ascii) (s : string) :
  split1 c s = None <-> contains_char c s = false.
Proof.
  induction s as [|d s IH]; [done|]. cbn [split1 contains_char].
  destruct (Ascii.eqb c d); [done|]. rewrite <- IH.
  by destruct (split1 c s) as [[? ?]|].
Qed.

End SheetColumnKeys.

(** X3.  Every key that the mapping interface offers is some sheet of the
    template, [/], and one of its columns; when no sheet name contains [/],
    the export splits the key back into that sheet and that column, also
    when the column name contains [/]. *)
Theorem flat_excel_columns_split (excel_data : dict (list string)) (key : string) :
  Forall (fun sheet => contains_char "/" sheet = false) (keys excel_data) ->
  key ∈ flat_excel_columns excel_data ->
  exists sheet cols col,
    (sheet, cols) ∈ excel_data /\ col ∈ cols
    /\ key = sheet +:+ "/" +:+ col
    /\ contains_char "/" key = true
    /\ split1 "/" key = Some (sheet, col).
Proof.
  intros Hsheets Hkey. unfold flat_excel_columns in Hkey.
  apply list_elem_of_In, in_flat_map in Hkey as ([sheet cols] & Hin & Hkey).
  apply in_map_iff in Hkey as (col & <- & Hcol). simpl.
  apply list_elem_of_In in Hin, Hcol.
  exists sheet, cols, col. split_and!; try done.
  - rewrite contains_char_append. change ("/" +:+ col) with (String "/" col).
    cbn [contains_char]. rewrite Ascii.eqb_refl. apply orb_true_r.
  - apply split1_append. rewrite Forall_forall in Hsheets. apply Hsheets.
    apply list_elem_of_In, in_map_iff. exists (sheet, cols).
    split; [done|]. by apply list_elem_of_In.
Qed.

Lemma flat_excel_columns_split_witness :
  exists sheet cols col,
    (sheet, cols) ∈ [("Data", ["Name"; "In/Out"])] /\ col ∈ cols
    /\ "Data/In/Out" = sheet +:+ "/" +:+ col
    /\ contains_char "/" "Data/In/Out" = true
    /\ split1 "/" "Data/In/Out" = Some (sheet, col).
Proof.
  apply (flat_excel_columns_split [("Data", ["Name"; "In/Out"])] "Data/In/Out").
  - repeat constructor.
  - vm_compute. apply list_elem_of_further, list_elem_of_here.
Defined.

(** ** Grouping the mappings by source, sheet and column *)

Section Grouping.

Lemma default_get_set {V} (d : dict (dict V)) (k k' : string) (v : dict V) :
  default [] (dict_get (dict_set d k v) k')
  = if String.eqb k k' then v else default [] (dict_get d k').
Proof.
  destruct (String.eqb_spec k k') as [->|Hne].
  - by rewrite dict_get_set_eq.
  - by rewrite dict_get_set_ne.
Qed.

Lemma default_get_ensure {V} (d : dict (dict V)) (k k' : string) :
  default [] (dict_get (if dict_mem d k then d else dict_set d k []) k')
  = default [] (dict_get d k').
Proof.
  destruct (dict_mem d k) eqn:Hmem; [done|].
  rewrite default_get_set. destruct (String.eqb_spec k k') as [->|]; [|done].
  unfold dict_mem in Hmem. by destruct (dict_get d k').
Qed.

Lemma mapped_path_default (by_source : dict (dict (dict string)))
    (source sheet col : string) :
  mapped_path by_source source sheet col
  = dict_get (default [] (dict_get (default [] (dict_get by_source source)) sheet)) col.
Proof.
  unfold mapped_path. destruct (dict_get by_source source) as [fs|]; [|done].
  simpl. by destruct (dict_get fs sheet).
Qed.

(** One round of the loop sets one entry and leaves the others. *)
Lemma group_mapping_lookup (by_source : dict (dict (dict string))) (m : mapping)
    (source sheet col : string) :
  mapped_path (group_mapping by_source m) source sheet col
  = match split1 "/" (excel m) with
    | Some (s, c) =>
        if decide (xml_source_id m = source /\ s = sheet /\ c = col)
        then Some (xml_path m)
        else mapped_path by_source source sheet col
    | None => mapped_path by_source source sheet col
    end.
Proof.
  unfold group_mapping.
  destruct (contains_char "/" (excel m)) eqn:Hc.
  2:{ apply split1_None in Hc. by rewrite Hc. }
  destruct (split1 "/" (excel m)) as [[s c]|]; [|done].
  cbv zeta.
  set (by1 := if dict_mem by_source (xml_source_id m) then by_source
              else dict_set by_source (xml_source_id m) []).
  set (fs := default [] (dict_get by1 (xml_source_id m))).
  assert (fs = default [] (dict_get by_source (xml_source_id m))) as Hfs
    by apply default_get_ensure.
  set (fs1 := if dict_mem fs s then fs else dict_set fs s []).
  set (fsh := default [] (dict_get fs1 s)).
  assert (fsh = default [] (dict_get fs s)) as Hfsh by apply default_get_ensure.
  rewrite !mapped_path_default, default_get_set.
  destruct (String.eqb_spec (xml_source_id m) source) as [Hs|Hs].
  - rewrite default_get_set. destruct (String.eqb_spec s sheet) as [Hsh|Hsh].
    + destruct (String.eqb_spec c col) as [Hcol|Hcol].
      * rewrite decide_True by done. subst c. by rewrite dict_get_set_eq.
      * rewrite decide_False by tauto. rewrite dict_get_set_ne by done.
        by rewrite Hfsh, Hfs, Hs, Hsh.
    + rewrite decide_False by tauto. f_equal.
      etrans; [apply default_get_ensure|]. by rewrite Hfs, Hs.
  - rewrite decide_False by tauto. do 3 f_equal. apply default_get_ensure.
Qed.

Lemma mappings_by_source_id_snoc (ms : list mapping) (m : mapping) :
  mappings_by_source_id (ms ++ [m]) = group_mapping (mappings_by_source_id ms) m.
Proof. unfold mappings_by_source_id. by rewrite foldl_app. Qed.

Lemma grouped_lookup (ms : list mapping) (source sheet col p : string) :
  NoDup (excel <$> ms) ->
  mapped_path (mappings_by_source_id ms) source sheet col = Some p <->
  exists m, m ∈ ms /\ xml_source_id m = source
            /\ split1 "/" (excel m) = Some (sheet, col) /\ xml_path m = p.
Proof.
  induction ms as [|m ms IH] using rev_ind; intros Hnd.
  { split; [done|]. by intros (m & ?%elem_of_nil & _). }
  rewrite fmap_app in Hnd. apply NoDup_app in Hnd as (Hnd & Hfresh & _).
  rewrite mappings_by_source_id_snoc, group_mapping_lookup.
  assert (split1 "/" (excel m) = Some (sheet, col) ->
          forall m', m' ∈ ms -> split1 "/" (excel m') <> Some (sheet, col)) as Hother.
  { intros [Hm _]%split1_Some m' Hm' [Hm'' _]%split1_Some.
    apply (Hfresh (excel m')); [by apply list_elem_of_fmap_2|].
    rewrite Hm'', <- Hm. apply list_elem_of_here. }
  destruct (split1 "/" (excel m)) as [[s c]|] eqn:Hsplit.
  - destruct (decide (xml_source_id m = source /\ s = sheet /\ c = col))
      as [(Hs & Hsh & Hcl)|Hno].
    + subst s c. split.
      * intros [= <-]. exists m. split; [|done]. apply elem_of_app. right.
        apply list_elem_of_here.
      * intros (m' & [Hm' | ->%list_elem_of_singleton]%elem_of_app & _ & Hsp & Hp);
          [|by rewrite Hp].
        by destruct (Hother eq_refl m' Hm').
    + rewrite (IH Hnd). split.
      * intros (m' & Hm' & ?). exists m'. split; [|done]. apply elem_of_app. by left.
      * intros (m' & [Hm' | ->%list_elem_of_singleton]%elem_of_app & Hs & Hsp & Hp).
        -- by exists m'.
        -- destruct Hno. rewrite Hsplit in Hsp. by injection Hsp as -> ->.
  - rewrite (IH Hnd). split.
    + intros (m' & Hm' & ?). exists m'. split; [|done]. apply elem_of_app. by left.
    + intros (m' & [Hm' | ->%list_elem_of_singleton]%elem_of_app & Hs & Hsp & Hp).
      * by exists m'.
      * congruence.
Qed.

End Grouping.

(** X4.  When every Excel column has at most one mapping (as "Add Mapping"
    keeps it), the grouped mappings hold, under a source, a sheet and a
    column, exactly the path of the mapping whose key is that sheet and
    column and whose source is that source; mappings whose key has no [/]
    are left out.  A sheet and column is then found under at most one
    source. *)
Theorem mappings_by_source_id_lookup (ms : list mapping)
    (source sheet col : string) :
  NoDup (excel <$> ms) ->
  (forall p,
     mapped_path (mappings_by_source_id ms) source sheet col = Some p <->
     exists m, m ∈ ms /\ xml_source_id m = source
               /\ excel m = sheet +:+ "/" +:+ col
               /\ contains_char "/" sheet = false
               /\ xml_path m = p)
  /\ (forall source' p p',
        mapped_path (mappings_by_source_id ms) source sheet col = Some p ->
        mapped_path (mappings_by_source_id ms) source' sheet col = Some p' ->
        source' = source /\ p' = p).
Proof.
  intros Hnd. split.
  - intros p. rewrite (grouped_lookup ms source sheet col p Hnd). split.
    + intros (m & Hm & Hs & [Hsp Hno]%split1_Some & Hp). by exists m.
    + intros (m & Hm & Hs & Hsp & Hno & Hp). exists m. split_and!; try done.
      rewrite Hsp. by apply split1_append.
  - intros source' p p'.
    rewrite (grouped_lookup ms source sheet col p Hnd),
            (grouped_lookup ms source' sheet col p' Hnd).
    intros (m & Hm & Hs & [Hsp _]%split1_Some & Hp)
           (m' & Hm' & Hs' & [Hsp' _]%split1_Some & Hp').
    assert (m' = m) as ->; [|by subst].
    apply (NoDup_fmap_eq excel ms); try done. congruence.
Qed.

Lemma mappings_by_source_id_lookup_witness :
  mapped_path
    (mappings_by_source_id
       [mkMapping "Data/Name" "people/person/name" "xml_1";
        mkMapping "Data/City" "cities/city" "xml_2"])
    "xml_2" "Data" "City" = Some "cities/city" <->
  exists m,
    m ∈ [mkMapping "Data/Name" "people/person/name" "xml_1";
         mkMapping "Data/City" "cities/city" "xml_2"]
    /\ xml_source_id m = "xml_2"
    /\ excel m = "Data" +:+ "/" +:+ "City"
    /\ contains_char "/" "Data" = false
    /\ xml_path m = "cities/city".
Proof.
  refine (proj1 (mappings_by_source_id_lookup
    [mkMapping "Data/Name" "people/person/name" "xml_1";
     mkMapping "Data/City" "cities/city" "xml_2"] "xml_2" "Data" "City" _)
    "cities/city").
  apply (bool_decide_unpack _). vm_compute. exact I.
Defined.

(** ** The tables of the Value Extractor *)

Section ExtractShape.

Lemma NoDup_keys_snoc {V} (d : dict V) (k : string) (v : V) (rest : list string) :
  NoDup (keys d ++ k :: rest) ->
  (k ∉ keys d) /\ NoDup (keys (d ++ [(k, v)]) ++ rest).
Proof.
  intros H. rewrite keys_app. simpl. rewrite <- app_assoc. simpl. split; [|done].
  apply NoDup_app in H as (_ & H & _). intros Hk. apply (H k Hk), list_elem_of_here.
Qed.

(** The loop over the columns appends one raw column per mapping entry. *)
Lemma raw_sheet_data_appends (root : ET.Element) (cols : dict string) :
  forall raw0 ml0 raw ml,
  NoDup (keys raw0 ++ keys cols) ->
  raw_sheet_data root cols raw0 ml0 = Ok (raw, ml) ->
  exists added,
    raw = raw0 ++ added
    /\ Forall2 (column_of root) cols added
    /\ ml0 <= ml
    /\ Forall (fun cv => length (snd cv) <= ml) added
    /\ (ml = ml0 \/ Exists (fun cv => length (snd cv) = ml) added).
Proof.
  induction cols as [|[c p] cols IH]; intros raw0 ml0 raw ml Hnd; simpl.
  - intros [= <- <-]. exists []. rewrite app_nil_r.
    split_and!; first [done | by left | constructor].
  - destruct (column_values root p) as [vs| |] eqn:Hvs; [|done|done]. simpl.
    destruct (NoDup_keys_snoc raw0 c vs (keys cols) Hnd) as [Hc Hnd'].
    rewrite dict_set_new by done. intros Hrun.
    destruct (IH _ _ _ _ Hnd' Hrun) as (added & -> & Hcols & Hml & Hlen & Hmax).
    set (ml1 := if Nat.ltb ml0 (length vs) then length vs else ml0) in *.
    assert (ml0 <= ml1 /\ length vs <= ml1
            /\ (ml1 = ml0 \/ ml1 = length vs)) as (H0 & H1 & H2).
    { unfold ml1. destruct (Nat.ltb_spec ml0 (length vs)); lia. }
    exists ((c, vs) :: added). rewrite <- app_assoc. split_and!; try done.
    + by constructor.
    + lia.
    + constructor; [simpl; lia|done].
    + destruct Hmax as [Hmax|Hmax]; [|by right; apply Exists_cons_tl].
      destruct H2 as [H2|H2]; [left; lia|].
      right. apply Exists_cons_hd. simpl. lia.
Qed.

Lemma column_of_get (root : ET.Element) (cols : dict string)
    (added : dict (list value)) (col path : string) :
  Forall2 (column_of root) cols added ->
  dict_get cols col = Some path ->
  exists vs, dict_get added col = Some vs /\ column_values root path = Ok vs.
Proof.
  induction 1 as [|[c p] [c' vs] cols added [Hc Hv] _ IH]; [done|].
  simpl in *. subst c'. destruct (String.eqb col c); [|done].
  intros [= <-]. by exists vs.
Qed.

Lemma column_of_keys (root : ET.Element) (cols : dict string)
    (added : dict (list value)) :
  Forall2 (column_of root) cols added -> keys added = keys cols.
Proof.
  induction 1 as [|[c p] [c' vs] cols added [Hc Hv] _ IH]; [done|].
  simpl in *. by rewrite Hc, IH.
Qed.

Lemma column_of_attained (root : ET.Element) (cols : dict string)
    (added : dict (list value)) (n : nat) :
  NoDup (keys cols) ->
  Forall2 (column_of root) cols added ->
  Exists (fun cv => length (snd cv) = n) added ->
  exists col path vs,
    dict_get cols col = Some path /\ column_values root path = Ok vs
    /\ length vs = n.
Proof.
  intros Hnd H. induction H as [|[c p] [c' vs] cols added [Hc Hv] _ IH]; intros Hex.
  { by apply Exists_nil in Hex. }
  simpl in *. apply NoDup_cons in Hnd as [Hnin Hnd].
  apply Exists_cons in Hex as [Hex|Hex].
  - exists c, p, vs. by rewrite String.eqb_refl.
  - destruct (IH Hnd Hex) as (col & path & vs' & Hget & ? & ?).
    exists col, path, vs'. split; [|done].
    destruct (String.eqb_spec col c) as [->|]; [|done].
    destruct Hnin. apply dict_get_is_Some. by eexists.
Qed.

(** The frame of a sheet. *)
Lemma sheet_frame_shape (raw : dict (list value)) (ml : nat) :
  Forall (fun cv => length (snd cv) <= ml) raw ->
  (ml = 0 \/ Exists (fun cv => length (snd cv) = ml) raw) ->
  let df := sheet_frame raw ml in
  Pandas.well_formed df
  /\ keys (Pandas.columns df) = keys raw
  /\ (raw <> [] -> Pandas.nrows df = ml)
  /\ (raw = [] -> df = Pandas.empty_frame)
  /\ (forall col vs, dict_get raw col = Some vs ->
        Pandas.getitem df col = vs ++ replicate (ml - length vs) PyNone).
Proof.
  intros Hlen Hmax. cbv zeta. unfold sheet_frame.
  destruct (aligned_sheet_data_padded raw ml Hlen) as [Heq Hall].
  destruct raw as [|[c v] raw].
  { split_and!; first [done | by constructor]. }
  assert (aligned_sheet_data ((c, v) :: raw) ml
          = (c, pad ml v) :: aligned_sheet_data raw ml) as Hal by done.
  assert (length (pad ml v) = ml) as Hpad by apply length_take_padded.
  rewrite Hal. unfold Pandas.of_dict. split_and!.
  - unfold Pandas.well_formed. cbn [Pandas.nrows Pandas.columns].
    rewrite <- Hal, Hpad. exact Hall.
  - cbn [Pandas.columns]. rewrite <- Hal. unfold aligned_sheet_data.
    apply (keys_map_values (fun kv => pad ml (snd kv))).
  - intros _. cbn [Pandas.nrows]. exact Hpad.
  - done.
  - intros col vs Hget. unfold Pandas.getitem. cbn [Pandas.columns].
    rewrite <- Hal. unfold aligned_sheet_data.
    rewrite (dict_get_map_values (pad ml)), Hget. simpl.
    unfold pad. apply take_padded.
    apply dict_get_Some_elem in Hget. rewrite Forall_forall in Hlen.
    by apply (Hlen (col, vs)).
Qed.

(** The loop over the sheets appends one table per sheet of the mappings. *)
Lemma data_to_write_appends (root : ET.Element) (mappings : dict (dict string)) :
  forall acc tables,
  NoDup (keys acc ++ keys mappings) ->
  data_to_write_to_excel root mappings acc = Ok tables ->
  exists added, tables = acc ++ added /\ Forall2 (table_of root) mappings added.
Proof.
  induction mappings as [|[s cols] ms IH]; intros acc tables Hnd; simpl.
  - intros [= <-]. exists []. by rewrite app_nil_r.
  - destruct (raw_sheet_data root cols [] 0) as [[raw ml]| |] eqn:Hraw;
      [|done|done]. simpl.
    set (df := match aligned_sheet_data raw ml with
               | [] => Pandas.empty_frame
               | _ => Pandas.of_dict (aligned_sheet_data raw ml)
               end).
    destruct (NoDup_keys_snoc acc s df (keys ms) Hnd) as [Hs Hnd'].
    rewrite dict_set_new by done. intros Hrun.
    destruct (IH _ _ Hnd' Hrun) as (added & -> & Hadded).
    exists ((s, df) :: added). rewrite <- app_assoc. split; [done|].
    constructor; [|done]. split; [done|]. exists raw, ml. split; [done|].
    unfold sheet_frame, df. simpl. by destruct (aligned_sheet_data raw ml).
Qed.

Lemma table_of_get (root : ET.Element) (mappings : dict (dict string))
    (added : dict Pandas.DataFrame) (sheet : string) (cols : dict string) :
  Forall2 (table_of root) mappings added ->
  dict_get mappings sheet = Some cols ->
  exists df, dict_get added sheet = Some df /\ table_of root (sheet, cols) (sheet, df).
Proof.
  induction 1 as [|[s c] [s' df] ms added [Hs Ht] _ IH]; [done|].
  simpl in *. subst s'. destruct (String.eqb_spec sheet s) as [->|]; [|done].
  intros [= <-]. exists df. by split.
Qed.

Lemma table_of_keys (root : ET.Element) (mappings : dict (dict string))
    (added : dict Pandas.DataFrame) :
  Forall2 (table_of root) mappings added -> keys added = keys mappings.
Proof.
  induction 1 as [|[s c] [s' df] ms added [Hs Ht] _ IH]; [done|].
  simpl in *. by rewrite Hs, IH.
Qed.

(** The table of one sheet. *)
Lemma table_of_shape (root : ET.Element) (sheet : string) (cols : dict string)
    (df : Pandas.DataFrame) :
  NoDup (keys cols) -> table_of root (sheet, cols) (sheet, df) ->
  Pandas.well_formed df
  /\ keys (Pandas.columns df) = keys cols
  /\ (forall col path, dict_get cols col = Some path ->
        exists vs, column_values root path = Ok vs
                   /\ length vs <= Pandas.nrows df
                   /\ Pandas.getitem df col
                      = vs ++ replicate (Pandas.nrows df - length vs) PyNone)
  /\ (cols <> [] ->
      exists col path vs, dict_get cols col = Some path
                          /\ column_values root path = Ok vs
                          /\ length vs = Pandas.nrows df)
  /\ (cols = [] -> df = Pandas.empty_frame).
Proof.
  intros Hcols (_ & raw & ml & Hraw & Hframe). simpl in Hraw, Hframe.
  destruct (raw_sheet_data_appends root cols [] 0 raw ml Hcols Hraw)
    as (raw' & -> & Hcol & _ & Hlen & Hmax).
  simpl in *.
  assert (ml = 0 \/ Exists (fun cv => length (snd cv) = ml) raw') as Hmax' by done.
  destruct (sheet_frame_shape raw' ml Hlen Hmax')
    as (Hwf & Hkeys & Hrows & Hempty & Hget).
  rewrite <- Hframe in *. split; [done|].
  assert (raw' = [] <-> cols = []) as Hnil.
  { split; intros ->; by inversion Hcol. }
  split; [by rewrite Hkeys; apply (column_of_keys root)|]. split_and!.
  - intros col path Hpath.
    destruct (column_of_get root cols raw' col path Hcol Hpath) as (vs & Hvs & Hval).
    assert (Pandas.nrows df = ml) as Hn.
    { apply Hrows. intros ->. done. }
    exists vs. rewrite Hn. split; [done|]. split; [|by apply Hget].
    apply dict_get_Some_elem in Hvs. rewrite Forall_forall in Hlen.
    by apply (Hlen (col, vs)).
  - intros Hne. assert (raw' <> []) as Hne' by (by rewrite Hnil).
    rewrite (Hrows Hne').
    destruct Hmax as [->|Hex].
    + destruct cols as [|[c p] cols']; [done|].
      inversion Hcol as [|? [c' vs] ? ? [Hc Hv] ?]; subst.
      exists c, p, vs. simpl in *. rewrite String.eqb_refl.
      split; [done|]. split; [done|].
      inversion Hlen as [|? ? Hl ?]; subst. simpl in Hl. lia.
    + by apply (column_of_attained root cols raw').
  - intros ->. apply Hempty. by apply Hnil.
Qed.

(** The tables of one document, sheet by sheet. *)
Lemma extracted_tables (root : ET.Element) (mappings : dict (dict string))
    (tables : dict Pandas.DataFrame) :
  NoDup (keys mappings) ->
  extract_data_from_one_xml (ET.Document root) mappings = Ok tables ->
  keys tables = keys mappings /\ Forall2 (table_of root) mappings tables.
Proof.
  intros Hnd Hrun. unfold extract_data_from_one_xml in Hrun. simpl in Hrun.
  destruct (data_to_write_appends root mappings [] tables Hnd Hrun)
    as (added & -> & Hadded).
  simpl. split; [by apply (table_of_keys root)|done].
Qed.

End ExtractShape.

(** X5.  What the Value Extractor returns.  The result has one table per
    sheet of the mappings, in their order.  The table of a sheet is
    rectangular and has the columns of the sheet's mapping, in their order;
    each column holds the values found for its path, in document order,
    followed by as many [None] as it takes to reach the row count; and the
    row count is the length of the longest list of found values, so that
    some column has no padding at all.  A sheet without columns gets the
    empty frame. *)
Theorem extract_data_shape (root : ET.Element) (mappings : dict (dict string))
    (tables : dict Pandas.DataFrame) (sheet : string) (cols : dict string) :
  NoDup (keys mappings) -> dict_get mappings sheet = Some cols ->
  NoDup (keys cols) ->
  extract_data_from_one_xml (ET.Document root) mappings = Ok tables ->
  keys tables = keys mappings
  /\ exists df,
       dict_get tables sheet = Some df
       /\ Pandas.well_formed df
       /\ keys (Pandas.columns df) = keys cols
       /\ (forall col path, dict_get cols col = Some path ->
             exists vs, column_values root path = Ok vs
                        /\ length vs <= Pandas.nrows df
                        /\ Pandas.getitem df col
                           = vs ++ replicate (Pandas.nrows df - length vs) PyNone)
       /\ (cols <> [] ->
           exists col path vs, dict_get cols col = Some path
                               /\ column_values root path = Ok vs
                               /\ length vs = Pandas.nrows df)
       /\ (cols = [] -> df = Pandas.empty_frame).
Proof.
  intros Hnd Hsheet Hcols Hrun.
  destruct (extracted_tables root mappings tables Hnd Hrun) as [Hkeys Htables].
  split; [done|].
  destruct (table_of_get root mappings tables sheet cols Htables Hsheet)
    as (df & Hdf & Htable).
  exists df. split; [done|]. by apply (table_of_shape root sheet).
Qed.

Lemma extract_data_shape_witness :
  keys [("Data", Pandas.mkDataFrame 2
                   [("Name", [Str "Alice"; Str "Bob"]);
                    ("Age", [Str "30"; PyNone])])]
  = keys people_mapping.
Proof.
  refine (proj1 (extract_data_shape people_doc people_mapping _ "Data"
                   [("Name", "people/person/name"); ("Age", "people/person/age")]
                   _ _ _ _)).
  - apply (bool_decide_unpack _). vm_compute. exact I.
  - reflexivity.
  - apply (bool_decide_unpack _). vm_compute. exact I.
  - reflexivity.
Defined.

(** ** The three steps of the export *)

Section Pipeline.

Implicit Types (sources : list (ET.xml_file * dict (dict string))).

(** The tables of a document are valid. *)
Lemma extract_valid (f : ET.xml_file) (m : dict (dict string))
    (tables : dict Pandas.DataFrame) :
  valid_mappings m -> extract_data_from_one_xml f m = Ok tables ->
  valid_tables tables.
Proof.
  intros [Hnd Hcols] Hrun. destruct f as [|root]; [done|].
  destruct (extracted_tables root m tables Hnd Hrun) as [Hkeys Ht].
  split; [by rewrite Hkeys|].
  clear Hrun Hkeys Hnd.
  induction Ht as [|[s cols] [s' df] m tables Hsd _ IH]; [constructor|].
  apply Forall_cons in Hcols as [Hc Hcols]. constructor; [|by apply IH].
  simpl in *. pose proof Hsd as [Hs _]. simpl in Hs. subst s'.
  destruct (table_of_shape root s cols df Hc Hsd) as (Hwf & Hk & _).
  split; [done|]. by rewrite Hk.
Qed.

(** The columns of an extracted table are those of the sheet's mapping. *)
Lemma extract_columns (f : ET.xml_file) (m : dict (dict string))
    (tables : dict Pandas.DataFrame) (sheet : string) (df : Pandas.DataFrame) :
  valid_mappings m -> extract_data_from_one_xml f m = Ok tables ->
  dict_get tables sheet = Some df ->
  exists root cols,
    f = ET.Document root /\ dict_get m sheet = Some cols
    /\ NoDup (keys cols) /\ table_of root (sheet, cols) (sheet, df).
Proof.
  intros [Hnd Hcols] Hrun Hdf. destruct f as [|root]; [done|].
  destruct (extracted_tables root m tables Hnd Hrun) as [Hkeys Ht].
  assert (is_Some (dict_get m sheet)) as [cols Hm].
  { apply dict_get_is_Some. rewrite <- Hkeys. apply dict_get_is_Some. by eexists. }
  destruct (table_of_get root m tables sheet cols Ht Hm) as (df' & Hdf' & Htable).
  assert (df' = df) as -> by congruence.
  exists root, cols. split_and!; try done.
  apply dict_get_Some_elem in Hm. rewrite Forall_forall in Hcols.
  by apply (Hcols (sheet, cols)).
Qed.

(** Step 1, for one source. *)
Lemma update_max_rows_get (t : dict Pandas.DataFrame) :
  NoDup (keys t) ->
  forall acc s,
  dict_get (update_max_rows acc t) s
  = match dict_get t s with
    | Some df => Some (Nat.max (default 0 (dict_get acc s)) (Pandas.nrows df))
    | None => dict_get acc s
    end.
Proof.
  unfold update_max_rows.
  induction t as [|[k df] t IH]; intros Hnd acc s; [done|].
  apply NoDup_cons in Hnd as [Hk Hnd]. simpl in Hk. cbn [foldl fst snd dict_get].
  rewrite (IH Hnd). destruct (String.eqb_spec s k) as [->|Hne].
  - apply dict_get_None in Hk. rewrite Hk. by rewrite dict_get_set_eq.
  - by rewrite dict_get_set_ne by (intros ->; done).
Qed.

(** Step 1: the row count of a sheet is the largest row count of its
    extracted tables. *)
Lemma max_rows_per_sheet_spec sources :
  Forall (fun fm => valid_mappings (snd fm)) sources ->
  forall acc mr s,
  max_rows_per_sheet sources acc = Ok mr ->
  (forall fm tables df,
     fm ∈ sources -> extract_data_from_one_xml (fst fm) (snd fm) = Ok tables ->
     dict_get tables s = Some df ->
     exists n, dict_get mr s = Some n /\ Pandas.nrows df <= n)
  /\ (forall n0, dict_get acc s = Some n0 ->
        exists n, dict_get mr s = Some n /\ n0 <= n)
  /\ (forall n, dict_get mr s = Some n ->
        dict_get acc s = Some n \/ extracts_rows sources s n).
Proof.
  induction 1 as [|[f m] sources Hm _ IH]; intros acc mr s; simpl.
  - intros [= <-]. split_and!.
    + by intros ??? ?%elem_of_nil.
    + intros n0 ?. by exists n0.
    + intros n ?. by left.
  - destruct (extract_data_from_one_xml f m) as [t| |] eqn:Ht; [|done|done].
    simpl. intros Hrun. destruct (IH _ _ s Hrun) as (IH1 & IH2 & IH3).
    pose proof (extract_valid f m t Hm Ht) as [Hnd _].
    pose proof (update_max_rows_get t Hnd acc s) as Hupd.
    split_and!.
    + intros fm tables df [->|Hin]%elem_of_cons Hex Hdf.
      * simpl in Hex. assert (tables = t) as -> by congruence.
        rewrite Hdf in Hupd. destruct (IH2 _ Hupd) as (n & Hn & Hle).
        exists n. split; [done|lia].
      * by apply (IH1 fm tables df).
    + intros n0 Hn0. rewrite Hn0 in Hupd. simpl in Hupd.
      destruct (dict_get t s) as [df|].
      * destruct (IH2 _ Hupd) as (n & Hn & Hle). exists n. split; [done|lia].
      * by apply IH2.
    + intros n Hn. destruct (IH3 n Hn) as [Hacc|(fm & tables & df & Hin & ? & ? & ?)].
      * rewrite Hacc in Hupd. destruct (dict_get t s) as [df|] eqn:Hdf; [|by left].
        injection Hupd as Hupd.
        destruct (Nat.max_spec (default 0 (dict_get acc s)) (Pandas.nrows df))
          as [[Hlt Hmax]|[Hge Hmax]].
        -- right. exists (f, m), t, df. split_and!; first [done | apply list_elem_of_here | lia].
        -- destruct (dict_get acc s) as [n0|]; simpl in *.
           ++ left. f_equal. lia.
           ++ right. exists (f, m), t, df.
              split_and!; first [done | apply list_elem_of_here | lia].
      * right. exists fm, tables, df. split_and!; try done.
        by apply list_elem_of_further.
Qed.

(** Step 2, for one source: every table re-indexed, under its sheet name. *)
Lemma reindexed_fold (mr : dict nat) (t : list (string * Pandas.DataFrame)) :
  forall acc : list (string * Pandas.DataFrame),
  NoDup (keys acc ++ keys t) ->
  foldl (fun acc kv => dict_set acc (fst kv) (reindex_to mr (fst kv) (snd kv)))
        acc t
  = acc ++ map (fun kv => (fst kv, reindex_to mr (fst kv) (snd kv))) t.
Proof.
  induction t as [|[k df] t IH]; intros acc Hnd; simpl; [by rewrite app_nil_r|].
  destruct (NoDup_keys_snoc acc k (reindex_to mr k df) (keys t) Hnd) as [Hk Hnd'].
  rewrite dict_set_new by done. rewrite IH by done. by rewrite <- app_assoc.
Qed.

Lemma reindexed_map (mr : dict nat) (t : dict Pandas.DataFrame) :
  NoDup (keys t) ->
  reindexed_data_for_this_xml mr t
  = map (fun kv => (fst kv, reindex_to mr (fst kv) (snd kv))) t.
Proof. intros Hnd. unfold reindexed_data_for_this_xml. by rewrite reindexed_fold. Qed.

Lemma reindexed_get (mr : dict nat) (t : dict Pandas.DataFrame) (s : string) :
  NoDup (keys t) ->
  dict_get (reindexed_data_for_this_xml mr t) s = reindex_to mr s <$> dict_get t s.
Proof.
  intros Hnd. rewrite reindexed_map by done. clear Hnd.
  induction t as [|[k df] t IH]; simpl; [done|].
  by destruct (String.eqb_spec s k) as [->|].
Qed.

Lemma reindex_to_shape (mr : dict nat) (s : string) (df : Pandas.DataFrame) :
  Pandas.well_formed df ->
  Pandas.well_formed (reindex_to mr s df)
  /\ keys (Pandas.columns (reindex_to mr s df)) = keys (Pandas.columns df).
Proof.
  intros Hwf. unfold reindex_to. destruct (dict_get mr s) as [n|]; [|done].
  destruct (Nat.ltb (Pandas.len df) n); [|done]. split.
  - unfold Pandas.well_formed, Pandas.reindex. cbn [Pandas.nrows Pandas.columns].
    clear Hwf. induction (Pandas.columns df) as [|kv cols IH]; constructor; [|done].
    apply length_align_to.
  - apply (keys_map_values (fun kv => Pandas.align_to n (snd kv))).
Qed.

Lemma reindex_to_getitem (mr : dict nat) (s : string) (df : Pandas.DataFrame)
    (c : string) (n : nat) :
  Pandas.well_formed df -> c ∈ keys (Pandas.columns df) ->
  dict_get mr s = Some n -> Pandas.nrows df <= n ->
  Pandas.getitem (reindex_to mr s df) c
  = Pandas.getitem df c ++ replicate (n - Pandas.nrows df) NaN.
Proof.
  intros Hwf Hc Hn Hle. pose proof (wf_getitem_length df c Hwf Hc) as Hlen.
  unfold reindex_to, Pandas.len. rewrite Hn.
  destruct (Nat.ltb_spec (Pandas.nrows df) n) as [Hlt|Hge].
  - unfold Pandas.getitem in *. cbn [Pandas.reindex Pandas.columns].
    rewrite (dict_get_map_values (Pandas.align_to n)).
    apply dict_get_is_Some in Hc as [v Hv]. rewrite Hv in *. simpl in *.
    unfold Pandas.align_to. rewrite <- Hlen. apply take_padded. lia.
  - replace (n - Pandas.nrows df) with 0 by lia. by rewrite app_nil_r.
Qed.

Lemma reindexed_valid (mr : dict nat) (t : dict Pandas.DataFrame) :
  valid_tables t -> valid_tables (reindexed_data_for_this_xml mr t).
Proof.
  intros [Hnd Hall]. rewrite reindexed_map by done. split.
  - by rewrite (keys_map_values (fun kv => reindex_to mr (fst kv) (snd kv))).
  - clear Hnd. induction Hall as [|[k df] t [Hwf Hcols] _ IH]; constructor; [|done].
    simpl in *. destruct (reindex_to_shape mr k df Hwf) as [? Hk].
    split; [done|]. by rewrite Hk.
Qed.

(** Step 2, over the sources. *)
Lemma all_extracted_data_each (mr : dict nat) sources :
  forall all,
  all_extracted_data mr sources = Ok all -> Forall2 (reindexed_of mr) sources all.
Proof.
  induction sources as [|[f m] sources IH]; intros all; simpl.
  - intros [= <-]. constructor.
  - destruct (extract_data_from_one_xml f m) as [t| |] eqn:Ht; [|done|done].
    simpl. destruct (all_extracted_data mr sources) as [others| |]; [|done|done].
    simpl. intros [= <-]. constructor; [|by apply IH]. by exists t.
Qed.

(** Step 3 keeps a sheet exactly when some source has it. *)
Lemma final_data_sheet (docs : list (dict Pandas.DataFrame)) (sheet : string) :
  Forall valid_tables docs ->
  is_Some (dict_get (final_data_to_write_by_sheet docs) sheet)
  <-> exists d, d ∈ docs /\ is_Some (dict_get d sheet).
Proof.
  induction docs as [|d docs IH] using rev_ind; intros Hall.
  - split; [by intros [? ?]|]. by intros (d & ?%elem_of_nil & _).
  - apply Forall_app in Hall as [Hdocs [[Hnd Hd] _]%Forall_cons].
    rewrite final_data_snoc, (merge_source_get d Hnd).
    destruct (dict_get d sheet) as [df_new|] eqn:Hget.
    + split; [|by eexists]. intros _. exists d. split; [|by eexists].
      apply elem_of_app. right. apply list_elem_of_here.
    + rewrite (IH Hdocs). split.
      * intros (d' & Hin & Hs). exists d'. split; [|done].
        apply elem_of_app. by left.
      * intros (d' & [Hin|Hin]%elem_of_app & Hs); [by exists d'|].
        apply list_elem_of_singleton in Hin as ->. rewrite Hget in Hs.
        by destruct Hs.
Qed.

(** Step 3 on tables of one row count. *)
Lemma final_data_rows (docs : list (dict Pandas.DataFrame)) (sheet : string)
    (n : nat) :
  Forall valid_tables docs ->
  (forall d df, d ∈ docs -> dict_get d sheet = Some df -> Pandas.nrows df = n) ->
  forall df,
  dict_get (final_data_to_write_by_sheet docs) sheet = Some df ->
  Pandas.nrows df = n.
Proof.
  induction docs as [|d docs IH] using rev_ind; intros Hall Hrows df; [done|].
  pose proof Hall as Hall'.
  apply Forall_app in Hall as [Hdocs [[Hnd Hd] _]%Forall_cons].
  assert (forall d df, d ∈ docs -> dict_get d sheet = Some df ->
                       Pandas.nrows df = n) as Hrows'.
  { intros d' df' Hin. apply Hrows, elem_of_app. by left. }
  rewrite final_data_snoc, (merge_source_get d Hnd).
  destruct (dict_get d sheet) as [df_new|] eqn:Hget; [|by apply IH].
  assert (Pandas.nrows df_new = n) as Hn.
  { apply (Hrows d); [|done]. apply elem_of_app. right. apply list_elem_of_here. }
  destruct (dict_get (final_data_to_write_by_sheet docs) sheet) as [df_e|] eqn:Hacc;
    intros [= <-]; [|done].
  pose proof (final_data_wf docs Hdocs sheet df_e Hacc) as Hwf.
  pose proof (IH Hdocs Hrows' df_e eq_refl) as Hne.
  apply dict_get_Some_elem in Hget. rewrite Forall_forall in Hd.
  destruct (Hd _ Hget) as [Hwfn Hcols]. simpl in Hwfn, Hcols.
  change (add_new_columns df_e df_new)
    with (foldl (add_column_step df_new) df_e (keys (Pandas.columns df_new))).
  rewrite (add_columns_same_rows df_new n (Pandas.columns df_new)); try done.
  intros c v Hin. split.
  - unfold Pandas.getitem. by rewrite (dict_get_NoDup _ c v Hcols Hin).
  - unfold Pandas.well_formed in Hwfn. rewrite Forall_forall in Hwfn.
    rewrite <- Hn. by apply (Hwfn (c, v)).
Qed.

(** The tables that step 2 hands to step 3. *)
Lemma reindexed_docs (mr : dict nat) sources (all : list (dict Pandas.DataFrame)) :
  Forall (fun fm => valid_mappings (snd fm)) sources ->
  max_rows_per_sheet sources [] = Ok mr ->
  Forall2 (reindexed_of mr) sources all ->
  Forall valid_tables all
  /\ forall sheet d df,
       d ∈ all -> dict_get d sheet = Some df ->
       dict_get mr sheet = Some (Pandas.nrows df).
Proof.
  intros Hvalid Hmr Hall. split.
  - clear Hmr. induction Hall as [|fm d sources all (t & Ht & ->) _ IH];
      [constructor|].
    apply Forall_cons in Hvalid as [Hm Hvalid]. constructor; [|by apply IH].
    apply reindexed_valid. by apply (extract_valid (fst fm) (snd fm)).
  - intros sheet d df Hin Hdf.
    destruct (max_rows_per_sheet_spec sources Hvalid [] mr sheet Hmr) as (Hle & _).
    apply list_elem_of_lookup in Hin as [i Hi].
    destruct (Forall2_lookup_r _ _ _ _ _ Hall Hi) as (fm & Hfm & t & Ht & ->).
    apply list_elem_of_lookup_2 in Hfm.
    rewrite Forall_forall in Hvalid.
    pose proof (extract_valid _ _ t (Hvalid fm Hfm) Ht) as [Hnd _].
    rewrite (reindexed_get mr t sheet Hnd) in Hdf.
    destruct (dict_get t sheet) as [df0|] eqn:Hdf0; [|done].
    injection Hdf as <-.
    destruct (Hle fm t df0 Hfm Ht Hdf0) as (n & Hn & Hbound).
    by rewrite (reindex_to_rows mr sheet df0 n Hn Hbound).
Qed.

End Pipeline.

(** X6.  The merged tables of an export.  When steps 1 to 3 succeed, every
    merged table is rectangular with distinct column names, and it has
    exactly the row count that step 1 recorded for its sheet.  That count is
    the row count of the longest table that any source extracted for the
    sheet, and every sheet with a recorded count has a merged table. *)
Theorem merged_tables_rows (sources : list (ET.xml_file * dict (dict string)))
    (final : dict Pandas.DataFrame) :
  Forall (fun fm => valid_mappings (snd fm)) sources ->
  merged_tables sources = Ok final ->
  exists max_rows,
    max_rows_per_sheet sources [] = Ok max_rows
    /\ (forall sheet df,
          dict_get final sheet = Some df ->
          Pandas.well_formed df
          /\ dict_get max_rows sheet = Some (Pandas.nrows df))
    /\ (forall sheet n,
          dict_get max_rows sheet = Some n ->
          is_Some (dict_get final sheet)
          /\ extracts_rows sources sheet n
          /\ forall m, extracts_rows sources sheet m -> m <= n).
Proof.
  intros Hvalid Hrun. unfold merged_tables in Hrun.
  destruct (max_rows_per_sheet sources []) as [mr| |] eqn:Hmr; [|done|done].
  simpl in Hrun.
  destruct (all_extracted_data mr sources) as [all| |] eqn:Hall; [|done|done].
  simpl in Hrun. injection Hrun as <-. exists mr. split; [done|].
  apply all_extracted_data_each in Hall.
  destruct (reindexed_docs mr sources all Hvalid Hmr Hall) as [Hdocs Hrows].
  split.
  - intros sheet df Hdf. split; [by apply (final_data_wf all Hdocs sheet)|].
    assert (is_Some (dict_get (final_data_to_write_by_sheet all) sheet)) as Hs
      by (by eexists).
    apply (final_data_sheet all sheet Hdocs) in Hs as (d & Hd & df' & Hdf').
    pose proof (Hrows sheet d df' Hd Hdf') as Hn. rewrite Hn. f_equal. symmetry.
    apply (final_data_rows all sheet (Pandas.nrows df') Hdocs); [|done].
    intros d2 df2 Hd2 Hdf2. pose proof (Hrows sheet d2 df2 Hd2 Hdf2). congruence.
  - intros sheet n Hn.
    destruct (max_rows_per_sheet_spec sources Hvalid [] mr sheet Hmr)
      as (Hle & _ & Hattained).
    destruct (Hattained n Hn) as [?|Hex]; [done|]. split_and!; [|done|].
    + destruct Hex as (fm & t & df & Hfm & Ht & Hdf & _).
      apply (final_data_sheet all sheet Hdocs).
      apply list_elem_of_lookup in Hfm as [i Hi].
      destruct (Forall2_lookup_l _ _ _ _ _ Hall Hi) as (d & Hd & t' & Ht' & ->).
      assert (t' = t) as -> by congruence.
      exists (reindexed_data_for_this_xml mr t). split.
      * by apply list_elem_of_lookup_2 in Hd.
      * apply list_elem_of_lookup_2 in Hi. rewrite Forall_forall in Hvalid.
        pose proof (extract_valid _ _ t (Hvalid fm Hi) Ht) as [Hnd _].
        rewrite (reindexed_get mr t sheet Hnd), Hdf. by eexists.
    + intros m (fm & t & df & Hfm & Ht & Hdf & <-).
      destruct (Hle fm t df Hfm Ht Hdf) as (n' & Hn' & ?).
      assert (n' = n) as -> by congruence. done.
Qed.

Lemma merged_tables_rows_witness :
  exists max_rows,
    max_rows_per_sheet [name_source; city_source] [] = Ok max_rows
    /\ (forall sheet df,
          dict_get name_city_tables sheet = Some df ->
          Pandas.well_formed df
          /\ dict_get max_rows sheet = Some (Pandas.nrows df))
    /\ (forall sheet n,
          dict_get max_rows sheet = Some n ->
          is_Some (dict_get name_city_tables sheet)
          /\ extracts_rows [name_source; city_source] sheet n
          /\ forall m, extracts_rows [name_source; city_source] sheet m -> m <= n).
Proof.
  apply (merged_tables_rows [name_source; city_source] name_city_tables).
  - apply (bool_decide_unpack _). vm_compute. exact I.
  - reflexivity.
Defined.

Section MergedColumn.

Implicit Types (sources : list (ET.xml_file * dict (dict string))).

(** A source that does not map the column leaves it out of its table. *)
Lemma unmapped_column mr (fm : ET.xml_file * dict (dict string))
    (d : dict Pandas.DataFrame) (sheet col : string) (df : Pandas.DataFrame) :
  valid_mappings (snd fm) -> reindexed_of mr fm d ->
  (forall cols, dict_get (snd fm) sheet = Some cols -> dict_get cols col = None) ->
  dict_get d sheet = Some df -> col ∉ keys (Pandas.columns df).
Proof.
  intros Hm (t & Ht & ->) Hnone Hdf.
  pose proof (extract_valid _ _ t Hm Ht) as [Hnd Hall].
  rewrite (reindexed_get mr t sheet Hnd) in Hdf.
  destruct (dict_get t sheet) as [df0|] eqn:Hdf0; [|done]. injection Hdf as <-.
  destruct (extract_columns _ _ t sheet df0 Hm Ht Hdf0)
    as (root & cols & _ & Hcols & Hndc & Htable).
  destruct (table_of_shape root sheet cols df0 Hndc Htable) as (Hwf & Hk & _).
  destruct (reindex_to_shape mr sheet df0 Hwf) as [_ ->]. rewrite Hk.
  apply dict_get_None. by apply Hnone.
Qed.

(** The column of the first source that maps it, in the merged table. *)
Lemma merged_column
    (before after : list (ET.xml_file * dict (dict string)))
    (root : ET.Element) (m : dict (dict string)) (sheet col path : string)
    (cols : dict string) (final : dict Pandas.DataFrame) :
  Forall (fun fm => valid_mappings (snd fm))
         (before ++ (ET.Document root, m) :: after) ->
  merged_tables (before ++ (ET.Document root, m) :: after) = Ok final ->
  dict_get m sheet = Some cols -> dict_get cols col = Some path ->
  (forall fm cols', fm ∈ before -> dict_get (snd fm) sheet = Some cols' ->
                    dict_get cols' col = None) ->
  exists tables df0 df vs,
    extract_data_from_one_xml (ET.Document root) m = Ok tables
    /\ dict_get tables sheet = Some df0
    /\ dict_get final sheet = Some df
    /\ column_values root path = Ok vs
    /\ length vs <= Pandas.nrows df0 /\ Pandas.nrows df0 <= Pandas.nrows df
    /\ Pandas.getitem df0 col
       = vs ++ replicate (Pandas.nrows df0 - length vs) PyNone
    /\ Pandas.getitem df col
       = vs ++ replicate (Pandas.nrows df0 - length vs) PyNone
            ++ replicate (Pandas.nrows df - Pandas.nrows df0) NaN.
Proof.
  intros Hvalid Hrun Hcols Hpath Hfirst. unfold merged_tables in Hrun.
  destruct (max_rows_per_sheet _ []) as [mr| |] eqn:Hmr; [|done|done].
  simpl in Hrun.
  destruct (all_extracted_data mr _) as [all| |] eqn:Hall; [|done|done].
  simpl in Hrun. injection Hrun as <-.
  apply all_extracted_data_each in Hall.
  destruct (reindexed_docs mr _ all Hvalid Hmr Hall) as [Hdocs Hrows].
  apply Forall2_app_inv_l in Hall as (all_b & all' & Hb & Hall' & ->).
  apply Forall2_cons_inv_l in Hall' as (d & all_a & (t & Ht & ->) & Ha & ->).
  simpl in Ht.
  pose proof Hvalid as Hvalid'.
  apply Forall_app in Hvalid' as [Hvb [Hm _]%Forall_cons]. simpl in Hm.
  pose proof (extract_valid _ _ t Hm Ht) as [Hnd Hall].
  destruct Hm as [Hndm Hndc].
  destruct (extracted_tables root m t Hndm Ht) as [_ Htables].
  destruct (table_of_get root m t sheet cols Htables Hcols) as (df0 & Hdf0 & Htable).
  assert (NoDup (keys cols)) as Hndcols.
  { apply dict_get_Some_elem in Hcols. rewrite Forall_forall in Hndc.
    by apply (Hndc (sheet, cols)). }
  destruct (table_of_shape root sheet cols df0 Hndcols Htable)
    as (Hwf0 & Hk0 & Hvals & _).
  destruct (Hvals col path Hpath) as (vs & Hvs & Hlen & Hcol0).
  assert (col ∈ keys (Pandas.columns df0)) as Hin0.
  { rewrite Hk0. apply dict_get_is_Some. by eexists. }
  set (d := reindexed_data_for_this_xml mr t) in *.
  assert (dict_get d sheet = Some (reindex_to mr sheet df0)) as Hd.
  { unfold d. by rewrite (reindexed_get mr t sheet Hnd), Hdf0. }
  assert (d ∈ all_b ++ d :: all_a) as Hdin.
  { apply elem_of_app. right. apply list_elem_of_here. }
  pose proof (Hrows sheet d _ Hdin Hd) as Hn.
  destruct (reindex_to_shape mr sheet df0 Hwf0) as [Hwf1 Hk1].
  destruct (first_source_wins all_b all_a d sheet col (reindex_to mr sheet df0))
    as (df & Hdf & Hget); try done.
  { intros d' df' Hd' Hdf'.
    apply list_elem_of_lookup in Hd' as [i Hi].
    destruct (Forall2_lookup_r _ _ _ _ _ Hb Hi) as (fm & Hfm & Hre).
    apply list_elem_of_lookup_2 in Hfm.
    apply (unmapped_column mr fm d' sheet col df'); try done.
    - rewrite Forall_forall in Hvb. by apply Hvb.
    - intros cols'. by apply Hfirst. }
  { by rewrite Hk1. }
  assert (Pandas.nrows df = Pandas.nrows (reindex_to mr sheet df0)) as Hrowsdf.
  { apply (final_data_rows (all_b ++ d :: all_a) sheet); try done.
    intros d2 df2 Hd2 Hdf2. pose proof (Hrows sheet d2 df2 Hd2 Hdf2). congruence. }
  assert (Pandas.nrows df0 <= Pandas.nrows (reindex_to mr sheet df0)) as Hle.
  { unfold reindex_to, Pandas.len.
    destruct (dict_get mr sheet) as [n|]; [|done].
    destruct (Nat.ltb_spec (Pandas.nrows df0) n); simpl; lia. }
  exists t, df0, df, vs. split; [done|]. split; [done|]. split; [done|].
  split; [done|]. split; [done|]. split; [lia|]. split; [done|].
  rewrite Hget, Hrowsdf, align_to_exact.
  - rewrite (reindex_to_getitem mr sheet df0 col _ Hwf0 Hin0 Hn Hle), Hcol0.
    by rewrite <- app_assoc.
  - apply wf_getitem_length; [done|by rewrite Hk1].
Qed.

End MergedColumn.

(** X7.  Where the values of a merged column come from.  Take the first
    source, in processing order, whose mappings give the column [col] of the
    sheet a path; let [df0] be the table that the Value Extractor returns
    for that source and sheet, and [vs] the values that the search of that
    source's document returns for the path.  When steps 1 to 3 succeed, the
    column [col] of [df0] is [vs] followed by [None] up to the row count of
    [df0], and the column [col] of the merged table is that column followed
    by NaN up to the row count of the merged table; what later sources map
    to the same column is not used. *)
Theorem merged_column_values
    (before after : list (ET.xml_file * dict (dict string)))
    (root : ET.Element) (m : dict (dict string)) (sheet col path : string)
    (cols : dict string) (final : dict Pandas.DataFrame) :
  Forall (fun fm => valid_mappings (snd fm))
         (before ++ (ET.Document root, m) :: after) ->
  merged_tables (before ++ (ET.Document root, m) :: after) = Ok final ->
  dict_get m sheet = Some cols -> dict_get cols col = Some path ->
  (forall fm cols', fm ∈ before -> dict_get (snd fm) sheet = Some cols' ->
                    dict_get cols' col = None) ->
  exists tables df0 df vs,
    extract_data_from_one_xml (ET.Document root) m = Ok tables
    /\ dict_get tables sheet = Some df0
    /\ dict_get final sheet = Some df
    /\ column_values root path = Ok vs
    /\ length vs <= Pandas.nrows df0 /\ Pandas.nrows df0 <= Pandas.nrows df
    /\ Pandas.getitem df0 col
       = vs ++ replicate (Pandas.nrows df0 - length vs) PyNone
    /\ Pandas.getitem df col
       = vs ++ replicate (Pandas.nrows df0 - length vs) PyNone
            ++ replicate (Pandas.nrows df - Pandas.nrows df0) NaN.
Proof. apply merged_column. Qed.

Lemma merged_column_values_witness :
  exists tables df0 df vs,
    extract_data_from_one_xml (ET.Document people_doc) people_mapping = Ok tables
    /\ dict_get tables "Data" = Some df0
    /\ dict_get name_age_city_tables "Data" = Some df
    /\ column_values people_doc "people/person/age" = Ok vs
    /\ length vs <= Pandas.nrows df0 /\ Pandas.nrows df0 <= Pandas.nrows df
    /\ Pandas.getitem df0 "Age"
       = vs ++ replicate (Pandas.nrows df0 - length vs) PyNone
    /\ Pandas.getitem df "Age"
       = vs ++ replicate (Pandas.nrows df0 - length vs) PyNone
            ++ replicate (Pandas.nrows df - Pandas.nrows df0) NaN.
Proof.
  apply (merged_column_values [] [city_source] people_doc people_mapping
           "Data" "Age" "people/person/age"
           [("Name", "people/person/name"); ("Age", "people/person/age")]
           name_age_city_tables).
  - apply (bool_decide_unpack _). vm_compute. exact I.
  - reflexivity.
  - reflexivity.
  - reflexivity.
  - by intros fm cols' ?%elem_of_nil.
Defined.

(** ** The values found at a path *)

Section ValuesAtPath.

Local Abbreviation plain := (fun t : string => ET.plain_name t = true).

Lemma descend_app (l1 l2 : list ET.Element) (ts : list string) :
  descend (l1 ++ l2) ts = descend l1 ts ++ descend l2 ts.
Proof.
  revert l1 l2. induction ts as [|t ts IH]; intros l1 l2; [done|].
  unfold descend in *. simpl. rewrite flat_map_app. apply IH.
Qed.

Lemma descend_nil (ts : list string) : descend [] ts = [].
Proof. induction ts as [|t ts IH]; [done|]. exact IH. Qed.

Lemma descend_child (e : ET.Element) (t : string) (ts : list string) :
  descend [e] (t :: ts)
  = descend (filter (fun c => ET.tag c = t) (ET.children e)) ts.
Proof. unfold descend. simpl. by rewrite app_nil_r. Qed.

Lemma join_app (l us : list string) :
  l <> [] -> us <> [] -> join "/" (l ++ us) = join "/" l +:+ "/" +:+ join "/" us.
Proof.
  intros Hl Hus. induction l as [|x l IH]; [done|].
  destruct l as [|y l].
  - simpl. by destruct us.
  - change (join "/" ((x :: y :: l) ++ us))
      with (x +:+ "/" +:+ join "/" ((y :: l) ++ us)).
    rewrite IH by done.
    change (join "/" (x :: y :: l)) with (x +:+ "/" +:+ join "/" (y :: l)).
    by rewrite !append_assoc.
Qed.

Lemma join_suffix (l us : list string) :
  l <> [] -> join "/" l +:+ child_suffix us = join "/" (l ++ us).
Proof.
  intros Hl. destruct us as [|u us].
  - by rewrite app_nil_r, append_nil_r.
  - by rewrite join_app.
Qed.

Lemma join_truthy (x : string) (l : list string) :
  ET.plain_name x = true -> truthy (join "/" (x :: l)) = true.
Proof. intros Hx. rewrite join_cons. by apply truthy_append, plain_name_truthy. Qed.

Lemma cur_path_join (pre : list string) (t : string) :
  Forall plain pre ->
  (if truthy (join "/" pre) then join "/" pre +:+ "/" +:+ t else t)
  = join "/" (pre ++ [t]).
Proof.
  intros Hpre. destruct Hpre as [|x pre Hx Hpre]; [done|].
  rewrite (join_truthy x pre Hx). by rewrite join_app.
Qed.

Lemma join_inj (l1 l2 : list string) :
  l1 <> [] -> l2 <> [] -> Forall plain l1 -> Forall plain l2 ->
  join "/" l1 = join "/" l2 -> l1 = l2.
Proof.
  intros H1 H2 Hp1 Hp2 Heq.
  rewrite <- (split_on_join l1), <- (split_on_join l2); try done.
  - by rewrite Heq.
  - eapply Forall_impl; [exact Hp2|]. intros t. apply plain_name_no_slash.
  - eapply Forall_impl; [exact Hp1|]. intros t. apply plain_name_no_slash.
Qed.

Lemma plain_doc_tag (e : ET.Element) :
  plain_doc e = true -> ET.plain_name (ET.tag e) = true.
Proof. destruct e. by intros (? & _)%plain_doc_unfold. Qed.

(** The paths below an element, as chains of tags. *)
Lemma walk_paths (c : ET.Element) (pre : list string) (e' : ET.Element)
    (p' : string) :
  plain_doc c = true -> Forall plain pre ->
  (e', p') ∈ walk c (join "/" pre) ->
  exists us, Forall plain us /\ p' = join "/" (pre ++ ET.tag c :: us).
Proof.
  intros Hc Hpre Hin.
  destruct (walk_shape c (join "/" pre) e' p' Hc Hin) as (_ & us & Hus & ->).
  exists us. split; [done|]. rewrite (cur_path_join pre _ Hpre).
  rewrite join_suffix by (by destruct pre). by rewrite <- app_assoc.
Qed.

Lemma filter_none (tgt : string) (l : list (ET.Element * string)) :
  (forall ep, ep ∈ l -> snd ep <> tgt) ->
  filter (fun ep : ET.Element * string => snd ep = tgt) l = [].
Proof.
  induction l as [|ep l IH]; intros H; [done|].
  rewrite filter_cons_False by (apply H, list_elem_of_here).
  apply IH. intros ep' Hin. by apply H, list_elem_of_further.
Qed.

(** The elements at a chain of tags below an element are those that the
    search reaches along the chain. *)
Lemma walk_filter (e : ET.Element) :
  forall pre ts,
  plain_doc e = true -> Forall plain pre -> Forall plain ts ->
  map fst (filter (fun ep : ET.Element * string =>
                     snd ep = join "/" (pre ++ ET.tag e :: ts))
                  (walk e (join "/" pre)))
  = descend [e] ts.
Proof.
  induction e as [t a x cs IH] using Element_ind'. intros pre ts Hpl Hpre Hts.
  pose proof Hpl as (Ht & _ & Hcs)%plain_doc_unfold.
  cbn [walk ET.tag ET.children]. rewrite (cur_path_join pre t Hpre).
  set (pre' := pre ++ [t]).
  assert (Forall plain pre') as Hpre'.
  { apply Forall_app. split; [done|by constructor]. }
  assert (pre' <> []) as Hne by (unfold pre'; by destruct pre).
  replace (pre ++ t :: ts) with (pre' ++ ts)
    by (unfold pre'; by rewrite <- app_assoc).
  assert (forall c e' p' l, c ∈ cs -> (e', p') ∈ walk c (join "/" pre') ->
            p' = join "/" (pre' ++ l) -> Forall plain l ->
            exists us, l = ET.tag c :: us) as Hbelow.
  { intros c e' p' l Hc Hin Hp' Hl. rewrite Forall_forall in Hcs.
    destruct (walk_paths c pre' e' p' (Hcs c Hc) Hpre' Hin) as (us & Hus & Hp'').
    exists us. rewrite Hp'' in Hp'. apply join_inj in Hp'.
    - by apply app_inv_head in Hp'.
    - by destruct pre'.
    - by destruct pre'.
    - apply Forall_app. split; [done|].
      constructor; [by apply plain_doc_tag, Hcs|done].
    - by apply Forall_app. }
  destruct ts as [|t1 ts].
  - rewrite app_nil_r. rewrite filter_cons_True by done.
    rewrite filter_none; [done|]. intros [e' p'] Hin Hp'. simpl in Hp'.
    apply list_elem_of_In, in_flat_map in Hin as (c & Hc & Hin).
    apply list_elem_of_In in Hc, Hin.
    destruct (Hbelow c e' p' [] Hc Hin) as (us & Hus); [by rewrite app_nil_r|done|done].
  - rewrite filter_cons_False.
    2:{ simpl. intros Heq. apply join_inj in Heq; try done.
        - rewrite <- (app_nil_r pre') in Heq at 1. by apply app_inv_head in Heq.
        - by destruct pre'.
        - by apply Forall_app. }
    rewrite descend_child. cbn [ET.children].
    apply Forall_cons in Hts as [Ht1 Hts].
    clear Hpl. induction cs as [|c cs IHcs]; [by rewrite descend_nil|].
    apply Forall_cons in IH as [IHc IH]. apply Forall_cons in Hcs as [Hc Hcs].
    cbn [flat_map]. rewrite filter_app, map_app.
    rewrite IHcs; try done.
    2:{ intros c' e' p' l Hc'. apply Hbelow. by apply list_elem_of_further. }
    destruct (decide (ET.tag c = t1)) as [<-|Hne1].
    + rewrite filter_cons_True by done.
      etrans; [|symmetry; apply (descend_app [c])]. f_equal.
      exact (IHc pre' ts Hc Hpre' Hts).
    + rewrite filter_cons_False by done.
      rewrite filter_none; [done|]. intros [e' p'] Hin Hp'. simpl in Hp'.
      destruct (Hbelow c e' p' (t1 :: ts) (list_elem_of_here _ _) Hin Hp')
        as (us & [= ? _]); [by constructor|done].
Qed.

Lemma elements_at_descend (root : ET.Element) (ts : list string) :
  plain_doc root = true -> Forall plain ts ->
  elements_at root (join "/" (ET.tag root :: ts)) = descend [root] ts.
Proof. intros Hpl Hts. by apply (walk_filter root [] ts). Qed.

Lemma prefix_append (a b : string) : String.prefix a (a +:+ b) = true.
Proof.
  induction a as [|x a IH]; [by destruct b|].
  rewrite append_cons, prefix_cons. by destruct (ascii_dec x x).
Qed.

Lemma drop_str_append (a b : string) : drop_str (String.length a) (a +:+ b) = b.
Proof. induction a as [|x a IH]; [done|]. by rewrite append_cons. Qed.

Lemma append_longer (a b : string) : b <> "" -> a +:+ b <> a.
Proof.
  intros Hb Heq. apply (f_equal String.length) in Heq.
  rewrite length_append in Heq. destruct b; [done|]. simpl in Heq. lia.
Qed.

(** The search that the Value Extractor makes for a rooted chain of tags. *)
Lemma findall_rooted (root : ET.Element) (ts : list string) :
  Forall plain ts ->
  ET.findall root (path_for_findall root (join "/" (ET.tag root :: ts)))
  = Ok (descend [root] ts).
Proof.
  intros Hts. unfold path_for_findall. destruct ts as [|t1 ts].
  - simpl. by rewrite String.eqb_refl.
  - rewrite join_cons. unfold child_suffix.
    set (rest := join "/" (t1 :: ts)).
    assert (String.eqb (ET.tag root +:+ "/" +:+ rest) (ET.tag root) = false) as ->.
    { apply String.eqb_neq. by apply append_longer. }
    rewrite <- append_assoc. unfold startswith. rewrite prefix_append.
    replace (String.length (ET.tag root) + 1)
      with (String.length (ET.tag root +:+ "/"))
      by (by rewrite length_append).
    rewrite drop_str_append.
    assert (ET.split_on "/" rest = t1 :: ts) as Hsplit.
    { apply split_on_join; [done|].
      eapply Forall_impl; [exact Hts|]. intros t. apply plain_name_no_slash. }
    rewrite findall_segments; rewrite Hsplit; done.
Qed.

End ValuesAtPath.

(** X8.  The values found for a path of the document.  In a document
    without namespaces, let [p] be the path of some element.  The values that
    the Value Extractor finds for [p] are the texts of all the elements that
    stand at the path [p], in document order (the empty string for an element
    without text), and the values it finds for [p/@a] are the values of the
    attribute [a] on these same elements ([None] where an element lacks
    it).  So a column has one entry per element at the path, whether or not
    that element is a leaf or carries the attribute. *)
Theorem values_at_path (root e : ET.Element) (p : string) :
  plain_doc root = true -> (e, p) ∈ walk root "" ->
  e ∈ elements_at root p
  /\ column_values root p
     = Ok (map (fun elem => Str (default "" (ET.text elem))) (elements_at root p))
  /\ (forall a, ET.plain_name a = true ->
        column_values root (p +:+ "/@" +:+ a)
        = Ok (map (fun elem => of_option (ET.get elem a)) (elements_at root p))).
Proof.
  intros Hpl Hin. split.
  { unfold elements_at. apply list_elem_of_In, in_map_iff. exists (e, p).
    split; [done|]. apply list_elem_of_In, list_elem_of_filter. by split. }
  destruct (walk_shape root "" e p Hpl Hin) as (_ & ts & Hts & ->).
  cbn [truthy]. rewrite <- join_cons.
  assert (Forall (fun t => ET.plain_name t = true) (ET.tag root :: ts)) as Hall.
  { constructor; [|done]. destruct root. by apply plain_doc_unfold in Hpl as (? & _). }
  rewrite (elements_at_descend root ts Hpl Hts). split.
  - rewrite column_values_text by (by apply join_no_at).
    by rewrite (findall_rooted root ts Hts).
  - intros a Ha. rewrite column_values_attr by (by apply plain_name_no_slash).
    by rewrite (findall_rooted root ts Hts).
Qed.

Lemma values_at_path_witness :
  column_values people_doc "people/person/name"
  = Ok (map (fun elem => Str (default "" (ET.text elem)))
            (elements_at people_doc "people/person/name")).
Proof.
  refine (proj1 (proj2 (values_at_path people_doc
                          (ET.Elem "name" [] (Some "Bob") [])
                          "people/person/name" _ _))).
  - reflexivity.
  - vm_compute. do 5 apply list_elem_of_further. apply list_elem_of_here.
Defined.

(** ** More on the Template Writer *)

Section WriterCells.

(** The cell of a matched column after the loop over the columns. *)
Lemma write_matched_cell (index_map : gmap value nat) (df : Pandas.DataFrame)
    (hs : list string) (h : string) (c i : nat) (v : value) :
  index_map !! Str h = Some c ->
  (forall h', h' ∈ hs -> index_map !! Str h' = Some c -> h' = h) ->
  Pandas.getitem df h !! i = Some v ->
  forall ws : gmap (nat * nat) value,
  foldl (write_matched index_map df) ws hs !! (i + 2, c)
  = if decide (h ∈ hs)
    then (if is_None v then ws !! (i + 2, c) else Some v)
    else ws !! (i + 2, c).
Proof.
  intros Hc Hinj Hv.
  assert (forall ws : gmap (nat * nat) value,
            write_matched index_map df ws h !! (i + 2, c)
            = if is_None v then ws !! (i + 2, c) else Some v) as Hstep.
  { intros ws. unfold write_matched. rewrite Hc, (Nat.add_comm i 2).
    by rewrite (write_column_at _ _ _ _ _ _ Hv). }
  induction hs as [|x hs IH]; intros ws; [done|].
  assert (forall h', h' ∈ hs -> index_map !! Str h' = Some c -> h' = h) as Hinj'.
  { intros h' Hh'. apply Hinj. by apply list_elem_of_further. }
  simpl. rewrite (IH Hinj'). destruct (decide (x = h)) as [->|Hne].
  - rewrite (decide_True (P := h ∈ h :: hs)) by apply list_elem_of_here.
    rewrite Hstep. by destruct (decide (h ∈ hs)), (is_None v).
  - assert (write_matched index_map df ws x !! (i + 2, c) = ws !! (i + 2, c)) as ->.
    { unfold write_matched.
      destruct (index_map !! Str x) as [col|] eqn:Hcol; [|done].
      apply write_column_other. left. intros ->. apply Hne.
      apply Hinj; [apply list_elem_of_here|done]. }
    apply decide_ext. rewrite elem_of_cons. split; [tauto|].
    by intros [->|?].
Qed.

(** The index map depends on the first row only. *)
Lemma index_map_first_row (ws ws' : gmap (nat * nat) value) (h : string) :
  (forall c, ws' !! (1, c) = ws !! (1, c)) ->
  header_index_map (Openpyxl.first_row_values ws') !! Str h
  = header_index_map (Openpyxl.first_row_values ws) !! Str h.
Proof.
  assert (forall a b : gmap (nat * nat) value,
            (forall c, b !! (1, c) = a !! (1, c)) ->
            forall c, header_index_map (Openpyxl.first_row_values a) !! Str h = Some c ->
                      header_index_map (Openpyxl.first_row_values b) !! Str h = Some c)
    as Hone.
  { intros a b Hrow c (Hc & Hcell & Hlast)%index_map_matched.
    assert (forall c', Openpyxl.cell_value b 1 c' = Openpyxl.cell_value a 1 c')
      as Hcv by (intros c'; unfold Openpyxl.cell_value; by rewrite Hrow).
    apply index_map_last; [done|by rewrite Hcv|].
    intros c' Hc'. rewrite Hcv. by apply Hlast. }
  intros Hrow.
  destruct (header_index_map (Openpyxl.first_row_values ws) !! Str h) as [c|] eqn:E.
  - by apply (Hone ws ws').
  - destruct (header_index_map (Openpyxl.first_row_values ws') !! Str h)
      as [c|] eqn:E'; [|done].
    apply (Hone ws' ws) in E'; [congruence|]. intros c'. by rewrite Hrow.
Qed.

(** A sheet that was written is not changed by writing the same table
    again. *)
Lemma write_sheet_idemp (ws : gmap (nat * nat) value) (df : Pandas.DataFrame) :
  write_sheet (write_sheet ws df) df = write_sheet ws df.
Proof.
  rewrite (write_sheet_unfold (write_sheet ws df) df).
  destruct (Pandas.empty df) eqn:Hempty; [done|].
  assert (forall c, write_sheet ws df !! (1, c) = ws !! (1, c)) as Hrow
    by (intros c; apply write_sheet_first_row).
  set (im := header_index_map (Openpyxl.first_row_values ws)).
  set (cols := keys (Pandas.columns df)).
  assert (write_sheet ws df = foldl (write_matched im df) ws cols) as Hws1
    by (by rewrite write_sheet_unfold, Hempty).
  set (ws1 := write_sheet ws df) in *.
  etrans.
  { apply (foldl_ext_elem _ (write_matched im df)).
    intros w h _. unfold write_matched.
    by rewrite (index_map_first_row ws ws1 h Hrow). }
  apply map_eq. intros [r c].
  set (P := fun h => im !! Str h = Some c
                     /\ 2 <= r <= length (Pandas.getitem df h) + 1).
  destruct (decide (Exists P cols)) as [Hex|Hno].
  - apply Exists_exists in Hex as (h & Hh & Hc & Hr).
    assert (forall h', h' ∈ cols -> im !! Str h' = Some c -> h' = h) as Hinj.
    { intros h' _ Hc'. apply index_map_matched in Hc as (_ & Hcell & _).
      apply index_map_matched in Hc' as (_ & Hcell' & _). congruence. }
    destruct (lookup_lt_is_Some_2 (Pandas.getitem df h) (r - 2)) as [v Hv]; [lia|].
    replace r with (r - 2 + 2) by lia.
    rewrite (write_matched_cell im df cols h c (r - 2) v Hc Hinj Hv ws1).
    rewrite decide_True by done. destruct (is_None v) eqn:Hnone; [done|].
    rewrite Hws1, (write_matched_cell im df cols h c (r - 2) v Hc Hinj Hv ws).
    rewrite decide_True by done. by rewrite Hnone.
  - apply write_matched_frame. intros h Hh Hc Hr. apply Hno.
    apply Exists_exists. by exists h.
Qed.

(** Two dictionaries with the same keys, in the same order, and the same
    values under every key are equal. *)
Lemma dict_ext {V} (d1 d2 : dict V) :
  keys d1 = keys d2 -> NoDup (keys d1) ->
  (forall k, dict_get d1 k = dict_get d2 k) -> d1 = d2.
Proof.
  revert d2. induction d1 as [|[k v] d1 IH]; intros [|[k' v'] d2]; try done.
  simpl. intros [= <- Hk] [Hnin Hnd]%NoDup_cons Hget.
  pose proof (Hget k) as Hkv. simpl in Hkv. rewrite String.eqb_refl in Hkv.
  injection Hkv as <-. f_equal. apply IH; try done.
  intros k0. specialize (Hget k0). simpl in Hget.
  destruct (String.eqb_spec k0 k) as [Heq|]; [|done].
  rewrite Heq. pose proof Hnin as Hnin'. rewrite Hk in Hnin'.
  apply dict_get_None in Hnin, Hnin'. by rewrite Hnin, Hnin'.
Qed.

End WriterCells.

(** X9.  What a written cell holds.  Under the header [h] of a merged
    column (the last column of the first row that shows [h]), the cell of
    row [i + 2] holds entry [i] of the column when that entry is not [None],
    NaN included, and keeps the content it had in the template when the
    entry is [None]: a missing value never clears a cell. *)
Theorem written_cell (tpl : Openpyxl.Workbook)
    (data : dict Pandas.DataFrame) (name : string)
    (ws : gmap (nat * nat) value) (df : Pandas.DataFrame)
    (h : string) (c_last : nat) :
  NoDup (keys tpl) ->
  dict_get tpl name = Some ws -> dict_get data name = Some df ->
  Pandas.empty df = false -> h ∈ keys (Pandas.columns df) ->
  1 <= c_last -> Openpyxl.cell_value ws 1 c_last = Str h ->
  (forall c', c_last < c' -> Openpyxl.cell_value ws 1 c' <> Str h) ->
  exists ws',
    dict_get (write_dataframes_to_excel tpl data) name = Some ws'
    /\ (forall i v, Pandas.getitem df h !! i = Some v ->
          ws' !! (i + 2, c_last)
          = if is_None v then ws !! (i + 2, c_last) else Some v)
    /\ (forall i, Pandas.getitem df h !! i = Some PyNone ->
          ws' !! (i + 2, c_last) = ws !! (i + 2, c_last))
    /\ (forall i, Pandas.getitem df h !! i = Some NaN ->
          ws' !! (i + 2, c_last) = Some NaN).
Proof.
  intros Hnd Hws Hdf Hempty Hh Hc Hcell Hlast.
  exists (write_sheet ws df). split; [by rewrite (write_get tpl data name ws), Hdf|].
  pose proof (index_map_last ws h c_last Hc Hcell Hlast) as Hmap.
  assert (forall i v, Pandas.getitem df h !! i = Some v ->
            write_sheet ws df !! (i + 2, c_last)
            = if is_None v then ws !! (i + 2, c_last) else Some v) as Hcellv.
  { intros i v Hv. rewrite write_sheet_unfold, Hempty.
    rewrite (write_matched_cell _ df _ h c_last i v Hmap); [|
      intros h' _ (_ & Hcell' & _)%index_map_matched; congruence|done].
    by rewrite decide_True. }
  split; [done|]. split; intros i Hi; by rewrite (Hcellv i _ Hi).
Qed.

Lemma written_cell_witness :
  exists ws',
    dict_get (write_dataframes_to_excel template merged) "Data" = Some ws'
    /\ (forall i v, Pandas.getitem merged_frame "Name" !! i = Some v ->
          ws' !! (i + 2, 3)
          = if is_None v then template_data !! (i + 2, 3) else Some v)
    /\ (forall i, Pandas.getitem merged_frame "Name" !! i = Some PyNone ->
          ws' !! (i + 2, 3) = template_data !! (i + 2, 3))
    /\ (forall i, Pandas.getitem merged_frame "Name" !! i = Some NaN ->
          ws' !! (i + 2, 3) = Some NaN).
Proof.
  apply (written_cell template merged "Data" template_data merged_frame "Name" 3).
  - apply (bool_decide_unpack _). vm_compute. exact I.
  - reflexivity.
  - reflexivity.
  - reflexivity.
  - apply list_elem_of_here.
  - lia.
  - reflexivity.
  - intros c' Hc' Hcell%cell_value_Str%max_column_bound.
    vm_compute in Hcell. lia.
Defined.

(** X10.  What the writer skips.  A template sheet whose merged table is
    empty (no rows, or no columns) is left exactly as it is, and so is a
    sheet whose first row shows none of the names of the merged columns:
    columns without a matching header are dropped without an error. *)
Theorem writer_skips (tpl : Openpyxl.Workbook)
    (data : dict Pandas.DataFrame) (name : string)
    (ws : gmap (nat * nat) value) (df : Pandas.DataFrame) :
  NoDup (keys tpl) ->
  dict_get tpl name = Some ws -> dict_get data name = Some df ->
  (Pandas.empty df = true
   \/ forall h c, h ∈ keys (Pandas.columns df) ->
                  Openpyxl.cell_value ws 1 c <> Str h) ->
  dict_get (write_dataframes_to_excel tpl data) name = Some ws.
Proof.
  intros Hnd Hws Hdf Hskip. rewrite (write_get tpl data name ws), Hdf by done.
  f_equal. destruct Hskip as [Hempty|Hnone].
  - by rewrite write_sheet_unfold, Hempty.
  - apply map_eq. intros [r c]. apply write_sheet_frame.
    intros h Hh Hcell. by destruct (Hnone h c Hh).
Qed.

Lemma writer_skips_witness :
  dict_get (write_dataframes_to_excel template
              [("Data", Pandas.mkDataFrame 0 [("Name", [])])]) "Data"
  = Some template_data.
Proof.
  apply (writer_skips template _ "Data" template_data
           (Pandas.mkDataFrame 0 [("Name", [])])).
  - apply (bool_decide_unpack _). vm_compute. exact I.
  - reflexivity.
  - reflexivity.
  - left. reflexivity.
Defined.

(** X11.  Writing is idempotent: the workbook that the writer produced,
    used as the template of a second run with the same merged tables, comes
    out unchanged. *)
Theorem write_twice (tpl : Openpyxl.Workbook) (data : dict Pandas.DataFrame) :
  NoDup (keys tpl) ->
  write_dataframes_to_excel (write_dataframes_to_excel tpl data) data
  = write_dataframes_to_excel tpl data.
Proof.
  intros Hnd. set (out := write_dataframes_to_excel tpl data).
  assert (keys out = keys tpl) as Hkeys
    by (unfold out; rewrite write_unfold; apply keys_write_fold).
  assert (NoDup (keys out)) as Hnd' by (by rewrite Hkeys).
  apply dict_ext.
  - rewrite write_unfold. apply keys_write_fold.
  - rewrite write_unfold, keys_write_fold. exact Hnd'.
  - intros k. destruct (dict_get out k) as [ws1|] eqn:Hout.
    + rewrite (write_get out data k ws1 Hnd' Hout). f_equal.
      destruct (dict_get data k) as [df|] eqn:Hdf; [|done].
      assert (is_Some (dict_get tpl k)) as [ws Hws].
      { apply dict_get_is_Some. rewrite <- Hkeys. apply dict_get_is_Some.
        by eexists. }
      unfold out in Hout. rewrite (write_get tpl data k ws Hnd Hws), Hdf in Hout.
      injection Hout as <-. apply write_sheet_idemp.
    + apply dict_get_None. rewrite write_unfold, keys_write_fold.
      by apply dict_get_None.
Qed.

Lemma write_twice_witness :
  write_dataframes_to_excel (write_dataframes_to_excel template merged) merged
  = write_dataframes_to_excel template merged.
Proof.
  apply (write_twice template merged).
  apply (bool_decide_unpack _). vm_compute. exact I.
Defined.

(** ** Rooted paths and paths that cannot be split *)

Section RootedPaths.

(** Every path below an element continues the path of that element. *)
Lemma walk_rooted (e : ET.Element) :
  forall cur e' p',
  (e', p') ∈ walk e cur ->
  let path := if truthy cur then cur +:+ "/" +:+ ET.tag e else ET.tag e in
  truthy path = true ->
  p' = path \/ exists rest, p' = path +:+ "/" +:+ rest.
Proof.
  induction e as [t a x cs IH] using Element_ind'. intros cur e' p' Hin.
  cbn [walk ET.tag ET.children] in *. cbv zeta.
  set (path := if truthy cur then cur +:+ "/" +:+ t else t) in *.
  intros Hpath. apply elem_of_cons in Hin as [[= _ ->]|Hin]; [by left|].
  right. apply list_elem_of_In, in_flat_map in Hin as (c & Hc & Hin).
  apply list_elem_of_In in Hc, Hin. rewrite Forall_forall in IH.
  specialize (IH c Hc path e' p' Hin). cbv zeta in IH. rewrite Hpath in IH.
  destruct IH as [->|(rest & ->)]; [by apply truthy_append| |].
  - by exists (ET.tag c).
  - exists (ET.tag c +:+ "/" +:+ rest). by rewrite !append_assoc.
Qed.

Lemma startswith_append (a b : string) : startswith (a +:+ b) a = true.
Proof. apply prefix_append. Qed.

Lemma rsplit1_Some (sep s a b : string) :
  rsplit1 sep s = Some (a, b) -> s = a +:+ sep +:+ b.
Proof.
  revert a. induction s as [|c s IH]; intros a; [done|].
  rewrite rsplit1_cons. destruct (rsplit1 sep s) as [[a' b']|].
  - intros [= <- <-]. by rewrite append_cons, <- (IH a').
  - destruct (String.prefix sep (String c s)) eqn:Hpre; [|done].
    intros [= <- <-]. rewrite append_nil_l. by apply prefix_drop.
Qed.

(** Two ways of cutting one string: one of the first parts begins the
    other. *)
Lemma append_eq_split (a x b y : string) :
  a +:+ x = b +:+ y ->
  (exists z, b = a +:+ z /\ x = z +:+ y)
  \/ (exists z, a = b +:+ z /\ y = z +:+ x).
Proof.
  revert b. induction a as [|c a IH]; intros b.
  - rewrite append_nil_l. intros ->. left. by exists b.
  - destruct b as [|d b].
    + rewrite append_nil_l. intros <-. right. by exists (String c a).
    + rewrite !append_cons. intros [= <- H].
      destruct (IH b H) as [(z & -> & ->)|(z & -> & ->)].
      * left. by exists z.
      * right. by exists z.
Qed.

(** The element path that the Value Extractor cuts off an attribute path is
    rooted, when the root's tag has no [@]. *)
Lemma base_rooted (tag rest base attr : string) :
  contains_char "@" tag = false ->
  tag +:+ "/" +:+ rest = base +:+ "/@" +:+ attr ->
  base = tag \/ exists rest', base = tag +:+ "/" +:+ rest'.
Proof.
  intros Htag Heq.
  destruct (append_eq_split tag ("/" +:+ rest) base ("/@" +:+ attr) Heq)
    as [(z & -> & Hz)|(z & -> & Hz)].
  - destruct z as [|c z]; [left; by rewrite append_nil_r|].
    right. exists z. rewrite append_cons in Hz. by injection Hz as <- _.
  - destruct z as [|c z]; [left; by rewrite append_nil_r|].
    exfalso. rewrite append_cons in Hz.
    change ("/@" +:+ attr) with (String "/" (String "@" attr)) in Hz.
    injection Hz as <- Hz. destruct z as [|c' z].
    + rewrite append_nil_l in Hz. discriminate Hz.
    + rewrite append_cons in Hz. injection Hz as <- _.
      rewrite contains_char_append in Htag.
      apply orb_false_iff in Htag as [_ Htag]. discriminate Htag.
Qed.

Lemma path_for_findall_root (root : ET.Element) :
  path_for_findall root (ET.tag root) = ".".
Proof. unfold path_for_findall. by rewrite String.eqb_refl. Qed.

Lemma path_for_findall_below (root : ET.Element) (rest : string) :
  path_for_findall root (ET.tag root +:+ "/" +:+ rest) = rest.
Proof.
  unfold path_for_findall.
  assert (String.eqb (ET.tag root +:+ "/" +:+ rest) (ET.tag root) = false) as ->.
  { apply String.eqb_neq. by apply append_longer. }
  rewrite <- append_assoc, startswith_append.
  replace (String.length (ET.tag root) + 1)
    with (String.length (ET.tag root +:+ "/"))
    by (by rewrite length_append).
  apply drop_str_append.
Qed.

End RootedPaths.

(** X12.  The paths of the Path Extractor are rooted, and so is what the
    Value Extractor searches for them.  For a document whose root has a tag
    without [@]: every returned path is the root's tag, or the root's tag
    followed by [/] and more.  The Value Extractor normalises the path
    itself when it has no [@], and otherwise the part before the last [/@];
    whenever it gets as far as a search expression for a returned path,
    that normalised path is the root's tag and the expression is [.], or it
    is the root's tag, [/] and the expression.  The branch that passes a
    path on as it is, is not taken. *)
Theorem extracted_paths_rooted (root : ET.Element) (q : string) :
  ET.tag root <> "" -> contains_char "@" (ET.tag root) = false ->
  q ∈ extract_xml_tags (ET.Document root) ->
  (q = ET.tag root \/ exists rest, q = ET.tag root +:+ "/" +:+ rest)
  /\ (forall expr,
        search_expression root q = Some expr ->
        exists base,
          (if contains_char "@" q
           then exists attr, rsplit1 "/@" q = Some (base, attr)
           else base = q)
          /\ expr = path_for_findall root base
          /\ ((base = ET.tag root /\ expr = ".")
              \/ base = ET.tag root +:+ "/" +:+ expr)).
Proof.
  intros Htag Hat Hq.
  assert (truthy (ET.tag root) = true) as Htruthy by (by destruct (ET.tag root)).
  assert (q = ET.tag root \/ exists rest, q = ET.tag root +:+ "/" +:+ rest)
    as Hrooted.
  { apply elem_of_extract_xml_tags in Hq as (e & p & Hin & Hq).
    pose proof (walk_rooted root "" e p Hin) as Hp. cbn [truthy] in Hp.
    destruct Hq as [[-> _]|(a & _ & ->)]; [by apply Hp|]. right.
    destruct (Hp Htruthy) as [->|(rest & ->)].
    - exists ("@" +:+ a). done.
    - exists (rest +:+ "/@" +:+ a). by rewrite !append_assoc. }
  split; [done|]. intros expr Hexpr.
  assert (forall base, expr = path_for_findall root base ->
            base = ET.tag root \/ (exists rest, base = ET.tag root +:+ "/" +:+ rest) ->
            (base = ET.tag root /\ expr = ".")
            \/ base = ET.tag root +:+ "/" +:+ expr) as Hnorm.
  { intros base -> [->|(rest & ->)].
    - left. by rewrite path_for_findall_root.
    - right. by rewrite path_for_findall_below. }
  unfold search_expression in Hexpr.
  destruct (contains_char "@" q) eqn:Hq_at.
  - destruct (rsplit1 "/@" q) as [[base attr]|] eqn:Hsplit; [|done].
    injection Hexpr as <-. exists base. split; [by exists attr|].
    split; [done|]. apply Hnorm; [done|].
    apply rsplit1_Some in Hsplit.
    destruct Hrooted as [->|(rest & ->)].
    + (* the path is the root's tag: it has no [@] *)
      rewrite Hat in Hq_at. discriminate Hq_at.
    + by apply (base_rooted (ET.tag root) rest base attr).
  - injection Hexpr as <-. exists q. split; [done|]. split; [done|].
    by apply Hnorm.
Qed.

Lemma extracted_paths_rooted_witness :
  ("people/person/@id" = ET.tag attr_doc
   \/ exists rest, "people/person/@id" = ET.tag attr_doc +:+ "/" +:+ rest)
  /\ (forall expr,
        search_expression attr_doc "people/person/@id" = Some expr ->
        exists base,
          (if contains_char "@" "people/person/@id"
           then exists attr, rsplit1 "/@" "people/person/@id" = Some (base, attr)
           else base = "people/person/@id")
          /\ expr = path_for_findall attr_doc base
          /\ ((base = ET.tag attr_doc /\ expr = ".")
              \/ base = ET.tag attr_doc +:+ "/" +:+ expr)).
Proof.
  apply (extracted_paths_rooted attr_doc "people/person/@id").
  - discriminate.
  - reflexivity.
  - vm_compute. apply list_elem_of_here.
Defined.

(** X13.  A mapped path that has an [@] but no [/@] cannot be split into an
    element path and an attribute name: for every document the extraction of
    that column raises [ValueError], the Value Extractor returns no table
    for any sheet, and an export with such a source produces no workbook. *)
Theorem unsplittable_path_raises (root : ET.Element)
    (mappings : dict (dict string)) (sheet col path : string)
    (cols : dict string) (template : Openpyxl.Workbook)
    (before after : list (ET.xml_file * dict (dict string))) :
  contains_char "@" path = true -> rsplit1 "/@" path = None ->
  (sheet, cols) ∈ mappings -> (col, path) ∈ cols ->
  column_values root path = Raise ValueError
  /\ is_Ok (extract_data_from_one_xml (ET.Document root) mappings) = false
  /\ is_Ok (generate_excel template
              (before ++ (ET.Document root, mappings) :: after)) = false.
Proof.
  intros Hat Hsplit Hs Hc.
  assert (column_values root path = Raise ValueError) as Hcol
    by (unfold column_values; by rewrite Hat, Hsplit).
  assert (is_Ok (extract_data_from_one_xml (ET.Document root) mappings) = false)
    as Hno.
  { unfold extract_data_from_one_xml. simpl.
    eapply data_to_write_not_Ok; [exact Hs|].
    eapply raw_sheet_data_not_Ok; [exact Hc|]. by rewrite Hcol. }
  split; [done|]. split; [done|].
  unfold generate_excel, merged_tables.
  assert (forall acc,
            is_Ok (max_rows_per_sheet
                     (before ++ (ET.Document root, mappings) :: after) acc)
            = false) as Hmax.
  { induction before as [|[f m] before IH]; intros acc; simpl.
    - by destruct (extract_data_from_one_xml (ET.Document root) mappings).
    - destruct (extract_data_from_one_xml f m); [apply IH|done|done]. }
  specialize (Hmax []). by destruct (max_rows_per_sheet _ []).
Qed.

Lemma unsplittable_path_raises_witness :
  column_values bare_doc "r/a@id" = Raise ValueError
  /\ is_Ok (extract_data_from_one_xml (ET.Document bare_doc)
              [("Data", [("Id", "r/a@id")])]) = false
  /\ is_Ok (generate_excel template
              ([] ++ (ET.Document bare_doc, [("Data", [("Id", "r/a@id")])]) :: []))
     = false.
Proof.
  apply (unsplittable_path_raises bare_doc [("Data", [("Id", "r/a@id")])]
           "Data" "Id" "r/a@id" [("Id", "r/a@id")] template [] []).
  - reflexivity.
  - reflexivity.
  - apply list_elem_of_here.
  - apply list_elem_of_here.
Defined.

(** ** The export, from the mapping list *)

Section ExportSources.

Lemma NoDup_keys_set {V} (d : dict V) (k : string) (v : V) :
  NoDup (keys d) -> NoDup (keys (dict_set d k v)).
Proof.
  intros Hnd. destruct (decide (k ∈ keys d)) as [Hin|Hin].
  - by rewrite keys_dict_set_old.
  - rewrite dict_set_new, keys_app by done. apply NoDup_app. split; [done|].
    split; [|apply NoDup_singleton].
    intros x Hx ->%list_elem_of_singleton. done.
Qed.

Lemma NoDup_keys_ensure {V} (d : dict (dict V)) (k : string) :
  NoDup (keys d) -> NoDup (keys (if dict_mem d k then d else dict_set d k [])).
Proof. intros Hnd. destruct (dict_mem d k); [done|]. by apply NoDup_keys_set. Qed.

Lemma Forall_get {V} (P : V -> Prop) (d : dict V) (k : string) (dflt : V) :
  Forall (fun kv => P (snd kv)) d -> P dflt -> P (default dflt (dict_get d k)).
Proof.
  intros Hd Hdflt. destruct (dict_get d k) as [v|] eqn:Hv; [|done]. simpl.
  apply dict_get_Some_elem in Hv. rewrite Forall_forall in Hd.
  by apply (Hd (k, v)).
Qed.

Lemma valid_mappings_nil : valid_mappings [].
Proof. split; constructor. Qed.

(** One round of the grouping loop keeps the dictionaries valid. *)
Lemma group_mapping_valid (by_source : dict (dict (dict string))) (m : mapping) :
  valid_grouping by_source -> valid_grouping (group_mapping by_source m).
Proof.
  intros [Hnd Hall]. unfold group_mapping.
  destruct (contains_char "/" (excel m)); [|done].
  destruct (split1 "/" (excel m)) as [[sheet col]|]; [|done]. cbv zeta.
  set (by1 := if dict_mem by_source (xml_source_id m) then by_source
              else dict_set by_source (xml_source_id m) []).
  assert (valid_grouping by1) as [Hnd1 Hall1].
  { unfold by1. destruct (dict_mem by_source (xml_source_id m)); [done|].
    split; [by apply NoDup_keys_set|].
    apply (dict_set_Forall valid_mappings); [done|apply valid_mappings_nil]. }
  set (fs := default [] (dict_get by1 (xml_source_id m))).
  assert (valid_mappings fs) as [Hfs1 Hfs2]
    by (apply (Forall_get valid_mappings); [done|apply valid_mappings_nil]).
  set (fs1 := if dict_mem fs sheet then fs else dict_set fs sheet []).
  assert (valid_mappings fs1) as [Hfs1' Hfs2'].
  { unfold fs1. destruct (dict_mem fs sheet); [done|].
    split; [by apply NoDup_keys_set|].
    apply (dict_set_Forall (fun cols : dict string => NoDup (keys cols)));
      [done|constructor]. }
  split; [by apply NoDup_keys_set|].
  apply (dict_set_Forall valid_mappings); [done|].
  split; [by apply NoDup_keys_set|].
  apply (dict_set_Forall (fun cols : dict string => NoDup (keys cols))); [done|].
  apply NoDup_keys_set.
  apply (Forall_get (fun cols : dict string => NoDup (keys cols)));
    [done|constructor].
Qed.

Lemma grouped_valid (ms : list mapping) :
  valid_grouping (mappings_by_source_id ms).
Proof.
  unfold mappings_by_source_id.
  assert (valid_grouping []) as H by (split; constructor).
  revert H. generalize ([] : dict (dict (dict string))).
  induction ms as [|m ms IH]; intros acc Hacc; [done|].
  simpl. by apply IH, group_mapping_valid.
Qed.

(** The sources of an export and their mappings. *)
Lemma sources_with_mappings_app (xs1 xs2 : list (string * ET.xml_file))
    (by_source : dict (dict (dict string))) :
  sources_with_mappings (xs1 ++ xs2) by_source
  = sources_with_mappings xs1 by_source ++ sources_with_mappings xs2 by_source.
Proof.
  induction xs1 as [|[id f] xs1 IH]; [done|]. simpl.
  destruct (dict_get by_source id); [|done]. simpl. by rewrite IH.
Qed.

Lemma sources_with_mappings_elem (xs : list (string * ET.xml_file))
    (by_source : dict (dict (dict string))) (fm : ET.xml_file * dict (dict string)) :
  fm ∈ sources_with_mappings xs by_source ->
  exists id, id ∈ keys xs /\ dict_get by_source id = Some (snd fm).
Proof.
  induction xs as [|[id f] xs IH]; simpl; [by intros ?%elem_of_nil|].
  assert (fm ∈ sources_with_mappings xs by_source ->
          exists id0, id0 ∈ id :: keys xs /\ dict_get by_source id0 = Some (snd fm))
    as Hrest.
  { intros (id0 & ? & ?)%IH. exists id0. split; [|done].
    by apply list_elem_of_further. }
  destruct (dict_get by_source id) as [m|] eqn:Hm; [|done].
  intros [->|Hin]%elem_of_cons; [|by apply Hrest].
  exists id. split; [apply list_elem_of_here|done].
Qed.

Lemma sources_with_mappings_valid (xs : list (string * ET.xml_file))
    (by_source : dict (dict (dict string))) :
  valid_grouping by_source ->
  Forall (fun fm => valid_mappings (snd fm)) (sources_with_mappings xs by_source).
Proof.
  intros [_ Hall]. apply Forall_forall. intros fm (id & _ & Hm)%sources_with_mappings_elem.
  apply dict_get_Some_elem in Hm. rewrite Forall_forall in Hall.
  by apply (Hall (id, snd fm)).
Qed.

Lemma sources_with_mappings_ext (xs : list (string * ET.xml_file))
    (by1 by2 : dict (dict (dict string))) :
  (forall id, id ∈ keys xs -> dict_get by1 id = dict_get by2 id) ->
  sources_with_mappings xs by1 = sources_with_mappings xs by2.
Proof.
  induction xs as [|[id f] xs IH]; intros H; [done|]. simpl.
  rewrite (H id) by apply list_elem_of_here.
  rewrite IH; [done|]. intros id' Hid'. apply H. by apply list_elem_of_further.
Qed.

(** The grouping loop, seen from one source. *)
Lemma group_mapping_get (by_source : dict (dict (dict string))) (m : mapping)
    (source : string) :
  dict_get (group_mapping by_source m) source
  = group_for source (dict_get by_source source) m.
Proof.
  unfold group_mapping, group_for.
  destruct (contains_char "/" (excel m)); [|done]. simpl.
  destruct (split1 "/" (excel m)) as [[sheet col]|]; [|by destruct (String.eqb _ _)].
  cbv zeta.
  set (by1 := if dict_mem by_source (xml_source_id m) then by_source
              else dict_set by_source (xml_source_id m) []).
  assert (default [] (dict_get by1 (xml_source_id m))
          = default [] (dict_get by_source (xml_source_id m))) as ->
    by apply default_get_ensure.
  destruct (String.eqb_spec (xml_source_id m) source) as [<-|Hne].
  - by rewrite dict_get_set_eq.
  - rewrite dict_get_set_ne by done. unfold by1.
    destruct (dict_mem by_source (xml_source_id m)); [done|].
    by rewrite dict_get_set_ne.
Qed.

Lemma grouped_get (ms : list mapping) (source : string) :
  forall acc,
  dict_get (foldl group_mapping acc ms) source
  = foldl (group_for source) (dict_get acc source) ms.
Proof.
  induction ms as [|m ms IH]; intros acc; [done|].
  simpl. by rewrite IH, group_mapping_get.
Qed.

Lemma group_for_unused (xs : list (string * ET.xml_file)) (source : string)
    (ms : list mapping) :
  source ∈ keys xs ->
  forall o,
  foldl (group_for source) o (filter (used_mapping xs) ms)
  = foldl (group_for source) o ms.
Proof.
  intros Hsource. induction ms as [|m ms IH]; intros o; [done|].
  destruct (decide (used_mapping xs m)) as [Hused|Hno].
  - rewrite filter_cons_True by done. simpl. apply IH.
  - rewrite filter_cons_False by done. simpl. rewrite IH. f_equal.
    unfold group_for.
    destruct (contains_char "/" (excel m)) eqn:Hc; [|done].
    destruct (String.eqb_spec (xml_source_id m) source) as [Heq|]; [|done].
    destruct Hno. split; [done|]. by rewrite Heq.
Qed.

Lemma sources_with_mappings_nil (xs : list (string * ET.xml_file)) :
  sources_with_mappings xs [] = [].
Proof. induction xs as [|[id f] xs IH]; [done|]. exact IH. Qed.

Lemma write_nothing (tpl : Openpyxl.Workbook) :
  write_dataframes_to_excel tpl [] = tpl.
Proof.
  rewrite write_unfold. generalize (keys tpl).
  intros names. revert tpl. induction names as [|x names IH]; intros tpl; [done|].
  simpl. apply IH.
Qed.

End ExportSources.

(** X14.  The mappings that an export uses.  The sources that an export
    visits, with their mappings, are the same as for the mapping list
    without the entries whose key has no [/] and the entries whose source is
    not registered: such entries are dropped without a message.  When no
    entry is left the export still succeeds, and the workbook it saves is the
    template as it was. *)
Theorem export_uses (template : Openpyxl.Workbook)
    (xml_sources_data : list (string * ET.xml_file))
    (current_mappings : list mapping) :
  let used := filter (used_mapping xml_sources_data) current_mappings in
  sources_with_mappings xml_sources_data (mappings_by_source_id current_mappings)
  = sources_with_mappings xml_sources_data (mappings_by_source_id used)
  /\ (current_mappings <> [] ->
      export template xml_sources_data current_mappings
      = Some (generate_excel template
                (sources_with_mappings xml_sources_data
                   (mappings_by_source_id used))))
  /\ (current_mappings <> [] -> used = [] ->
      export template xml_sources_data current_mappings = Some (Ok template)).
Proof.
  cbv zeta.
  assert (sources_with_mappings xml_sources_data
            (mappings_by_source_id current_mappings)
          = sources_with_mappings xml_sources_data
              (mappings_by_source_id
                 (filter (used_mapping xml_sources_data) current_mappings)))
    as Hsame.
  { apply sources_with_mappings_ext. intros id Hid. unfold mappings_by_source_id.
    rewrite !grouped_get. symmetry. by apply group_for_unused. }
  assert (current_mappings <> [] ->
          export template xml_sources_data current_mappings
          = Some (generate_excel template
                    (sources_with_mappings xml_sources_data
                       (mappings_by_source_id
                          (filter (used_mapping xml_sources_data)
                                  current_mappings))))) as Hexport.
  { intros Hne. unfold export. rewrite <- Hsame. by destruct current_mappings. }
  split; [done|]. split; [done|].
  intros Hne Hnil. rewrite (Hexport Hne), Hnil.
  change (mappings_by_source_id []) with ([] : dict (dict (dict string))).
  rewrite sources_with_mappings_nil.
  unfold generate_excel, merged_tables. simpl.
  change (final_data_to_write_by_sheet []) with ([] : dict Pandas.DataFrame).
  by rewrite write_nothing.
Qed.

Section ExportColumn.

(** With at most one entry per Excel column, the column of an entry is
    grouped under the source of that entry only. *)
Lemma only_source (ms : list mapping) (m : mapping) (sheet col : string)
    (id' : string) (mp' : dict (dict string)) (cols' : dict string) :
  NoDup (excel <$> ms) -> m ∈ ms -> excel m = sheet +:+ "/" +:+ col ->
  dict_get (mappings_by_source_id ms) id' = Some mp' ->
  dict_get mp' sheet = Some cols' -> is_Some (dict_get cols' col) ->
  id' = xml_source_id m.
Proof.
  intros Hnd Hm Hexcel Hmp' Hcols' [p' Hp'].
  assert (mapped_path (mappings_by_source_id ms) id' sheet col = Some p') as Hpath'.
  { unfold mapped_path. rewrite Hmp'. simpl. rewrite Hcols'. done. }
  apply (grouped_lookup ms id' sheet col _ Hnd) in Hpath'
    as (m' & Hm' & Hs' & [Hsp' _]%split1_Some & _).
  assert (m' = m) as ->; [|done].
  apply (NoDup_fmap_eq excel ms); [done|done|done|]. by rewrite Hsp', Hexcel.
Qed.

(** The merged column of a mapping list entry. *)
Lemma export_merged_column (xs1 xs2 : list (string * ET.xml_file)) (id : string)
    (root : ET.Element) (ms : list mapping) (m : mapping) (sheet col : string)
    (final : dict Pandas.DataFrame) :
  NoDup (excel <$> ms) -> id ∉ keys xs1 ->
  m ∈ ms -> xml_source_id m = id ->
  excel m = sheet +:+ "/" +:+ col -> contains_char "/" sheet = false ->
  merged_tables
    (sources_with_mappings (xs1 ++ (id, ET.Document root) :: xs2)
       (mappings_by_source_id ms)) = Ok final ->
  exists mp tables df0 df vs,
    dict_get (mappings_by_source_id ms) id = Some mp
    /\ extract_data_from_one_xml (ET.Document root) mp = Ok tables
    /\ dict_get tables sheet = Some df0
    /\ dict_get final sheet = Some df
    /\ column_values root (xml_path m) = Ok vs
    /\ length vs <= Pandas.nrows df0 /\ Pandas.nrows df0 <= Pandas.nrows df
    /\ Pandas.getitem df0 col
       = vs ++ replicate (Pandas.nrows df0 - length vs) PyNone
    /\ Pandas.getitem df col
       = vs ++ replicate (Pandas.nrows df0 - length vs) PyNone
            ++ replicate (Pandas.nrows df - Pandas.nrows df0) NaN.
Proof.
  intros Hnd Hid Hm Hsource Hexcel Hsheet Hrun.
  set (by_source := mappings_by_source_id ms) in *.
  assert (split1 "/" (excel m) = Some (sheet, col)) as Hsplit
    by (rewrite Hexcel; by apply split1_append).
  assert (mapped_path by_source id sheet col = Some (xml_path m)) as Hpath.
  { apply (grouped_lookup ms id sheet col _ Hnd). by exists m. }
  unfold mapped_path in Hpath.
  destruct (dict_get by_source id) as [mp|] eqn:Hmp; [|done]. simpl in Hpath.
  destruct (dict_get mp sheet) as [cols|] eqn:Hcols; [|done]. simpl in Hpath.
  rewrite sources_with_mappings_app in Hrun. simpl in Hrun. rewrite Hmp in Hrun.
  cut (exists tables df0 df vs,
         extract_data_from_one_xml (ET.Document root) mp = Ok tables
         /\ dict_get tables sheet = Some df0
         /\ dict_get final sheet = Some df
         /\ column_values root (xml_path m) = Ok vs
         /\ length vs <= Pandas.nrows df0 /\ Pandas.nrows df0 <= Pandas.nrows df
         /\ Pandas.getitem df0 col
            = vs ++ replicate (Pandas.nrows df0 - length vs) PyNone
         /\ Pandas.getitem df col
            = vs ++ replicate (Pandas.nrows df0 - length vs) PyNone
                 ++ replicate (Pandas.nrows df - Pandas.nrows df0) NaN).
  { intros (tables & df0 & df & vs & H). by exists mp, tables, df0, df, vs. }
  apply (merged_column (sources_with_mappings xs1 by_source)
           (sources_with_mappings xs2 by_source) root mp sheet col
           (xml_path m) cols final); try done.
  - replace (sources_with_mappings xs1 by_source
             ++ (ET.Document root, mp) :: sources_with_mappings xs2 by_source)
      with (sources_with_mappings (xs1 ++ (id, ET.Document root) :: xs2) by_source).
    + apply sources_with_mappings_valid, grouped_valid.
    + rewrite sources_with_mappings_app. simpl. by rewrite Hmp.
  - intros fm cols' (id' & Hid' & Hfm)%sources_with_mappings_elem Hcols'.
    destruct (dict_get cols' col) as [p'|] eqn:Hp'; [|done].
    destruct Hid. rewrite <- Hsource.
    assert (id' = xml_source_id m) as <-; [|done].
    apply (only_source ms m sheet col id' (snd fm) cols');
      first [done | by rewrite Hp'].
Qed.

End ExportColumn.

(** X15.  From the mapping list to the merged column.  Let the mapping list
    have at most one entry per Excel column, as "Add Mapping" keeps it, and
    let the entry for [sheet/col] name the path [xml_path] and a registered
    source with a well-formed document.  Let [df0] be the table that the
    Value Extractor returns for that source, with its grouped mappings, and
    the sheet.  When steps 1 to 3 of the export succeed, the column [col] of
    [df0] holds the values found in that document for that path, then [None]
    up to the row count of [df0]; the column [col] of the merged table holds
    the same, then NaN up to the row count of the merged table.  No other
    source has the column among its grouped mappings: merging has nothing
    to arbitrate. *)
Theorem export_column (xs1 xs2 : list (string * ET.xml_file)) (id : string)
    (root : ET.Element) (ms : list mapping) (m : mapping) (sheet col : string)
    (final : dict Pandas.DataFrame) :
  NoDup (excel <$> ms) -> id ∉ keys xs1 ->
  m ∈ ms -> xml_source_id m = id ->
  excel m = sheet +:+ "/" +:+ col -> contains_char "/" sheet = false ->
  merged_tables
    (sources_with_mappings (xs1 ++ (id, ET.Document root) :: xs2)
       (mappings_by_source_id ms)) = Ok final ->
  (exists mp tables df0 df vs,
     dict_get (mappings_by_source_id ms) id = Some mp
     /\ extract_data_from_one_xml (ET.Document root) mp = Ok tables
     /\ dict_get tables sheet = Some df0
     /\ dict_get final sheet = Some df
     /\ column_values root (xml_path m) = Ok vs
     /\ length vs <= Pandas.nrows df0 /\ Pandas.nrows df0 <= Pandas.nrows df
     /\ Pandas.getitem df0 col
        = vs ++ replicate (Pandas.nrows df0 - length vs) PyNone
     /\ Pandas.getitem df col
        = vs ++ replicate (Pandas.nrows df0 - length vs) PyNone
             ++ replicate (Pandas.nrows df - Pandas.nrows df0) NaN)
  /\ (forall id' mp' cols',
        dict_get (mappings_by_source_id ms) id' = Some mp' ->
        dict_get mp' sheet = Some cols' -> is_Some (dict_get cols' col) ->
        id' = id).
Proof.
  intros Hnd Hid Hm Hsource Hexcel Hsheet Hrun. split.
  - by apply (export_merged_column xs1 xs2 id root ms m sheet col final).
  - intros id' mp' cols' Hmp' Hcols' Hcol. rewrite <- Hsource.
    by apply (only_source ms m sheet col id' mp' cols').
Qed.

Lemma export_column_witness :
  (exists mp tables df0 df vs,
     dict_get (mappings_by_source_id
                 [mkMapping "Data/Name" "people/person/name" "xml_1";
                  mkMapping "Data/Age" "people/person/age" "xml_1";
                  mkMapping "Data/City" "cities/city" "xml_2"]) "xml_1"
     = Some mp
     /\ extract_data_from_one_xml (ET.Document people_doc) mp = Ok tables
     /\ dict_get tables "Data" = Some df0
     /\ dict_get name_age_city_tables "Data" = Some df
     /\ column_values people_doc "people/person/age" = Ok vs
     /\ length vs <= Pandas.nrows df0 /\ Pandas.nrows df0 <= Pandas.nrows df
     /\ Pandas.getitem df0 "Age"
        = vs ++ replicate (Pandas.nrows df0 - length vs) PyNone
     /\ Pandas.getitem df "Age"
        = vs ++ replicate (Pandas.nrows df0 - length vs) PyNone
             ++ replicate (Pandas.nrows df - Pandas.nrows df0) NaN)
  /\ (forall id' mp' cols',
        dict_get (mappings_by_source_id
                    [mkMapping "Data/Name" "people/person/name" "xml_1";
                     mkMapping "Data/Age" "people/person/age" "xml_1";
                     mkMapping "Data/City" "cities/city" "xml_2"]) id'
        = Some mp' ->
        dict_get mp' "Data" = Some cols' -> is_Some (dict_get cols' "Age") ->
        id' = "xml_1").
Proof.
  apply (export_column [] [("xml_2", ET.Document cities_doc)] "xml_1" people_doc
           [mkMapping "Data/Name" "people/person/name" "xml_1";
            mkMapping "Data/Age" "people/person/age" "xml_1";
            mkMapping "Data/City" "cities/city" "xml_2"]
           (mkMapping "Data/Age" "people/person/age" "xml_1") "Data" "Age"
           name_age_city_tables).
  - apply (bool_decide_unpack _). vm_compute. exact I.
  - apply (bool_decide_unpack _). vm_compute. exact I.
  - apply list_elem_of_further, list_elem_of_here.
  - reflexivity.
  - reflexivity.
  - reflexivity.
  - reflexivity.
Defined.

(** ** The registration of XML sources *)

Section Registration.

Lemma xml_id_inj (j k : nat) :
  "xml_" +:+ pretty j = "xml_" +:+ pretty k -> j = k.
Proof.
  intros H. rewrite !append_cons, !append_nil_l in H. injection H as H.
  by apply (inj pretty) in H.
Qed.

Lemma registered_initial : registered Session.initial.
Proof. unfold registered. simpl. split_and!; try done; constructor. Qed.

Lemma register_known (st : Session.state) (x : Session.uploaded_file) :
  Session.file_id x ∈ Session.processed_xml_file_ids st ->
  Session.register st x = st.
Proof. intros H. unfold Session.register. by rewrite decide_True. Qed.

(** One registration keeps the invariant. *)
Lemma register_registered (st : Session.state) (x : Session.uploaded_file) :
  registered st -> registered (Session.register st x).
Proof.
  intros Hst. unfold Session.register.
  destruct (decide (Session.file_id x ∈ Session.processed_xml_file_ids st))
    as [Hin|Hin]; [done|].
  destruct Hst as (Hids & Hcount & Hnd & Hproc & Htags & Hactive).
  destruct st as [sources processed counter active]. simpl in *. subst counter.
  unfold registered. cbn [Session.xml_sources_data Session.processed_xml_file_ids
    Session.next_xml_internal_id_counter Session.active_xml_source_id_for_mapping].
  rewrite !fmap_app, length_app. simpl.
  replace (length sources + 1) with (S (length sources)) by lia.
  split_and!.
  - rewrite seq_S, fmap_app, Hids. done.
  - done.
  - apply NoDup_app. split; [done|]. split; [|apply NoDup_singleton].
    intros fid Hfid ->%list_elem_of_singleton. apply Hin.
    rewrite Hproc. by apply elem_of_list_to_set.
  - rewrite Hproc, list_to_set_app_L. simpl.
    by rewrite (right_id_L ∅ (∪)), (comm_L (∪)).
  - apply Forall_app. split; [done|]. by repeat constructor.
  - replace (Nat.eqb (S (length sources)) 0) with false by done.
    rewrite andb_true_r. subst active. destruct sources as [|s sources]; [done|].
    simpl in *. injection Hids as -> _. done.
Qed.

Lemma registered_fold (files : list Session.uploaded_file) :
  forall st, registered st -> registered (foldl Session.register st files).
Proof.
  induction files as [|x files IH]; intros st Hst; [done|].
  simpl. by apply IH, register_registered.
Qed.

(** The ids of the files seen so far. *)
Lemma processed_fold (files : list Session.uploaded_file) :
  forall st,
  Session.processed_xml_file_ids (foldl Session.register st files)
  = Session.processed_xml_file_ids st ∪ list_to_set (Session.file_id <$> files).
Proof.
  induction files as [|x files IH]; intros st; simpl.
  { by rewrite (right_id_L ∅ (∪)). }
  rewrite IH. unfold Session.register.
  destruct (decide (Session.file_id x ∈ Session.processed_xml_file_ids st))
    as [Hin|Hin]; simpl.
  - apply set_eq. intros y. rewrite !elem_of_union, elem_of_singleton.
    split; [tauto|]. intros [?|[->|?]]; tauto.
  - by rewrite (assoc_L (∪)), (comm_L (∪) {[_]}).
Qed.

End Registration.

(** X16.  The registered sources.  After any sequence of uploads, starting
    from a new session: the sources have the ids [xml_1], [xml_2], ... in the
    order of registration, so the ids are distinct; the counter is one more
    than the number of sources; each uploaded file is registered once,
    however often it is offered, and offering it again changes nothing; the
    path list kept with a source is the Path Extractor's list for its file;
    and the active source is the first source. *)
Theorem registered_sources_invariant (files : list Session.uploaded_file) :
  let st := foldl Session.register Session.initial files in
  registered st
  /\ NoDup (keys (Session.sources_of st))
  /\ Session.processed_xml_file_ids st = list_to_set (Session.file_id <$> files)
  /\ (forall fid, fid ∈ Session.source_file_id <$> Session.xml_sources_data st
                  <-> fid ∈ Session.file_id <$> files)
  /\ (forall x, x ∈ files -> Session.register st x = st).
Proof.
  cbv zeta. set (st := foldl Session.register Session.initial files).
  pose proof (registered_fold files _ registered_initial) as Hreg.
  fold st in Hreg.
  pose proof (processed_fold files Session.initial) as Hproc. fold st in Hproc.
  assert (Session.processed_xml_file_ids st
          = list_to_set (Session.file_id <$> files)) as Hproc'.
  { rewrite Hproc. simpl. by rewrite (left_id_L ∅ (∪)). }
  split; [done|]. split_and!.
  - destruct Hreg as (Hids & _).
    assert (keys (Session.sources_of st)
            = Session.id <$> Session.xml_sources_data st) as ->.
    { unfold keys, Session.sources_of. rewrite map_map. done. }
    rewrite Hids. apply NoDup_fmap_2; [|apply NoDup_seq].
    intros j k. apply xml_id_inj.
  - done.
  - intros fid. destruct Hreg as (_ & _ & _ & Hp & _).
    rewrite <- (elem_of_list_to_set (C := gset string)), <- Hp, Hproc'.
    apply elem_of_list_to_set.
  - intros x Hx. apply register_known. rewrite Hproc'.
    apply elem_of_list_to_set. by apply list_elem_of_fmap_2.
Qed.

(** ** The guards of step 2 and the outcome of an export *)

Section Steps.

Implicit Types (sources : list (ET.xml_file * dict (dict string))).

(** Re-indexing a rectangular table to its own row count changes nothing. *)
Lemma reindex_same (df : Pandas.DataFrame) :
  Pandas.well_formed df -> Pandas.reindex df (Pandas.nrows df) = df.
Proof.
  intros Hwf. destruct df as [n cols]. unfold Pandas.reindex, Pandas.well_formed in *.
  simpl in *. f_equal. induction Hwf as [|[c v] cols Hv _ IH]; [done|].
  simpl in *. by rewrite IH, align_to_exact.
Qed.

(** Steps 1 and 2 succeed exactly when every source can be extracted, and
    fail with the error of the first source that cannot. *)
Lemma max_rows_per_sheet_Ok sources :
  forall acc,
  Forall (fun fm => is_Ok (extract_data_from_one_xml (fst fm) (snd fm)) = true)
         sources ->
  exists mr, max_rows_per_sheet sources acc = Ok mr.
Proof.
  induction sources as [|[f m] sources IH]; intros acc Hall; [by eexists|].
  apply Forall_cons in Hall as [Hfm Hall]. simpl in *.
  destruct (extract_data_from_one_xml f m); [|done|done]. simpl. by apply IH.
Qed.

Lemma all_extracted_data_Ok (mr : dict nat) sources :
  Forall (fun fm => is_Ok (extract_data_from_one_xml (fst fm) (snd fm)) = true)
         sources ->
  exists all, all_extracted_data mr sources = Ok all.
Proof.
  induction sources as [|[f m] sources IH]; intros Hall; [by eexists|].
  apply Forall_cons in Hall as [Hfm Hall]. simpl in *.
  destruct (extract_data_from_one_xml f m); [|done|done]. simpl.
  destruct (IH Hall) as [all ->]. by eexists.
Qed.

Lemma max_rows_per_sheet_first_error sources (f : ET.xml_file)
    (m : dict (dict string)) (after : list (ET.xml_file * dict (dict string)))
    (e : exn) :
  Forall (fun fm => is_Ok (extract_data_from_one_xml (fst fm) (snd fm)) = true)
         sources ->
  extract_data_from_one_xml f m = Raise e ->
  forall acc, max_rows_per_sheet (sources ++ (f, m) :: after) acc = Raise e.
Proof.
  intros Hall Hfm. induction Hall as [|[f' m'] sources Hok _ IH]; intros acc; simpl.
  - by rewrite Hfm.
  - simpl in Hok. destruct (extract_data_from_one_xml f' m'); [|done|done].
    simpl. apply IH.
Qed.

End Steps.

(** X17.  The guards of step 2 are never needed.  For every table that a
    source of the export extracts, step 1 has recorded a row count for its
    sheet (the branch for a sheet without a count is not taken), that count
    is at least the table's row count (no table is cut), and what step 2
    keeps is the table re-indexed to that count, also when the table
    already has that many rows. *)
Theorem reindex_guards (sources : list (ET.xml_file * dict (dict string)))
    (max_rows : dict nat) (fm : ET.xml_file * dict (dict string))
    (tables : dict Pandas.DataFrame) (sheet : string) (df : Pandas.DataFrame) :
  Forall (fun fm => valid_mappings (snd fm)) sources ->
  max_rows_per_sheet sources [] = Ok max_rows ->
  fm ∈ sources -> extract_data_from_one_xml (fst fm) (snd fm) = Ok tables ->
  dict_get tables sheet = Some df ->
  exists target_rows,
    dict_get max_rows sheet = Some target_rows
    /\ Pandas.nrows df <= target_rows
    /\ dict_get (reindexed_data_for_this_xml max_rows tables) sheet
       = Some (Pandas.reindex df target_rows).
Proof.
  intros Hvalid Hmr Hfm Ht Hdf.
  destruct (max_rows_per_sheet_spec sources Hvalid [] max_rows sheet Hmr)
    as (Hle & _).
  destruct (Hle fm tables df Hfm Ht Hdf) as (n & Hn & Hbound).
  exists n. split; [done|]. split; [done|].
  rewrite Forall_forall in Hvalid.
  pose proof (extract_valid _ _ tables (Hvalid fm Hfm) Ht) as [Hnd Hall].
  rewrite (reindexed_get max_rows tables sheet Hnd), Hdf. simpl. f_equal.
  unfold reindex_to, Pandas.len. rewrite Hn.
  destruct (Nat.ltb_spec (Pandas.nrows df) n) as [|Hge]; [done|].
  assert (n = Pandas.nrows df) as -> by lia. symmetry. apply reindex_same.
  apply dict_get_Some_elem in Hdf. rewrite Forall_forall in Hall.
  by destruct (Hall _ Hdf).
Qed.

Lemma reindex_guards_witness :
  exists target_rows,
    dict_get [("Data", 3)] "Data" = Some target_rows
    /\ Pandas.nrows (Pandas.mkDataFrame 2 [("Name", [Str "Alice"; Str "Bob"])])
       <= target_rows
    /\ dict_get (reindexed_data_for_this_xml [("Data", 3)]
                   [("Data", Pandas.mkDataFrame 2
                               [("Name", [Str "Alice"; Str "Bob"])])]) "Data"
       = Some (Pandas.reindex
                 (Pandas.mkDataFrame 2 [("Name", [Str "Alice"; Str "Bob"])])
                 target_rows).
Proof.
  apply (reindex_guards [name_source; city_source] [("Data", 3)] name_source
           [("Data", Pandas.mkDataFrame 2 [("Name", [Str "Alice"; Str "Bob"])])]
           "Data").
  - apply (bool_decide_unpack _). vm_compute. exact I.
  - reflexivity.
  - apply list_elem_of_here.
  - reflexivity.
  - reflexivity.
Defined.

(** X18.  When an export gets as far as writing.  Steps 1 to 3 produce the
    merged tables exactly when the Value Extractor returns tables for every
    source that the export visits: the only errors of these steps are those
    of the extraction.  So an export that returns a workbook has extracted
    every source, and when the extraction fails for some source and succeeds
    for all sources before it, the export ends with the error of that
    source, whatever the template. *)
Theorem export_outcome (template : Openpyxl.Workbook)
    (sources : list (ET.xml_file * dict (dict string))) :
  (is_Ok (merged_tables sources) = true
   <-> Forall (fun fm => is_Ok (extract_data_from_one_xml (fst fm) (snd fm)) = true)
              sources)
  /\ (is_Ok (generate_excel template sources) = true ->
      is_Ok (merged_tables sources) = true)
  /\ (forall before f m after e,
        sources = before ++ (f, m) :: after ->
        Forall (fun fm => is_Ok (extract_data_from_one_xml (fst fm) (snd fm)) = true)
               before ->
        extract_data_from_one_xml f m = Raise e ->
        merged_tables sources = Raise e
        /\ generate_excel template sources = Raise e).
Proof.
  split; [split|split].
  - unfold merged_tables.
    destruct (max_rows_per_sheet sources []) as [mr| |] eqn:Hmr; [|done|done].
    intros _. revert Hmr. generalize ([] : dict nat).
    induction sources as [|[f m] sources IH]; intros acc Hmr; [constructor|].
    simpl in Hmr.
    destruct (extract_data_from_one_xml f m) as [t| |] eqn:Ht; [|done|done].
    constructor; [by simpl; rewrite Ht|]. by apply (IH _ Hmr).
  - intros Hall. unfold merged_tables.
    destruct (max_rows_per_sheet_Ok sources [] Hall) as [mr ->]. simpl.
    by destruct (all_extracted_data_Ok mr sources Hall) as [all ->].
  - unfold generate_excel. by destruct (merged_tables sources).
  - intros before f m after e -> Hbefore Hfm.
    unfold generate_excel, merged_tables.
    by rewrite (max_rows_per_sheet_first_error before f m after e Hbefore Hfm).
Qed.

(** ** From a mapping to the cells of the workbook *)

Section EndToEnd.

Lemma lookup_padded (vs : list value) (k n i : nat) :
  length vs <= k -> k <= n ->
  (vs ++ replicate (k - length vs) PyNone ++ replicate (n - k) NaN) !! i
  = if decide (i < length vs) then vs !! i
    else if decide (i < k) then Some PyNone
    else if decide (i < n) then Some NaN
    else None.
Proof.
  intros Hk Hn. destruct (decide (i < length vs)) as [Hi|Hi].
  { by apply lookup_app_l. }
  rewrite lookup_app_r by lia. destruct (decide (i < k)) as [Hik|Hik].
  { rewrite lookup_app_l by (rewrite length_replicate; lia).
    apply lookup_replicate_2. lia. }
  rewrite lookup_app_r by (rewrite length_replicate; lia).
  rewrite length_replicate. destruct (decide (i < n)) as [Hin|Hin].
  - apply lookup_replicate_2. lia.
  - apply lookup_ge_None_2. rewrite length_replicate. lia.
Qed.

End EndToEnd.

(** X19.  From a mapping to the cells of the workbook.  Let the mapping
    list have at most one entry per Excel column, let its entry for
    [sheet/col] name a registered source with a well-formed document, and
    let the template sheet show the header [col] last in column [c].  Let
    [df0] be the table that the Value Extractor returns for that source and
    sheet, and [df] the merged table of the sheet.  When the export returns
    a workbook, column [c] of that sheet of the workbook holds, from row 2
    on, the values found in the document for the mapped path, each in its
    own row (a [None] among them leaves its cell as the template had it);
    the rows after them up to the row count of [df0] keep the template's
    cells; the rows after those up to the row count of [df] hold NaN; and
    all rows below, and row 1, keep the template's cells.  This is the
    workbook as it is handed to [save]. *)
Theorem export_cells (template : Openpyxl.Workbook)
    (xs1 xs2 : list (string * ET.xml_file)) (id : string)
    (root : ET.Element) (ms : list mapping) (m : mapping) (sheet col : string)
    (ws : gmap (nat * nat) value) (c : nat) (wb : Openpyxl.Workbook) :
  NoDup (excel <$> ms) -> id ∉ keys xs1 ->
  m ∈ ms -> xml_source_id m = id ->
  excel m = sheet +:+ "/" +:+ col -> contains_char "/" sheet = false ->
  NoDup (keys template) -> dict_get template sheet = Some ws ->
  1 <= c -> Openpyxl.cell_value ws 1 c = Str col ->
  (forall c', c < c' -> Openpyxl.cell_value ws 1 c' <> Str col) ->
  export template (xs1 ++ (id, ET.Document root) :: xs2) ms = Some (Ok wb) ->
  exists ws' mp tables df0 final df vs,
    dict_get wb sheet = Some ws'
    /\ dict_get (mappings_by_source_id ms) id = Some mp
    /\ extract_data_from_one_xml (ET.Document root) mp = Ok tables
    /\ dict_get tables sheet = Some df0
    /\ merged_tables
         (sources_with_mappings (xs1 ++ (id, ET.Document root) :: xs2)
            (mappings_by_source_id ms)) = Ok final
    /\ dict_get final sheet = Some df
    /\ column_values root (xml_path m) = Ok vs
    /\ length vs <= Pandas.nrows df0 /\ Pandas.nrows df0 <= Pandas.nrows df
    /\ (forall i v, vs !! i = Some v ->
          ws' !! (i + 2, c) = if is_None v then ws !! (i + 2, c) else Some v)
    /\ (forall i, length vs <= i < Pandas.nrows df0 ->
          ws' !! (i + 2, c) = ws !! (i + 2, c))
    /\ (forall i, Pandas.nrows df0 <= i < Pandas.nrows df ->
          ws' !! (i + 2, c) = Some NaN)
    /\ (forall r, Pandas.nrows df + 2 <= r -> ws' !! (r, c) = ws !! (r, c))
    /\ (forall c', ws' !! (1, c') = ws !! (1, c')).
Proof.
  intros Hnd Hid Hm Hsource Hexcel Hsheet Hndt Hws Hc Hcell Hlast Hrun.
  unfold export in Hrun.
  destruct ms as [|m0 ms0] eqn:Hms; [by apply elem_of_nil in Hm|].
  rewrite <- Hms in *. clear Hms m0 ms0. injection Hrun as Hrun.
  unfold generate_excel in Hrun.
  destruct (merged_tables _) as [final| |] eqn:Hfinal; [|done|done].
  simpl in Hrun. injection Hrun as <-.
  destruct (export_merged_column xs1 xs2 id root ms m sheet col final
              Hnd Hid Hm Hsource Hexcel Hsheet Hfinal)
    as (mp & tables & df0 & df & vs & Hmp & Ht & Hdf0 & Hdf & Hvs & Hk & Hn
        & _ & Hcol).
  exists (write_sheet ws df), mp, tables, df0, final, df, vs.
  split; [by rewrite (write_get template final sheet ws), Hdf|].
  do 8 (split; [done|]).
  set (k := Pandas.nrows df0) in *.
  assert (length (Pandas.getitem df col) = Pandas.nrows df) as Hlen.
  { rewrite Hcol, !length_app, !length_replicate. lia. }
  assert (Pandas.empty df = false ->
          forall i v, Pandas.getitem df col !! i = Some v ->
            write_sheet ws df !! (i + 2, c)
            = if is_None v then ws !! (i + 2, c) else Some v) as Hcellv.
  { intros Hempty i v Hv. rewrite write_sheet_unfold, Hempty.
    rewrite (write_matched_cell _ df _ col c i v
               (index_map_last ws col c Hc Hcell Hlast)); [|
      intros h' _ (_ & Hcell' & _)%index_map_matched; congruence|done].
    rewrite decide_True; [done|]. apply dict_get_is_Some.
    unfold Pandas.getitem in Hv.
    destruct (dict_get (Pandas.columns df) col); [by eexists|done]. }
  destruct (Pandas.empty df) eqn:Hempty.
  - assert (Pandas.nrows df = 0) as Hz.
    { unfold Pandas.empty in Hempty.
      apply orb_true_iff in Hempty as [H|H]; apply Nat.eqb_eq in H; [done|].
      rewrite <- Hlen. unfold Pandas.getitem.
      by destruct (Pandas.columns df). }
    rewrite write_sheet_unfold, Hempty. split_and!; try done.
    + intros i v Hv%lookup_lt_Some. lia.
    + intros i ?. lia.
  - specialize (Hcellv eq_refl).
    pose proof (lookup_padded vs k (Pandas.nrows df)) as Hpad.
    split_and!.
    + intros i v Hv. apply Hcellv. rewrite Hcol, Hpad by done.
      rewrite decide_True; [done|]. by apply lookup_lt_Some in Hv.
    + intros i Hi. rewrite (Hcellv i PyNone); [done|].
      rewrite Hcol, Hpad by done.
      rewrite decide_False by lia. by rewrite decide_True by lia.
    + intros i Hi. rewrite (Hcellv i NaN); [done|].
      rewrite Hcol, Hpad by done.
      rewrite decide_False by lia. rewrite decide_False by lia.
      by rewrite decide_True by lia.
    + intros r Hr. apply write_sheet_frame. intros h Hh Hcell'.
      assert (h = col) as -> by congruence. lia.
    + intros c'. apply write_sheet_first_row.
Qed.

Lemma export_cells_witness :
  exists ws' mp tables df0 final df vs,
    dict_get [("Data", {[ (1, 1) := Str "Name"; (1, 2) := Str "Age";
                          (1, 3) := Str "City";
                          (2, 1) := Str "Alice"; (3, 1) := Str "Bob";
                          (4, 1) := NaN;
                          (2, 2) := Str "30"; (3, 2) := Str "kept";
                          (4, 2) := NaN; (5, 2) := Str "below";
                          (2, 3) := Str "X"; (3, 3) := Str "Y";
                          (4, 3) := Str "Z" ]} : gmap (nat * nat) value)]
             "Data" = Some ws'
    /\ dict_get (mappings_by_source_id
                   [mkMapping "Data/Name" "people/person/name" "xml_1";
                    mkMapping "Data/Age" "people/person/age" "xml_1";
                    mkMapping "Data/City" "cities/city" "xml_2"]) "xml_1"
       = Some mp
    /\ extract_data_from_one_xml (ET.Document people_doc) mp = Ok tables
    /\ dict_get tables "Data" = Some df0
    /\ merged_tables
         (sources_with_mappings
            ([] ++ ("xml_1", ET.Document people_doc)
                   :: [("xml_2", ET.Document cities_doc)])
            (mappings_by_source_id
               [mkMapping "Data/Name" "people/person/name" "xml_1";
                mkMapping "Data/Age" "people/person/age" "xml_1";
                mkMapping "Data/City" "cities/city" "xml_2"])) = Ok final
    /\ dict_get final "Data" = Some df
    /\ column_values people_doc "people/person/age" = Ok vs
    /\ length vs <= Pandas.nrows df0 /\ Pandas.nrows df0 <= Pandas.nrows df
    /\ (forall i v, vs !! i = Some v ->
          ws' !! (i + 2, 2)
          = if is_None v then age_template_sheet !! (i + 2, 2) else Some v)
    /\ (forall i, length vs <= i < Pandas.nrows df0 ->
          ws' !! (i + 2, 2) = age_template_sheet !! (i + 2, 2))
    /\ (forall i, Pandas.nrows df0 <= i < Pandas.nrows df ->
          ws' !! (i + 2, 2) = Some NaN)
    /\ (forall r, Pandas.nrows df + 2 <= r ->
          ws' !! (r, 2) = age_template_sheet !! (r, 2))
    /\ (forall c', ws' !! (1, c') = age_template_sheet !! (1, c')).
Proof.
  apply (export_cells [("Data", age_template_sheet)]
           [] [("xml_2", ET.Document cities_doc)] "xml_1" people_doc
           [mkMapping "Data/Name" "people/person/name" "xml_1";
            mkMapping "Data/Age" "people/person/age" "xml_1";
            mkMapping "Data/City" "cities/city" "xml_2"]
           (mkMapping "Data/Age" "people/person/age" "xml_1") "Data" "Age"
           age_template_sheet 2).
  - apply (bool_decide_unpack _). vm_compute. exact I.
  - apply (bool_decide_unpack _). vm_compute. exact I.
  - apply list_elem_of_further, list_elem_of_here.
  - reflexivity.
  - reflexivity.
  - reflexivity.
  - apply (bool_decide_unpack _). vm_compute. exact I.
  - reflexivity.
  - lia.
  - reflexivity.
  - intros c' Hc' Hcell. apply cell_value_Str in Hcell.
    pose proof (max_column_bound _ _ _ _ Hcell) as Hmax. vm_compute in Hmax.
    assert (c' = 3) as -> by lia. vm_compute in Hcell. discriminate Hcell.
  - vm_compute. reflexivity.
Defined.

(** ** The worked examples of the specification *)

(** One document, two columns of different lengths: [Age] is padded. *)
Example people_tables :
  extract_data_from_one_xml (ET.Document people_doc) people_mapping
  = Ok [("Data", Pandas.mkDataFrame 2
                   [("Name", [Str "Alice"; Str "Bob"]);
                    ("Age", [Str "30"; PyNone])])].
Proof. reflexivity. Qed.

(** Row 2 is Alice/30, row 3 is Bob and a cell that stays blank. *)
Example people_workbook :
  generate_excel name_age_template [(ET.Document people_doc, people_mapping)]
  = Ok [("Data", {[ (1, 1) := Str "Name"; (1, 2) := Str "Age";
                    (2, 1) := Str "Alice"; (2, 2) := Str "30";
                    (3, 1) := Str "Bob" ]})].
Proof. vm_compute. reflexivity. Qed.

(** Two documents for one sheet: [Name] (2 rows) from the first, [City]
    (3 rows) from the second; the merged table has 3 rows and [Name] ends
    with one missing value. *)
Example two_sources_tables :
  merged_tables
    [(ET.Document people_doc, [("Data", [("Name", "people/person/name")])]);
     (ET.Document cities_doc, [("Data", [("City", "cities/city")])])]
  = Ok [("Data", Pandas.mkDataFrame 3
                   [("Name", [Str "Alice"; Str "Bob"; NaN]);
                    ("City", [Str "X"; Str "Y"; Str "Z"])])].
Proof. reflexivity. Qed.

(** The path list of the first document. *)
Example people_paths :
  extract_xml_tags (ET.Document people_doc)
  = ["people/person/age"; "people/person/name"].
Proof. reflexivity. Qed.
